(** * eCPRI / O-RAN fronthaul capture generators: byte-level model

    A shallow embedding of the three generator scripts
    [create_large_pcap.py], [create_sample_pcap.py] and
    [create_test_samples.py].  Python integers are [Z], byte strings are
    [list byte], and a raised exception is the [Raise] branch of [result].
    [struct.pack] is modelled with its range checks, since several of the
    properties below are about when packing succeeds.  The file writers
    ([create_*_pcap], [main]) and the record header, which splits a
    floating-point timestamp, are outside what is proved here. *)

From Stdlib Require Import ZArith List Lia Bool String Ascii.
From Stdlib Require Import Strings.Byte.
Import ListNotations.
Open Scope Z_scope.

(** ** Exceptions and results *)

Inductive exn : Type :=
| StructError        (* struct.error: value out of range for a format code *)
| ValueError         (* bytes.fromhex on a non-hex string, randint on an empty range,
                        int() of a NaN *)
| ZeroDivisionError
| OverflowError.     (* int() of an infinite float *)

Inductive result (A : Type) : Type :=
| Ok (a : A)
| Raise (e : exn).
Arguments Ok {A} a.
Arguments Raise {A} e.

Definition bind {A B : Type} (m : result A) (k : A -> result B) : result B :=
  match m with
  | Ok a => k a
  | Raise e => Raise e
  end.

Declare Scope py_scope.
Delimit Scope py_scope with py.
Notation "x <- m ;; k" := (bind m (fun x => k))
  (at level 61, m at next level, right associativity) : py_scope.
Open Scope py_scope.

(** ** Bytes *)

Definition bytes : Type := list byte.

Definition len {A : Type} (l : list A) : Z := Z.of_nat (List.length l).

Definition byte_of_Z (z : Z) : byte :=
  match Byte.of_N (Z.to_N (z mod 256)) with
  | Some b => b
  | None => x00
  end.

Definition Z_of_byte (b : byte) : Z := Z.of_N (Byte.to_N b).

(** Little-endian and big-endian renderings of the low [n] octets of an
    integer (two's complement for a negative one: [Z.shiftr] is the
    arithmetic shift and [byte_of_Z] keeps the low eight bits). *)
Fixpoint le_bytes (n : nat) (z : Z) : bytes :=
  match n with
  | O => []
  | S k => byte_of_Z z :: le_bytes k (Z.shiftr z 8)
  end.

Definition be_bytes (n : nat) (z : Z) : bytes := rev (le_bytes n z).

(** Unsigned readings of a byte string. *)
Fixpoint le_decode (bs : bytes) : Z :=
  match bs with
  | [] => 0
  | b :: rest => Z_of_byte b + 256 * le_decode rest
  end.

Definition be_decode (bs : bytes) : Z := le_decode (rev bs).

(** Python slices [b[i:j]], [b[:j]] and [b[i:]] for indices within range. *)
Definition slice {A : Type} (i j : nat) (l : list A) : list A :=
  firstn (j - i) (skipn i l).

(** ** struct.pack

    Only the format codes the scripts use.  With an explicit byte-order
    character ('>' or '<') sizes are the standard ones and no padding is
    inserted.  A value outside the code's range raises [struct.error]. *)

Inductive byte_order : Type := BigEndian | LittleEndian.

Inductive fmt_code : Type :=
| fmt_B   (* unsigned char,  1 octet  *)
| fmt_H   (* unsigned short, 2 octets *)
| fmt_h   (* signed short,   2 octets *)
| fmt_L.  (* unsigned long,  4 octets *)

Definition code_size (c : fmt_code) : nat :=
  match c with
  | fmt_B => 1
  | fmt_H | fmt_h => 2
  | fmt_L => 4
  end%nat.

Definition code_min (c : fmt_code) : Z :=
  match c with
  | fmt_h => -32768
  | _ => 0
  end.

Definition code_max (c : fmt_code) : Z :=
  match c with
  | fmt_B => 255
  | fmt_H => 65535
  | fmt_h => 32767
  | fmt_L => 4294967295
  end.

Definition pack_one (o : byte_order) (c : fmt_code) (v : Z) : result bytes :=
  if (code_min c <=? v) && (v <=? code_max c) then
    Ok (match o with
        | BigEndian => be_bytes (code_size c) v
        | LittleEndian => le_bytes (code_size c) v
        end)
  else Raise StructError.

Fixpoint struct_pack (o : byte_order) (cs : list fmt_code) (vs : list Z)
  : result bytes :=
  match cs, vs with
  | [], [] => Ok []
  | c :: cs', v :: vs' =>
      b <- pack_one o c v ;;
      r <- struct_pack o cs' vs' ;;
      Ok (b ++ r)
  | _, _ => Raise StructError
  end.

(** ** bytes.fromhex and str.replace

    [bytes.fromhex] reads pairs of hexadecimal digits, skipping ASCII
    whitespace in front of a pair; anything else is a [ValueError]. *)

Definition hex_digit (c : ascii) : option Z :=
  let n := Z.of_N (N_of_ascii c) in
  if (48 <=? n) && (n <=? 57) then Some (n - 48)
  else if (97 <=? n) && (n <=? 102) then Some (n - 87)
  else if (65 <=? n) && (n <=? 70) then Some (n - 55)
  else None.

Definition is_space (c : ascii) : bool :=
  let n := Z.of_N (N_of_ascii c) in
  (n =? 32) || ((9 <=? n) && (n <=? 13)).

Fixpoint fromhex (s : string) : result bytes :=
  match s with
  | EmptyString => Ok []
  | String c rest =>
      if is_space c then fromhex rest
      else
        match hex_digit c, rest with
        | Some top, String d rest' =>
            match hex_digit d with
            | Some bot =>
                r <- fromhex rest' ;;
                Ok (byte_of_Z (Z.shiftl top 4 + bot) :: r)
            | None => Raise ValueError
            end
        | _, _ => Raise ValueError
        end
  end.

(** [s.replace(c, '')] for a one-character [c]. *)
Fixpoint remove_char (c : ascii) (s : string) : string :=
  match s with
  | EmptyString => EmptyString
  | String d rest =>
      if Ascii.eqb d c then remove_char c rest
      else String d (remove_char c rest)
  end.

(** ** The header encoders

    [create_pcap_global_header], [create_ethernet_header] and
    [create_oran_header] are the same text in the three scripts;
    [create_ecpri_header] takes [payload_size] in two of them and writes
    a zero in the third. *)

Definition create_pcap_global_header : result bytes :=
  let magic := 0xa1b2c3d4 in
  let version_major := 2 in
  let version_minor := 4 in
  let thiszone := 0 in
  let sigfigs := 0 in
  let snaplen := 65535 in
  let network := 1 in
  struct_pack LittleEndian
    [fmt_L; fmt_H; fmt_H; fmt_L; fmt_L; fmt_L; fmt_L]
    [magic; version_major; version_minor; thiszone; sigfigs; snaplen; network].

Definition mac_to_bytes (mac_str : string) : result bytes :=
  fromhex (remove_char ":"%char mac_str).

Definition default_src_mac : string := "00:11:22:33:44:55"%string.
Definition default_dst_mac : string := "aa:bb:cc:dd:ee:ff"%string.

Definition create_ethernet_header (src_mac dst_mac : string) : result bytes :=
  dst <- mac_to_bytes dst_mac ;;
  src <- mac_to_bytes src_mac ;;
  let ethertype := 0xaefe in
  et <- struct_pack BigEndian [fmt_H] [ethertype] ;;
  Ok (dst ++ src ++ et).

Definition create_oran_header
  (frame_id subframe_id slot_id symbol_id section_id start_prbu num_prbu : Z)
  : result bytes :=
  let byte0 := Z.lor (Z.lor (Z.shiftl 0 7) (Z.shiftl 1 4)) (Z.land 0 0x0f) in
  let byte2 := Z.lor (Z.shiftl subframe_id 4) (Z.land slot_id 0x0f) in
  let byte3 := Z.lor (Z.shiftl symbol_id 2) 0 in
  let section_fields :=
    Z.lor (Z.lor (Z.lor (Z.lor (Z.shiftl section_id 20) (Z.shiftl 1 19))
                        (Z.shiftl 0 18))
                 (Z.shiftl start_prbu 8))
          num_prbu in
  h <- struct_pack BigEndian [fmt_B; fmt_B; fmt_B; fmt_B]
         [byte0; frame_id; byte2; byte3] ;;
  s <- struct_pack BigEndian [fmt_L] [section_fields] ;;
  Ok (h ++ s).

Definition default_num_prbu : Z := 273.

(** [create_ecpri_header] of [create_large_pcap.py] and
    [create_test_samples.py]: the payload size is an argument. *)
Definition create_ecpri_header (message_type rtc_id seq_id payload_size : Z)
  : result bytes :=
  let byte0 :=
    Z.lor (Z.lor (Z.lor (Z.shiftl 1 4) (Z.shiftl 0 3)) (Z.shiftl 0 2))
          (Z.land message_type 0x03) in
  struct_pack BigEndian [fmt_B; fmt_H; fmt_H; fmt_H]
    [byte0; payload_size; rtc_id; seq_id].

(** ** Floating point and the random module

    The waveform arithmetic runs on IEEE doubles and on Python's global
    Mersenne Twister.  Neither is modelled bit for bit: both are
    interfaces, and what a proof needs of them is stated where it is
    used.  [int_of_float] is [int(x)] and [int_truediv] is [i / n] on
    integers; they raise only on a non-finite argument and on a zero
    divisor (the latter is checked in [truediv] below; the former does
    not arise, every operand being a finite double). *)

Class PyFloat : Type := {
  float : Type;
  float_of_int : Z -> float;
  int_truediv : Z -> Z -> float;
  fmul : float -> float -> float;
  fadd : float -> float -> float;
  math_pi : float;
  math_cos : float -> float;
  math_sin : float -> float;
  int_of_float : float -> Z
}.

Class PyRandom (F : PyFloat) : Type := {
  rng_state : Type;
  seed_state : Z -> rng_state;
  randint_draw : Z -> Z -> rng_state -> Z * rng_state;
  random_draw : rng_state -> float * rng_state
}.

Declare Scope float_scope.
Delimit Scope float_scope with flt.
Infix "*~" := fmul (at level 40, left associativity) : float_scope.
Infix "+~" := fadd (at level 50, left associativity) : float_scope.
Open Scope float_scope.

(** [for i in range(n)]: the indices visited. *)
Definition py_range (n : Z) : list Z := map Z.of_nat (seq 0 (Z.to_nat n)).

Definition pack_hh (i_sample q_sample : Z) : result bytes :=
  struct_pack BigEndian [fmt_h; fmt_h] [i_sample; q_sample].

Section PyMonad.

Context {F : PyFloat} {R : PyRandom F}.

(** Code that reads or writes the module-level generator state: the
    state goes in and comes out, also when an exception is raised. *)
Definition py (A : Type) : Type := rng_state -> result A * rng_state.

Definition ret {A : Type} (a : A) : py A := fun s => (Ok a, s).

Definition lift {A : Type} (r : result A) : py A := fun s => (r, s).

Definition py_bind {A B : Type} (m : py A) (k : A -> py B) : py B :=
  fun s =>
    match m s with
    | (Ok a, s') => k a s'
    | (Raise e, s') => (Raise e, s')
    end.

Notation "x <~ m ;; k" := (py_bind m (fun x => k))
  (at level 61, m at next level, right associativity).

Definition random_seed (seed : Z) : py unit :=
  fun _ => (Ok tt, seed_state seed).

Definition random_randint (a b : Z) : py Z :=
  fun s =>
    if b <? a then (Raise ValueError, s)
    else let (v, s') := randint_draw a b s in (Ok v, s').

Definition random_random : py float :=
  fun s => let (x, s') := random_draw s in (Ok x, s').

Definition truediv (i n : Z) : result float :=
  if n =? 0 then Raise ZeroDivisionError else Ok (int_truediv i n).

(** The loop [for i in xs: samples.append(body(i))], returning [samples]. *)
Fixpoint for_range (xs : list Z) (body : Z -> py bytes) : py (list bytes) :=
  match xs with
  | [] => ret []
  | i :: xs' =>
      b <~ body i ;;
      rest <~ for_range xs' body ;;
      ret (b :: rest)
  end.

End PyMonad.

Notation "x <~ m ;; k" := (py_bind m (fun x => k))
  (at level 61, m at next level, right associativity) : py_scope.

(** ** create_large_pcap.py *)

Module LargePcap.
Section Generators.

Context {F : PyFloat} {R : PyRandom F}.

Definition generate_iq_samples_fast (num_samples pattern_type seed : Z)
  : py bytes :=
  _ <~ random_seed seed ;;
  samples <~
    (if pattern_type =? 0 then
       r <~ random_randint (-500) 500 ;;
       let amplitude := 2000 + r in
       u <~ random_random ;;
       let frequency := float_of_int 1 +~ u *~ float_of_int 3 in
       v <~ random_random ;;
       let phase := v *~ float_of_int 2 *~ math_pi in
       for_range (py_range num_samples) (fun i =>
         d <~ lift (truediv i num_samples) ;;
         let t := d *~ float_of_int 2 *~ math_pi *~ frequency +~ phase in
         let i_sample := int_of_float (float_of_int amplitude *~ math_cos t) in
         let q_sample := int_of_float (float_of_int amplitude *~ math_sin t) in
         let i_sample := Z.max (-32768) (Z.min 32767 i_sample) in
         let q_sample := Z.max (-32768) (Z.min 32767 q_sample) in
         lift (pack_hh i_sample q_sample))
     else if pattern_type =? 1 then
       r <~ random_randint (-300) 300 ;;
       let amplitude := 1000 + r in
       for_range (py_range num_samples) (fun i =>
         i_sample <~ random_randint (- amplitude) amplitude ;;
         q_sample <~ random_randint (- amplitude) amplitude ;;
         lift (pack_hh i_sample q_sample))
     else if pattern_type =? 2 then
       r <~ random_randint (-50) 50 ;;
       let amplitude := 200 + r in
       for_range (py_range num_samples) (fun i =>
         d <~ lift (truediv i num_samples) ;;
         let t := d *~ float_of_int 2 *~ math_pi in
         let i_sample := int_of_float (float_of_int amplitude *~ math_cos t) in
         let q_sample := int_of_float (float_of_int amplitude *~ math_sin t) in
         lift (pack_hh i_sample q_sample))
     else
       r <~ random_randint (-1000) 1000 ;;
       let amplitude := 6000 + r in
       for_range (py_range num_samples) (fun i =>
         d <~ lift (truediv i num_samples) ;;
         let t := d *~ float_of_int 2 *~ math_pi in
         let i_sample := int_of_float (float_of_int amplitude *~ math_cos t) in
         let q_sample := int_of_float (float_of_int amplitude *~ math_sin t) in
         let i_sample := Z.max (-32768) (Z.min 32767 i_sample) in
         let q_sample := Z.max (-32768) (Z.min 32767 q_sample) in
         lift (pack_hh i_sample q_sample))) ;;
  ret (List.concat samples).

Definition create_oran_packet_fast (packet_id : Z) : py bytes :=
  let rtc_id := 0x1000 + packet_id mod 8 in
  let frame_id := (packet_id / 140) mod 1024 in
  let slot_id := (packet_id / 14) mod 10 in
  let symbol_id := packet_id mod 14 in
  let section_id := packet_id mod 4096 in
  eth_header <~ lift (create_ethernet_header default_src_mac default_dst_mac) ;;
  oran_header <~ lift (create_oran_header frame_id ((slot_id / 2) mod 10)
                         slot_id symbol_id section_id 0 default_num_prbu) ;;
  let pattern_type := packet_id mod 4 in
  iq_data <~ generate_iq_samples_fast (273 * 12) pattern_type packet_id ;;
  let payload_size := len oran_header + len iq_data in
  ecpri_header <~ lift (create_ecpri_header 0 rtc_id
                          (Z.land packet_id 0xFFFF) payload_size) ;;
  let packet_data := eth_header ++ ecpri_header ++ oran_header ++ iq_data in
  ret packet_data.

End Generators.
End LargePcap.

(** ** create_sample_pcap.py *)

Module SamplePcap.
Section Generators.

Context {F : PyFloat} {R : PyRandom F}.

Definition create_ecpri_header (message_type rtc_id seq_id : Z)
  : result bytes :=
  let byte0 :=
    Z.lor (Z.lor (Z.lor (Z.shiftl 1 4) (Z.shiftl 0 3)) (Z.shiftl 0 2))
          (Z.land message_type 0x03) in
  let payload_size := 0 in
  struct_pack BigEndian [fmt_B; fmt_H; fmt_H; fmt_H]
    [byte0; payload_size; rtc_id; seq_id].

(** The statement of [create_oran_packet] that fills the size in:
    [ecpri_header[:1] + struct.pack('>H', payload_size) + ecpri_header[3:]]. *)
Definition patch_payload_size (ecpri_header : bytes) (payload_size : Z)
  : result bytes :=
  p <- struct_pack BigEndian [fmt_H] [payload_size] ;;
  Ok (firstn 1 ecpri_header ++ p ++ skipn 3 ecpri_header).

Definition generate_iq_samples (num_samples : Z) : py bytes :=
  samples <~
    for_range (py_range num_samples) (fun i =>
      d <~ lift (truediv i num_samples) ;;
      let t := d *~ float_of_int 2 *~ math_pi in
      let amplitude := 1000 in
      ri <~ random_randint (-100) 100 ;;
      let i_sample :=
        int_of_float (float_of_int amplitude *~ math_cos t +~ float_of_int ri) in
      rq <~ random_randint (-100) 100 ;;
      let q_sample :=
        int_of_float (float_of_int amplitude *~ math_sin t +~ float_of_int rq) in
      let i_sample := Z.max (-32768) (Z.min 32767 i_sample) in
      let q_sample := Z.max (-32768) (Z.min 32767 q_sample) in
      lift (pack_hh i_sample q_sample)) ;;
  ret (List.concat samples).

Definition create_oran_packet (rtc_id seq_id frame_id symbol_id : Z)
  : py bytes :=
  eth_header <~ lift (create_ethernet_header default_src_mac default_dst_mac) ;;
  oran_header <~ lift (create_oran_header frame_id 0 0 symbol_id 0 0
                         default_num_prbu) ;;
  iq_data <~ generate_iq_samples (273 * 12) ;;
  let payload_size := len oran_header + len iq_data in
  ecpri_header <~ lift (create_ecpri_header 0 rtc_id seq_id) ;;
  ecpri_header <~ lift (patch_payload_size ecpri_header payload_size) ;;
  let packet_data := eth_header ++ ecpri_header ++ oran_header ++ iq_data in
  ret packet_data.

End Generators.
End SamplePcap.

(** ** create_test_samples.py *)

Module TestSamples.
Section Generators.

Context {F : PyFloat} {R : PyRandom F}.

Definition generate_iq_samples_with_pattern (num_samples : Z) (pattern : string)
  : py bytes :=
  samples <~
    for_range (py_range num_samples) (fun i =>
      iq <~
        (if String.eqb pattern "sine" then
           d <~ lift (truediv i num_samples) ;;
           let t := d *~ float_of_int 4 *~ math_pi in
           let amplitude := 2000 in
           ret (int_of_float (float_of_int amplitude *~ math_cos t),
                int_of_float (float_of_int amplitude *~ math_sin t))
         else if String.eqb pattern "noise" then
           i_sample <~ random_randint (-5000) 5000 ;;
           q_sample <~ random_randint (-5000) 5000 ;;
           ret (i_sample, q_sample)
         else if String.eqb pattern "chirp" then
           t <~ lift (truediv i num_samples) ;;
           let freq := float_of_int 10 +~ float_of_int 90 *~ t in
           let amplitude := 3000 in
           ret (int_of_float (float_of_int amplitude *~
                                math_cos (float_of_int 2 *~ math_pi *~ freq *~ t)),
                int_of_float (float_of_int amplitude *~
                                math_sin (float_of_int 2 *~ math_pi *~ freq *~ t)))
         else if String.eqb pattern "low_power" then
           d <~ lift (truediv i num_samples) ;;
           let t := d *~ float_of_int 2 *~ math_pi in
           let amplitude := 100 in
           ret (int_of_float (float_of_int amplitude *~ math_cos t),
                int_of_float (float_of_int amplitude *~ math_sin t))
         else
           d <~ lift (truediv i num_samples) ;;
           let t := d *~ float_of_int 2 *~ math_pi in
           let amplitude := 8000 in
           ret (int_of_float (float_of_int amplitude *~ math_cos t),
                int_of_float (float_of_int amplitude *~ math_sin t))) ;;
      let i_sample := Z.max (-32768) (Z.min 32767 (fst iq)) in
      let q_sample := Z.max (-32768) (Z.min 32767 (snd iq)) in
      lift (pack_hh i_sample q_sample)) ;;
  ret (List.concat samples).

Definition create_oran_packet (rtc_id seq_id frame_id symbol_id : Z)
  (pattern : string) : py bytes :=
  eth_header <~ lift (create_ethernet_header default_src_mac default_dst_mac) ;;
  oran_header <~ lift (create_oran_header frame_id 0 0 symbol_id 0 0
                         default_num_prbu) ;;
  iq_data <~ generate_iq_samples_with_pattern (273 * 12) pattern ;;
  let payload_size := len oran_header + len iq_data in
  ecpri_header <~ lift (create_ecpri_header 0 rtc_id seq_id payload_size) ;;
  let packet_data := eth_header ++ ecpri_header ++ oran_header ++ iq_data in
  ret packet_data.

End Generators.
End TestSamples.

(** ** The reading side

    The scripts only write.  The accessors below read a buffer back the
    way the documented layouts say a consumer does; they are what the
    round-trip statements are phrased with. *)

Record pcap_global : Type := {
  g_magic : Z;
  g_version_major : Z;
  g_version_minor : Z;
  g_thiszone : Z;
  g_sigfigs : Z;
  g_snaplen : Z;
  g_network : Z
}.

(** Little-endian fields of the 24-byte capture-file header. *)
Definition decode_global_header (bs : bytes) : pcap_global :=
  {| g_magic := le_decode (slice 0 4 bs);
     g_version_major := le_decode (slice 4 6 bs);
     g_version_minor := le_decode (slice 6 8 bs);
     g_thiszone := le_decode (slice 8 12 bs);
     g_sigfigs := le_decode (slice 12 16 bs);
     g_snaplen := le_decode (slice 16 20 bs);
     g_network := le_decode (slice 20 24 bs) |}.

Record oran_fields : Type := {
  f_frame_id : Z;
  f_subframe_id : Z;
  f_slot_id : Z;
  f_symbol_id : Z;
  f_section_id : Z;
  f_rb : Z;
  f_sym_inc : Z;
  f_start_prbu : Z;
  f_num_prbu : Z
}.

(** The 8-byte application header, by the documented bit layout:
    frame id; subframe (4) and slot (4); symbol (6) and two reserved bits;
    then a big-endian word of sectionId (12), rb (1), symInc (1),
    startPrbu (10), numPrbu (8). *)
Definition decode_oran_header (bs : bytes) : oran_fields :=
  let b1 := be_decode (slice 1 2 bs) in
  let b2 := be_decode (slice 2 3 bs) in
  let b3 := be_decode (slice 3 4 bs) in
  let w := be_decode (slice 4 8 bs) in
  {| f_frame_id := b1;
     f_subframe_id := Z.shiftr b2 4;
     f_slot_id := Z.land b2 0x0f;
     f_symbol_id := Z.shiftr b3 2;
     f_section_id := Z.shiftr w 20;
     f_rb := Z.land (Z.shiftr w 19) 1;
     f_sym_inc := Z.land (Z.shiftr w 18) 1;
     f_start_prbu := Z.land (Z.shiftr w 8) 0x3ff;
     f_num_prbu := Z.land w 0xff |}.

(** A packet is Ethernet (14) ++ eCPRI (7) ++ application header ++ IQ
    block; the payload size sits in octets 1-2 of the eCPRI header. *)
Definition transport_payload_size (packet : bytes) : Z :=
  be_decode (slice 15 17 packet).

Definition after_transport (packet : bytes) : bytes := skipn 21 packet.

(** What the size field has to say about a packet whose payload is the
    application header [oran] followed by the block [iq] of [count]
    samples. *)
Definition payload_size_matches (pkt oran iq : bytes) (count : Z) : Prop :=
  after_transport pkt = oran ++ iq /\
  transport_payload_size pkt = len oran + len iq /\
  len oran = 8 /\ len iq = 4 * count.

(** One serialized sample: I then Q, two's complement, big-endian. *)
Definition encode_sample (iq : Z * Z) : bytes :=
  be_bytes 2 (fst iq) ++ be_bytes 2 (snd iq).

Definition int16 (v : Z) : Prop := -32768 <= v <= 32767.

Definition sample_in_range (iq : Z * Z) : Prop := int16 (fst iq) /\ int16 (snd iq).

(** A MAC address written the usual way: two lowercase hex digits per
    octet, octets separated by colons. *)
Definition hex_char (n : Z) : ascii :=
  ascii_of_N (Z.to_N (if n <? 10 then 48 + n else 87 + n)).

Definition format_octet (b : byte) : string :=
  String (hex_char (Z.shiftr (Z_of_byte b) 4))
    (String (hex_char (Z.land (Z_of_byte b) 0x0f)) EmptyString).

Fixpoint format_mac (octets : bytes) : string :=
  match octets with
  | [] => EmptyString
  | [b] => format_octet b
  | b :: rest => (format_octet b ++ String ":" (format_mac rest))%string
  end.

(** ** What the proofs ask of floats and of the generator *)

(** [randint(a, b)] returns a member of [a..b]. *)
Definition randint_within {F : PyFloat} (R : PyRandom F) : Prop :=
  forall a b s, a <= b -> a <= fst (randint_draw a b s) <= b.

(** For an amplitude [a] of sample size, [int(a * cos(x))] and
    [int(a * sin(x))] do not exceed [a]: cosine and sine lie in [-1, 1],
    [a] is a double, the product is rounded monotonically, and [int]
    truncates. *)
Definition scaled_trig_within (F : PyFloat) : Prop :=
  forall a x, 0 <= a <= 32767 ->
    - a <= int_of_float (float_of_int a *~ math_cos x) <= a /\
    - a <= int_of_float (float_of_int a *~ math_sin x) <= a.

(** ** A reference instance

    Fixed-point numbers with ten fractional bits for the doubles, a
    triangle wave for cosine and sine, a linear congruential generator
    for the Mersenne Twister: enough to run the generators. *)

Module RefModel.

Definition tri_cos (x : Z) : Z :=
  let r := x mod 6434 in
  if r <? 3217 then 1024 - (2048 * r) / 3217
  else (2048 * (r - 3217)) / 3217 - 1024.

Definition unit_clamp (x : Z) : Z := Z.max (-1024) (Z.min 1024 x).

Definition fixed_point : PyFloat :=
  {| float := Z;
     float_of_int := fun z => 1024 * z;
     int_truediv := fun i n => Z.quot (1024 * i) n;
     fmul := fun x y => Z.quot (x * y) 1024;
     fadd := Z.add;
     math_pi := 3217;
     math_cos := fun x => unit_clamp (tri_cos x);
     math_sin := fun x => unit_clamp (tri_cos (x - 1608));
     int_of_float := fun x => Z.quot x 1024 |}.

Definition lcg_next (s : Z) : Z := (1103515245 * s + 12345) mod 2147483648.

Definition lcg : PyRandom fixed_point :=
  {| rng_state := Z;
     seed_state := fun n => Z.abs n;
     randint_draw := fun a b s =>
       let s' := lcg_next s in (a + (s' / 65536) mod (b - a + 1), s');
     random_draw := fun s =>
       let s' := lcg_next s in
       (((s' / 65536) mod 1024 : @float fixed_point), s') |}.

End RefModel.

(** ** The record header and the clock

    [create_packet_header] splits a floating-point timestamp, which takes
    float subtraction; the file writers add decimal literals such as
    [0.001].  [float_literal m e] stands for the literal [m * 10^e].

    A timestamp is an argument, so it can be any double, NaN and the
    infinities included, and [int] refuses those: [is_nan] and [is_inf]
    are [math.isnan] and [math.isinf]. *)

Class PyTime (F : PyFloat) : Type := {
  fsub : float -> float -> float;
  float_literal : Z -> Z -> float;
  is_nan : float -> bool;
  is_inf : float -> bool
}.

Infix "-~" := fsub (at level 50, left associativity) : float_scope.

Section RecordHeader.

Context {F : PyFloat} {T : PyTime F}.

(** [int(x)] for a float [x]: ValueError on NaN, OverflowError on an
    infinity, the truncation otherwise. *)
Definition py_int (x : float) : result Z :=
  if is_nan x then Raise ValueError
  else if is_inf x then Raise OverflowError
  else Ok (int_of_float x).

Definition create_packet_header (packet_data : bytes) (timestamp : float)
  : result bytes :=
  ts_sec <- py_int timestamp ;;
  ts_usec <-
    py_int ((timestamp -~ float_of_int ts_sec) *~ float_of_int 1000000) ;;
  let caplen := len packet_data in
  let origlen := caplen in
  struct_pack LittleEndian [fmt_L; fmt_L; fmt_L; fmt_L]
    [ts_sec; ts_usec; caplen; origlen].

End RecordHeader.

(** ** More of the reading side *)

Record record_fields : Type := {
  r_ts_sec : Z;
  r_ts_usec : Z;
  r_caplen : Z;
  r_origlen : Z
}.

(** Little-endian fields of the 16-byte record header. *)
Definition decode_record_header (bs : bytes) : record_fields :=
  {| r_ts_sec := le_decode (slice 0 4 bs);
     r_ts_usec := le_decode (slice 4 8 bs);
     r_caplen := le_decode (slice 8 12 bs);
     r_origlen := le_decode (slice 12 16 bs) |}.

Record ecpri_fields : Type := {
  e_version : Z;
  e_reserved : Z;
  e_concat : Z;
  e_message_type : Z;
  e_payload_size : Z;
  e_rtc_id : Z;
  e_seq_id : Z
}.

(** The 7-byte eCPRI header: version (4), reserved (1), C (1) and message
    type (2) in the first octet, then three big-endian 16-bit fields. *)
Definition decode_ecpri_header (bs : bytes) : ecpri_fields :=
  let b0 := be_decode (slice 0 1 bs) in
  {| e_version := Z.shiftr b0 4;
     e_reserved := Z.land (Z.shiftr b0 3) 1;
     e_concat := Z.land (Z.shiftr b0 2) 1;
     e_message_type := Z.land b0 0x03;
     e_payload_size := be_decode (slice 1 3 bs);
     e_rtc_id := be_decode (slice 3 5 bs);
     e_seq_id := be_decode (slice 5 7 bs) |}.

(** The three layers of a packet, cut at the fixed offsets. *)
Definition ethernet_part (packet : bytes) : bytes := slice 0 14 packet.
Definition ecpri_part (packet : bytes) : bytes := slice 14 21 packet.
Definition oran_part (packet : bytes) : bytes := slice 21 29 packet.

Definition default_ethernet_bytes : bytes :=
  [xaa; xbb; xcc; xdd; xee; xff; x00; x11; x22; x33; x44; x55; xae; xfe].

(** [c] is one of the characters of [s]. *)
Fixpoint occurs (c : ascii) (s : string) : Prop :=
  match s with
  | EmptyString => False
  | String d rest => d = c \/ occurs c rest
  end.

(** A character [bytes.fromhex] can make nothing of, once the colons are
    gone: no hex digit, no whitespace, no colon. *)
Definition foreign_char (c : ascii) : Prop :=
  hex_digit c = None /\ is_space c = false /\ c <> ":"%char.

(** Strings made of hex digits and colons only. *)
Fixpoint hex_and_colons (s : string) : bool :=
  match s with
  | EmptyString => true
  | String c rest =>
      (match hex_digit c with Some _ => true | None => Ascii.eqb c ":" end)
      && hex_and_colons rest
  end.

(** The number of characters of [s] other than colons. *)
Definition digit_count (s : string) : nat :=
  String.length (remove_char ":" s).

(** The fixed-point instance, extended with subtraction and literals. *)
Module RefClock.

Definition decimal (m e : Z) : Z :=
  if 0 <=? e then 1024 * m * 10 ^ e else (1024 * m) / 10 ^ (- e).

(** Every fixed-point number is finite. *)
Definition fixed_point_time : PyTime RefModel.fixed_point :=
  @Build_PyTime RefModel.fixed_point Z.sub decimal
    (fun _ => false) (fun _ => false).

End RefClock.

(** A second instance that has the non-finite values: a fixed-point
    number, an infinity of either sign, or NaN, with the arithmetic of
    IEEE 754 on them. *)
Module RefNonFinite.

Inductive ext : Type :=
| Fin (x : Z)
| Inf (negative : bool)
| NaN.

Definition ext_mul (a b : ext) : ext :=
  match a, b with
  | NaN, _ | _, NaN => NaN
  | Fin x, Fin y => Fin (Z.quot (x * y) 1024)
  | Inf s, Fin y | Fin y, Inf s =>
      if y =? 0 then NaN else Inf (xorb s (y <? 0))
  | Inf s, Inf s' => Inf (xorb s s')
  end.

Definition ext_add (a b : ext) : ext :=
  match a, b with
  | NaN, _ | _, NaN => NaN
  | Fin x, Fin y => Fin (x + y)
  | Inf s, Fin _ | Fin _, Inf s => Inf s
  | Inf s, Inf s' => if Bool.eqb s s' then Inf s else NaN
  end.

Definition ext_neg (a : ext) : ext :=
  match a with
  | Fin x => Fin (- x)
  | Inf s => Inf (negb s)
  | NaN => NaN
  end.

Definition ext_trig (f : Z -> Z) (a : ext) : ext :=
  match a with
  | Fin x => Fin (f x)
  | _ => NaN
  end.

Definition extended : PyFloat :=
  {| float := ext;
     float_of_int := fun z => Fin (1024 * z);
     int_truediv := fun i n => Fin (Z.quot (1024 * i) n);
     fmul := ext_mul;
     fadd := ext_add;
     math_pi := Fin 3217;
     math_cos := ext_trig (@math_cos RefModel.fixed_point);
     math_sin := ext_trig (@math_sin RefModel.fixed_point);
     int_of_float := fun a =>
       match a with
       | Fin x => Z.quot x 1024
       | _ => 0
       end |}.

Definition extended_time : PyTime extended :=
  @Build_PyTime extended
    (fun a b => ext_add a (ext_neg b))
    (fun m e => Fin (RefClock.decimal m e))
    (fun a => match a with NaN => true | _ => false end)
    (fun a => match a with Inf _ => true | _ => false end).

End RefNonFinite.

(** ** The file writers

    A writer runs in a world made of the random module's state and the
    bytes of the one file it has open.  [open(filename, 'wb')] empties
    the file; [print], the progress arithmetic and [os.path.getsize]
    leave both untouched and are not shown.  [time.time()] is read once;
    its value is the argument [base_time]. *)

(** [range(start, stop)] and [range(start, stop, step)] for a positive
    step, the only kind the scripts use. *)
Definition py_range2 (start stop : Z) : list Z :=
  map (fun k => start + Z.of_nat k) (seq 0 (Z.to_nat (stop - start))).

Definition py_range3 (start stop step : Z) : list Z :=
  map (fun k => start + step * Z.of_nat k)
      (seq 0 (Z.to_nat ((stop - start + step - 1) / step))).

Definition enumerate {A : Type} (xs : list A) : list (Z * A) :=
  combine (map Z.of_nat (seq 0 (List.length xs))) xs.

Record packet_config : Type := {
  cfg_rtc_id : Z;
  cfg_frame_id : Z;
  cfg_symbol_id : Z
}.

Section FileWriters.

Context {F : PyFloat} {R : PyRandom F} {T : PyTime F}.

Definition world : Type := (rng_state * bytes)%type.

Definition io (A : Type) : Type := world -> result A * world.

Definition io_ret {A : Type} (a : A) : io A := fun w => (Ok a, w).

Definition io_lift {A : Type} (r : result A) : io A := fun w => (r, w).

Definition io_bind {A B : Type} (m : io A) (k : A -> io B) : io B :=
  fun w =>
    match m w with
    | (Ok a, w') => k a w'
    | (Raise e, w') => (Raise e, w')
    end.

Definition run {A : Type} (m : py A) : io A :=
  fun w => let (r, g') := m (fst w) in (r, (g', snd w)).

Definition f_open : io unit := fun w => (Ok tt, (fst w, [])).

Definition f_write (b : bytes) : io unit :=
  fun w => (Ok tt, (fst w, snd w ++ b)).

Notation "x <<- m ;; k" := (io_bind m (fun x => k))
  (at level 61, m at next level, right associativity).

Fixpoint for_each {A : Type} (xs : list A) (body : A -> io unit) : io unit :=
  match xs with
  | [] => io_ret tt
  | x :: xs' => _ <<- body x ;; for_each xs' body
  end.

(** A loop that updates a local variable on every turn. *)
Fixpoint for_fold {A S : Type} (xs : list A) (body : A -> S -> io S) (acc : S)
  : io S :=
  match xs with
  | [] => io_ret acc
  | x :: xs' => acc' <<- body x acc ;; for_fold xs' body acc'
  end.

End FileWriters.

Notation "x <<- m ;; k" := (io_bind m (fun x => k))
  (at level 61, m at next level, right associativity) : py_scope.

Module LargePcapFile.
Section Writer.

Context {F : PyFloat} {R : PyRandom F} {T : PyTime F}.

Definition create_large_pcap (base_time : float) (num_packets : Z) : io unit :=
  _ <<- f_open ;;
  global_header <<- io_lift create_pcap_global_header ;;
  _ <<- f_write global_header ;;
  let batch_size := 100 in
  for_each (py_range3 0 num_packets batch_size) (fun batch_start =>
    let batch_end := Z.min (batch_start + batch_size) num_packets in
    for_each (py_range2 batch_start batch_end) (fun i =>
      let time_offset := float_of_int i *~ float_literal 714 (-7) in
      let packet_timestamp := base_time +~ time_offset in
      packet_data <<- run (LargePcap.create_oran_packet_fast i) ;;
      packet_header <<-
        io_lift (create_packet_header packet_data packet_timestamp) ;;
      _ <<- f_write packet_header ;;
      f_write packet_data)).

End Writer.
End LargePcapFile.

Module SamplePcapFile.
Section Writer.

Context {F : PyFloat} {R : PyRandom F} {T : PyTime F}.

Definition packet_configs : list packet_config :=
  [ {| cfg_rtc_id := 0x1234; cfg_frame_id := 0; cfg_symbol_id := 0 |};
    {| cfg_rtc_id := 0x1234; cfg_frame_id := 0; cfg_symbol_id := 1 |};
    {| cfg_rtc_id := 0x1234; cfg_frame_id := 0; cfg_symbol_id := 2 |};
    {| cfg_rtc_id := 0x5678; cfg_frame_id := 1; cfg_symbol_id := 0 |};
    {| cfg_rtc_id := 0x5678; cfg_frame_id := 1; cfg_symbol_id := 1 |};
    {| cfg_rtc_id := 0x9abc; cfg_frame_id := 2; cfg_symbol_id := 0 |};
    {| cfg_rtc_id := 0x1234; cfg_frame_id := 3; cfg_symbol_id := 3 |};
    {| cfg_rtc_id := 0x5678; cfg_frame_id := 4; cfg_symbol_id := 2 |} ].

Definition create_sample_pcap (base_time : float) : io unit :=
  _ <<- f_open ;;
  global_header <<- io_lift create_pcap_global_header ;;
  _ <<- f_write global_header ;;
  for_each (enumerate packet_configs) (fun '(i, config) =>
    packet_data <<-
      run (SamplePcap.create_oran_packet (cfg_rtc_id config) i
             (cfg_frame_id config) (cfg_symbol_id config)) ;;
    let packet_timestamp :=
      base_time +~ (float_of_int i *~ float_literal 1 (-3)) in
    packet_header <<-
      io_lift (create_packet_header packet_data packet_timestamp) ;;
    _ <<- f_write packet_header ;;
    f_write packet_data).

End Writer.
End SamplePcapFile.

Module TestSamplesFile.
Section Writer.

Context {F : PyFloat} {R : PyRandom F} {T : PyTime F}.

Definition create_test_pcap_simple (base_time : float) : io unit :=
  _ <<- f_open ;;
  global_header <<- io_lift create_pcap_global_header ;;
  _ <<- f_write global_header ;;
  for_each (py_range 5) (fun i =>
    packet_data <<-
      run (TestSamples.create_oran_packet (0x1000 + i) i (i / 2) (i mod 4)
             "sine") ;;
    let packet_timestamp :=
      base_time +~ (float_of_int i *~ float_literal 1 (-3)) in
    packet_header <<-
      io_lift (create_packet_header packet_data packet_timestamp) ;;
    _ <<- f_write packet_header ;;
    f_write packet_data).

Definition rms_patterns : list (string * Z) :=
  [ ("low_power", 0x2000); ("sine", 0x2001); ("high_power", 0x2002);
    ("chirp", 0x2003); ("noise", 0x2004) ]%string.

Definition create_test_pcap_rms_variations (base_time : float) : io unit :=
  _ <<- f_open ;;
  global_header <<- io_lift create_pcap_global_header ;;
  _ <<- f_write global_header ;;
  for_each (enumerate rms_patterns) (fun '(i, (pattern, rtc_id)) =>
    packet_data <<-
      run (TestSamples.create_oran_packet rtc_id i 0 i pattern) ;;
    let packet_timestamp :=
      base_time +~ (float_of_int i *~ float_literal 2 (-3)) in
    packet_header <<-
      io_lift (create_packet_header packet_data packet_timestamp) ;;
    _ <<- f_write packet_header ;;
    f_write packet_data).

(** Returns [packet_count], the local counter the print statement reads. *)
Definition create_test_pcap_frame_sequence (base_time : float) : io Z :=
  _ <<- f_open ;;
  global_header <<- io_lift create_pcap_global_header ;;
  _ <<- f_write global_header ;;
  let packet_count := 0 in
  for_fold (py_range 2) (fun frame packet_count =>
    for_fold (py_range 10) (fun slot packet_count =>
      for_fold (py_range 14) (fun symbol packet_count =>
        packet_data <<-
          run (TestSamples.create_oran_packet 0x3000 packet_count frame symbol
                 "sine") ;;
        let packet_timestamp :=
          base_time +~ float_of_int (frame * 10 + slot) *~ float_literal 1 (-3)
          +~ float_of_int symbol *~ float_literal 7 (-5) in
        packet_header <<-
          io_lift (create_packet_header packet_data packet_timestamp) ;;
        _ <<- f_write packet_header ;;
        _ <<- f_write packet_data ;;
        io_ret (packet_count + 1))
      packet_count)
    packet_count)
    packet_count.

End Writer.
End TestSamplesFile.

(** ** Reading a capture file *)

Definition global_header_bytes : bytes :=
  [xd4; xc3; xb2; xa1; x02; x00; x04; x00;
   x00; x00; x00; x00; x00; x00; x00; x00;
   xff; xff; x00; x00; x01; x00; x00; x00].

(** The header fields every packet of the scripts carries. *)
Definition expected_ecpri (rtc_id seq_id : Z) : ecpri_fields :=
  {| e_version := 1;
     e_reserved := 0;
     e_concat := 0;
     e_message_type := 0;
     e_payload_size := 13112;
     e_rtc_id := rtc_id;
     e_seq_id := seq_id |}.

Definition expected_oran (frame_id subframe_id slot_id symbol_id section_id : Z)
  : oran_fields :=
  {| f_frame_id := frame_id;
     f_subframe_id := subframe_id;
     f_slot_id := slot_id;
     f_symbol_id := symbol_id;
     f_section_id := section_id;
     f_rb := 1;
     f_sym_inc := 0;
     f_start_prbu := 1;
     f_num_prbu := 17 |}.

Section Records.

Context {F : PyFloat} {T : PyTime F}.

(** The fraction of a second left of [ts], in microseconds, before and
    after [int]. *)
Definition usec_float (ts : float) : float :=
  (ts -~ float_of_int (int_of_float ts)) *~ float_of_int 1000000.

Definition usec_of (ts : float) : Z :=
  int_of_float ((ts -~ float_of_int (int_of_float ts)) *~ float_of_int 1000000).

Definition finite (x : float) : Prop := is_nan x = false /\ is_inf x = false.

(** Seconds and microseconds both fit 32 bits unsigned. *)
Definition fits_u32 (ts : float) : Prop :=
  0 <= int_of_float ts < 2 ^ 32 /\ 0 <= usec_of ts < 2 ^ 32.

(** A timestamp the record header can hold: finite, with a finite
    fraction, and seconds and microseconds that fit. *)
Definition packable_time (ts : float) : Prop :=
  (finite ts /\ finite (usec_float ts)) /\ fits_u32 ts.

(** [rec] is the record of packet [pkt] stamped [ts]: the header
    [create_packet_header] returns for them, then the packet. *)
Definition record_of_packet (rec : bytes) (ts : float) (pkt : bytes) : Prop :=
  exists hdr, create_packet_header pkt ts = Ok hdr /\ rec = hdr ++ pkt.

(** [rec] is one record: a 16-byte header stamped [ts] with both lengths
    13133, then a 13133-byte packet with the default Ethernet header and
    the given eCPRI and application header fields. *)
Definition record_reads (rec : bytes) (ts : float)
  (e : ecpri_fields) (o : oran_fields) : Prop :=
  len rec = 16 + 13133 /\
  decode_record_header (firstn 16 rec) =
    {| r_ts_sec := int_of_float ts;
       r_ts_usec := usec_of ts;
       r_caplen := 13133;
       r_origlen := 13133 |} /\
  ethernet_part (skipn 16 rec) = default_ethernet_bytes /\
  decode_ecpri_header (ecpri_part (skipn 16 rec)) = e /\
  decode_oran_header (oran_part (skipn 16 rec)) = o.

(** The timestamp [create_test_pcap_frame_sequence] gives the packet it
    counts as number [c]: frame [c / 140], slot [(c / 14) mod 10], symbol
    [c mod 14]. *)
Definition frame_sequence_time (base_time : float) (c : Z) : float :=
  base_time
  +~ float_of_int ((c / 140) * 10 + (c / 14) mod 10) *~ float_literal 1 (-3)
  +~ float_of_int (c mod 14) *~ float_literal 7 (-5).

End Records.

(** The records written while a counter runs from [c] to [c + k]. *)
Definition counted_records (Rec : Z -> bytes -> Prop) (k c : Z) (chunk : bytes)
  : Prop :=
  exists recs,
    chunk = List.concat recs /\ Forall2 Rec (py_range2 c (c + k)) recs.

(** ** Sample amplitudes

    Both components of a sample lie within [a] of zero. *)
Definition within_peak (a : Z) (iq : Z * Z) : Prop :=
  - a <= fst iq <= a /\ - a <= snd iq <= a.

(** The largest amplitude each pattern of
    [generate_iq_samples_with_pattern] can reach; a name that is none of
    the four tested falls to the last branch. *)
Definition pattern_peak (pattern : string) : Z :=
  if String.eqb pattern "sine" then 2000
  else if String.eqb pattern "noise" then 5000
  else if String.eqb pattern "chirp" then 3000
  else if String.eqb pattern "low_power" then 100
  else 8000.

(** The largest amplitude each pattern type of [generate_iq_samples_fast]
    can draw: the base amplitude plus the largest jitter. *)
Definition batch_peak (pattern_type : Z) : Z :=
  if pattern_type =? 0 then 2000 + 500
  else if pattern_type =? 1 then 1000 + 300
  else if pattern_type =? 2 then 200 + 50
  else 6000 + 1000.

(** * Properties *)

(** ** Bytes and struct.pack *)

Arguments byte_of_Z : simpl never.
Arguments Z_of_byte : simpl never.

Lemma Z_of_byte_range (b : byte) : 0 <= Z_of_byte b < 256.
Proof.
  unfold Z_of_byte.
  pose proof (Byte.to_N_bounded b) as Hb.
  lia.
Qed.

Lemma Z_of_byte_of_Z (z : Z) : Z_of_byte (byte_of_Z z) = z mod 256.
Proof.
  unfold Z_of_byte, byte_of_Z.
  assert (Hr : 0 <= z mod 256 < 256) by (apply Z.mod_pos_bound; lia).
  destruct (Byte.of_N (Z.to_N (z mod 256))) as [b|] eqn:E.
  - apply Byte.to_of_N in E. rewrite E. apply Z2N.id. lia.
  - apply Byte.of_N_None_iff in E. lia.
Qed.

Lemma byte_of_Z_of_byte (b : byte) : byte_of_Z (Z_of_byte b) = b.
Proof.
  pose proof (Z_of_byte_range b) as Hb.
  unfold byte_of_Z.
  rewrite Z.mod_small by exact Hb.
  unfold Z_of_byte. rewrite N2Z.id, Byte.of_to_N. reflexivity.
Qed.

Lemma length_le_bytes (n : nat) (z : Z) : List.length (le_bytes n z) = n.
Proof.
  revert z. induction n as [|k IH]; intro z; simpl.
  - reflexivity.
  - now rewrite IH.
Qed.

Lemma length_be_bytes (n : nat) (z : Z) : List.length (be_bytes n z) = n.
Proof.
  unfold be_bytes. rewrite length_rev. apply length_le_bytes.
Qed.

Lemma le_decode_le_bytes (n : nat) (z : Z) :
  le_decode (le_bytes n z) = z mod 2 ^ (8 * Z.of_nat n).
Proof.
  revert z. induction n as [|k IH]; intro z.
  - simpl. now rewrite Z.mod_1_r.
  - cbn [le_bytes le_decode].
    rewrite Z_of_byte_of_Z, IH, Z.shiftr_div_pow2 by lia.
    replace (8 * Z.of_nat (S k)) with (8 + 8 * Z.of_nat k) by lia.
    rewrite Z.pow_add_r by lia.
    change (2 ^ 8) with 256.
    rewrite Z.rem_mul_r by lia.
    reflexivity.
Qed.

Lemma be_decode_be_bytes (n : nat) (z : Z) :
  be_decode (be_bytes n z) = z mod 2 ^ (8 * Z.of_nat n).
Proof.
  unfold be_decode, be_bytes. rewrite rev_involutive. apply le_decode_le_bytes.
Qed.

Lemma in_range_true (lo v hi : Z) :
  lo <= v <= hi -> (lo <=? v) && (v <=? hi) = true.
Proof.
  intros [H1 H2]. apply andb_true_intro. split; now apply Z.leb_le.
Qed.

Lemma in_range_false (lo v hi : Z) :
  v < lo \/ hi < v -> (lo <=? v) && (v <=? hi) = false.
Proof.
  intros H. apply andb_false_iff.
  destruct H as [H|H]; [left|right]; apply Z.leb_gt; exact H.
Qed.

Lemma pack_one_ok (o : byte_order) (c : fmt_code) (v : Z) :
  code_min c <= v <= code_max c ->
  pack_one o c v =
    Ok (match o with
        | BigEndian => be_bytes (code_size c) v
        | LittleEndian => le_bytes (code_size c) v
        end).
Proof.
  intro H. unfold pack_one. now rewrite in_range_true.
Qed.

Lemma pack_one_raise (o : byte_order) (c : fmt_code) (v : Z) :
  v < code_min c \/ code_max c < v -> pack_one o c v = Raise StructError.
Proof.
  intro H. unfold pack_one. now rewrite in_range_false.
Qed.

Lemma pack_one_inv (o : byte_order) (c : fmt_code) (v : Z) (b : bytes) :
  pack_one o c v = Ok b ->
  code_min c <= v <= code_max c /\ List.length b = code_size c.
Proof.
  unfold pack_one.
  destruct (code_min c <=? v) eqn:E1; destruct (v <=? code_max c) eqn:E2;
    cbn [andb]; intro H; try discriminate.
  apply Z.leb_le in E1, E2. injection H as <-.
  split; [lia|].
  destruct o; [apply length_be_bytes | apply length_le_bytes].
Qed.

(** A field shifted above a narrower one: [|] is [+]. *)
Lemma lor_shiftl_low (hi lo n : Z) :
  0 <= n -> 0 <= lo < 2 ^ n -> Z.lor (Z.shiftl hi n) lo = hi * 2 ^ n + lo.
Proof.
  intros Hn Hlo.
  rewrite <- Z.shiftl_mul_pow2 by exact Hn.
  rewrite <- Z.lxor_lor, <- Z.add_nocarry_lxor; try reflexivity.
  all: apply Z.bits_inj'; intros k Hk; rewrite Z.land_spec, Z.bits_0.
  all: destruct (Z.ltb_spec k n) as [Hlt|Hge].
  all: try (rewrite Z.shiftl_spec_low by exact Hlt; reflexivity).
  all: destruct (Z.eq_dec lo 0) as [->|Hne];
    [rewrite Z.bits_0; apply andb_false_r|].
  all: rewrite (Z.bits_above_log2 lo k); [apply andb_false_r | lia |].
  all: apply Z.lt_le_trans with n; [apply Z.log2_lt_pow2; lia | exact Hge].
Qed.

Lemma pack_B_ok (v : Z) :
  0 <= v <= 255 -> pack_one BigEndian fmt_B v = Ok [byte_of_Z v].
Proof.
  intro H. rewrite pack_one_ok by exact H. reflexivity.
Qed.

Lemma pack_H_ok (v : Z) :
  0 <= v <= 65535 ->
  pack_one BigEndian fmt_H v = Ok [byte_of_Z (Z.shiftr v 8); byte_of_Z v].
Proof.
  intro H. rewrite pack_one_ok by exact H. reflexivity.
Qed.

Lemma pack_L_ok (v : Z) :
  0 <= v <= 4294967295 -> pack_one BigEndian fmt_L v = Ok (be_bytes 4 v).
Proof.
  intro H. rewrite pack_one_ok by exact H. reflexivity.
Qed.

Lemma pack_hh_ok (i q : Z) :
  int16 i -> int16 q -> pack_hh i q = Ok (encode_sample (i, q)).
Proof.
  unfold int16, pack_hh, encode_sample. intros Hi Hq.
  cbn [struct_pack fst snd].
  rewrite !pack_one_ok by (cbn [code_min code_max]; lia).
  cbn [bind code_size]. now rewrite app_nil_r.
Qed.

Lemma pack_hh_inv (i q : Z) (b : bytes) :
  pack_hh i q = Ok b -> sample_in_range (i, q) /\ b = encode_sample (i, q).
Proof.
  intro H.
  assert (Hr : int16 i /\ int16 q).
  { unfold pack_hh in H. cbn [struct_pack] in H.
    destruct (pack_one BigEndian fmt_h i) as [bi|] eqn:Ei; [|discriminate].
    destruct (pack_one BigEndian fmt_h q) as [bq|] eqn:Eq; [|discriminate].
    apply pack_one_inv in Ei. apply pack_one_inv in Eq.
    split; [exact (proj1 Ei) | exact (proj1 Eq)]. }
  destruct Hr as [Hi Hq]. split; [split; assumption|].
  rewrite (pack_hh_ok i q Hi Hq) in H. now injection H.
Qed.

Lemma length_encode_sample (iq : Z * Z) : List.length (encode_sample iq) = 4%nat.
Proof.
  unfold encode_sample. now rewrite length_app, !length_be_bytes.
Qed.

(** ** The capture-file header *)

(** C9: the global-header encoder takes no input and never fails; it is
    one constant 24-byte sequence whose little-endian fields read magic
    0xa1b2c3d4, version 2.4, timezone 0, accuracy 0, snapshot length
    65535 and link-layer type 1. *)
Theorem global_header_constant :
  exists hdr : bytes,
    create_pcap_global_header = Ok hdr /\
    hdr = [xd4; xc3; xb2; xa1; x02; x00; x04; x00;
           x00; x00; x00; x00; x00; x00; x00; x00;
           xff; xff; x00; x00; x01; x00; x00; x00] /\
    List.length hdr = 24%nat /\
    decode_global_header hdr =
      {| g_magic := 0xa1b2c3d4;
         g_version_major := 2;
         g_version_minor := 4;
         g_thiszone := 0;
         g_sigfigs := 0;
         g_snaplen := 65535;
         g_network := 1 |}.
Proof.
  eexists. split.
  - unfold create_pcap_global_header. cbn [struct_pack].
    rewrite !pack_one_ok by (cbn [code_min code_max]; lia).
    cbn [bind]. reflexivity.
  - split; [vm_compute; reflexivity|].
    split; vm_compute; reflexivity.
Qed.

(** ** The eCPRI transport header *)

Lemma ecpri_byte0 (message_type : Z) :
  Z.lor (Z.lor (Z.lor (Z.shiftl 1 4) (Z.shiftl 0 3)) (Z.shiftl 0 2))
        (Z.land message_type 0x03) = 16 + message_type mod 4.
Proof.
  change (Z.lor (Z.lor (Z.shiftl 1 4) (Z.shiftl 0 3)) (Z.shiftl 0 2))
    with (Z.shiftl 1 4).
  change 0x03 with (Z.ones 2).
  rewrite Z.land_ones by lia.
  change (2 ^ 2) with 4.
  pose proof (Z.mod_pos_bound message_type 4 ltac:(lia)) as Hm.
  rewrite lor_shiftl_low; [reflexivity | lia | change (2 ^ 4) with 16; lia].
Qed.

Lemma create_ecpri_header_ok (message_type rtc_id seq_id payload_size : Z) :
  0 <= payload_size <= 65535 -> 0 <= rtc_id <= 65535 -> 0 <= seq_id <= 65535 ->
  create_ecpri_header message_type rtc_id seq_id payload_size =
    Ok [byte_of_Z (16 + message_type mod 4);
        byte_of_Z (Z.shiftr payload_size 8); byte_of_Z payload_size;
        byte_of_Z (Z.shiftr rtc_id 8); byte_of_Z rtc_id;
        byte_of_Z (Z.shiftr seq_id 8); byte_of_Z seq_id].
Proof.
  intros Hp Hr Hs. unfold create_ecpri_header.
  rewrite ecpri_byte0.
  pose proof (Z.mod_pos_bound message_type 4 ltac:(lia)) as Hm.
  cbn [struct_pack].
  rewrite pack_B_ok, !pack_H_ok by lia.
  reflexivity.
Qed.

Lemma create_ecpri_header_raise (message_type rtc_id seq_id payload_size : Z) :
  ~ (0 <= payload_size <= 65535 /\ 0 <= rtc_id <= 65535 /\ 0 <= seq_id <= 65535) ->
  create_ecpri_header message_type rtc_id seq_id payload_size = Raise StructError.
Proof.
  intros Hn. unfold create_ecpri_header.
  rewrite ecpri_byte0.
  pose proof (Z.mod_pos_bound message_type 4 ltac:(lia)) as Hm.
  cbn [struct_pack].
  rewrite pack_B_ok by lia. cbn [bind].
  destruct (Z_le_dec 0 payload_size), (Z_le_dec payload_size 65535);
    try (rewrite (pack_one_raise _ fmt_H payload_size)
           by (cbn [code_min code_max]; lia); reflexivity).
  rewrite (pack_H_ok payload_size) by lia. cbn [bind].
  destruct (Z_le_dec 0 rtc_id), (Z_le_dec rtc_id 65535);
    try (rewrite (pack_one_raise _ fmt_H rtc_id)
           by (cbn [code_min code_max]; lia); reflexivity).
  rewrite (pack_H_ok rtc_id) by lia. cbn [bind].
  rewrite (pack_one_raise _ fmt_H seq_id) by (cbn [code_min code_max]; lia).
  reflexivity.
Qed.

Lemma sample_create_ecpri_header_eq (message_type rtc_id seq_id : Z) :
  SamplePcap.create_ecpri_header message_type rtc_id seq_id =
  create_ecpri_header message_type rtc_id seq_id 0.
Proof. reflexivity. Qed.

(** C8: writing a zero payload size and then overwriting octets 1-2 of
    the emitted header gives the same result as passing the payload size
    to the encoder, for every message type, flow id and sequence id and
    every 16-bit payload size; with 16-bit ids that result is one 7-byte
    buffer. *)
Theorem ecpri_patch_equals_direct (message_type rtc_id seq_id payload_size : Z) :
  0 <= payload_size < 65536 ->
  (hdr0 <- SamplePcap.create_ecpri_header message_type rtc_id seq_id ;;
   SamplePcap.patch_payload_size hdr0 payload_size)
  = create_ecpri_header message_type rtc_id seq_id payload_size
  /\ (0 <= rtc_id < 65536 -> 0 <= seq_id < 65536 ->
      exists buf,
        create_ecpri_header message_type rtc_id seq_id payload_size = Ok buf /\
        List.length buf = 7%nat /\
        be_decode (slice 1 3 buf) = payload_size).
Proof.
  intros Hp. rewrite sample_create_ecpri_header_eq. split.
  - destruct (Z_le_dec 0 rtc_id), (Z_le_dec rtc_id 65535),
      (Z_le_dec 0 seq_id), (Z_le_dec seq_id 65535);
      try (rewrite !create_ecpri_header_raise by lia; reflexivity).
    rewrite !create_ecpri_header_ok by lia.
    cbn [bind]. unfold SamplePcap.patch_payload_size.
    cbn [struct_pack]. rewrite pack_H_ok by lia.
    reflexivity.
  - intros Hr Hs. rewrite create_ecpri_header_ok by lia.
    eexists. split; [reflexivity|]. split; [reflexivity|].
    change (be_decode (be_bytes 2 payload_size) = payload_size).
    rewrite be_decode_be_bytes.
    apply Z.mod_small. change (2 ^ (8 * Z.of_nat 2)) with 65536. lia.
Qed.

Lemma ecpri_patch_equals_direct_witness :
  (hdr0 <- SamplePcap.create_ecpri_header 0 0x1234 7 ;;
   SamplePcap.patch_payload_size hdr0 13112)
  = Ok [x10; x33; x38; x12; x34; x00; x07]
  /\ create_ecpri_header 0 0x1234 7 13112 = Ok [x10; x33; x38; x12; x34; x00; x07].
Proof.
  pose proof (ecpri_patch_equals_direct 0 0x1234 7 13112 ltac:(lia)) as [H _].
  split; [rewrite H|]; vm_compute; reflexivity.
Defined.

(** ** The O-RAN application header *)

Lemma lor_mul_low (a hi lo n : Z) :
  0 <= n -> 0 <= lo < 2 ^ n -> a = hi * 2 ^ n -> Z.lor a lo = a + lo.
Proof.
  intros Hn Hlo ->. rewrite <- lor_shiftl_low by assumption.
  now rewrite Z.shiftl_mul_pow2.
Qed.

Lemma oran_byte2 (subframe_id slot_id : Z) :
  Z.lor (Z.shiftl subframe_id 4) (Z.land slot_id 0x0f)
  = subframe_id * 16 + slot_id mod 16.
Proof.
  change 0x0f with (Z.ones 4). rewrite Z.land_ones by lia.
  change (2 ^ 4) with 16.
  pose proof (Z.mod_pos_bound slot_id 16 ltac:(lia)) as Hm.
  rewrite lor_shiftl_low; [reflexivity | lia | change (2 ^ 4) with 16; lia].
Qed.

Lemma oran_byte3 (symbol_id : Z) : Z.lor (Z.shiftl symbol_id 2) 0 = symbol_id * 4.
Proof.
  rewrite Z.lor_0_r, Z.shiftl_mul_pow2 by lia. reflexivity.
Qed.

Lemma oran_section_word (section_id start_prbu num_prbu : Z) :
  0 <= start_prbu < 1024 -> 0 <= num_prbu < 256 ->
  Z.lor (Z.lor (Z.lor (Z.lor (Z.shiftl section_id 20) (Z.shiftl 1 19))
                      (Z.shiftl 0 18))
               (Z.shiftl start_prbu 8))
        num_prbu
  = section_id * 1048576 + 524288 + start_prbu * 256 + num_prbu.
Proof.
  intros Hs Hn.
  change (Z.shiftl 0 18) with 0. rewrite Z.lor_0_r.
  change (Z.shiftl 1 19) with 524288.
  rewrite (Z.shiftl_mul_pow2 start_prbu 8) by lia.
  change (2 ^ 8) with 256.
  rewrite lor_shiftl_low by (change (2 ^ 20) with 1048576; lia).
  change (2 ^ 20) with 1048576.
  rewrite (lor_mul_low _ (section_id * 4 + 2) (start_prbu * 256) 18)
    by (change (2 ^ 18) with 262144; lia).
  rewrite (lor_mul_low _ (section_id * 4096 + 2048 + start_prbu) num_prbu 8)
    by (change (2 ^ 8) with 256; lia).
  reflexivity.
Qed.

Lemma create_oran_header_ok
  (frame_id subframe_id slot_id symbol_id section_id start_prbu num_prbu : Z) :
  0 <= frame_id < 256 -> 0 <= subframe_id < 16 -> 0 <= symbol_id < 64 ->
  0 <= section_id < 4096 -> 0 <= start_prbu < 1024 -> 0 <= num_prbu < 256 ->
  create_oran_header frame_id subframe_id slot_id symbol_id section_id
    start_prbu num_prbu
  = Ok ([x10; byte_of_Z frame_id;
         byte_of_Z (subframe_id * 16 + slot_id mod 16);
         byte_of_Z (symbol_id * 4)]
        ++ be_bytes 4 (section_id * 1048576 + 524288 + start_prbu * 256
                       + num_prbu)).
Proof.
  intros Hf Hsf Hsy Hsec Hsp Hnp. unfold create_oran_header.
  rewrite oran_byte2, oran_byte3, oran_section_word by assumption.
  change (Z.lor (Z.lor (Z.shiftl 0 7) (Z.shiftl 1 4)) (Z.land 0 0x0f)) with 16.
  pose proof (Z.mod_pos_bound slot_id 16 ltac:(lia)) as Hm.
  cbn [struct_pack].
  rewrite !pack_B_ok, pack_L_ok by lia.
  reflexivity.
Qed.

(** A value too wide for its place at the top of a byte, or of the
    section word, is not cut down: [struct.pack] refuses it. *)
Lemma create_oran_header_rejects
  (frame_id subframe_id slot_id symbol_id section_id start_prbu num_prbu : Z) :
  0 <= start_prbu < 1024 -> 0 <= num_prbu < 256 ->
  ~ (0 <= frame_id < 256 /\ 0 <= subframe_id < 16 /\ 0 <= symbol_id < 64 /\
     0 <= section_id < 4096) ->
  create_oran_header frame_id subframe_id slot_id symbol_id section_id
    start_prbu num_prbu = Raise StructError.
Proof.
  intros Hsp Hnp Hbad. unfold create_oran_header.
  rewrite oran_byte2, oran_byte3, oran_section_word by assumption.
  change (Z.lor (Z.lor (Z.shiftl 0 7) (Z.shiftl 1 4)) (Z.land 0 0x0f)) with 16.
  pose proof (Z.mod_pos_bound slot_id 16 ltac:(lia)) as Hm.
  cbn [struct_pack].
  rewrite (pack_B_ok 16) by lia. cbn [bind].
  destruct (Z_le_dec 0 frame_id), (Z_lt_dec frame_id 256);
    try (rewrite (pack_one_raise _ fmt_B frame_id)
           by (cbn [code_min code_max]; lia); reflexivity).
  rewrite (pack_B_ok frame_id) by lia. cbn [bind].
  destruct (Z_le_dec 0 subframe_id), (Z_lt_dec subframe_id 16);
    try (rewrite (pack_one_raise _ fmt_B (subframe_id * 16 + _))
           by (cbn [code_min code_max]; lia); reflexivity).
  rewrite (pack_B_ok (subframe_id * 16 + _)) by lia. cbn [bind].
  destruct (Z_le_dec 0 symbol_id), (Z_lt_dec symbol_id 64);
    try (rewrite (pack_one_raise _ fmt_B (symbol_id * 4))
           by (cbn [code_min code_max]; lia); reflexivity).
  rewrite (pack_B_ok (symbol_id * 4)) by lia. cbn [bind].
  rewrite (pack_one_raise _ fmt_L) by (cbn [code_min code_max]; lia).
  reflexivity.
Qed.

Lemma length_create_oran_header
  (frame_id subframe_id slot_id symbol_id section_id start_prbu num_prbu : Z)
  (hdr : bytes) :
  create_oran_header frame_id subframe_id slot_id symbol_id section_id
    start_prbu num_prbu = Ok hdr ->
  List.length hdr = 8%nat.
Proof.
  unfold create_oran_header. cbn [struct_pack].
  repeat match goal with
         | |- context [pack_one ?o ?c ?v] =>
             let E := fresh "E" in
             destruct (pack_one o c v) eqn:E;
             [apply pack_one_inv in E; destruct E as [_ E] | discriminate]
         end.
  cbn [bind]. intro H. injection H as <-.
  rewrite !length_app. cbn [List.length code_size] in *. lia.
Qed.

(** C3 (as the code has it): only [slot_id] is masked.  For every integer
    [slot_id], and the other fields within their widths, the encoder
    returns eight bytes without raising; byte 1 is the frame id, byte 2 is
    [(subframe_id << 4) | (slot_id mod 16)], byte 3 is [symbol_id << 2],
    and the last four bytes are the section word.  A frame, subframe,
    symbol or section id beyond its width is refused by [struct.pack]. *)
Theorem oran_header_masks_slot_only
  (frame_id subframe_id slot_id symbol_id section_id start_prbu num_prbu : Z) :
  0 <= start_prbu < 1024 -> 0 <= num_prbu < 256 ->
  (0 <= frame_id < 256 /\ 0 <= subframe_id < 16 /\ 0 <= symbol_id < 64 /\
   0 <= section_id < 4096 ->
   exists b0 b1 b2 b3 w,
     create_oran_header frame_id subframe_id slot_id symbol_id section_id
       start_prbu num_prbu = Ok ([b0; b1; b2; b3] ++ w) /\
     List.length w = 4%nat /\
     Z_of_byte b1 = frame_id /\
     Z_of_byte b2 = Z.lor (Z.shiftl subframe_id 4) (slot_id mod 16) /\
     Z_of_byte b3 = Z.shiftl symbol_id 2 /\
     be_decode w = section_id * 2 ^ 20 + 2 ^ 19 + start_prbu * 2 ^ 8 + num_prbu)
  /\
  (~ (0 <= frame_id < 256 /\ 0 <= subframe_id < 16 /\ 0 <= symbol_id < 64 /\
      0 <= section_id < 4096) ->
   create_oran_header frame_id subframe_id slot_id symbol_id section_id
     start_prbu num_prbu = Raise StructError).
Proof.
  intros Hsp Hnp. split.
  - intros (Hf & Hsf & Hsy & Hsec).
    pose proof (Z.mod_pos_bound slot_id 16 ltac:(lia)) as Hm.
    rewrite create_oran_header_ok by assumption.
    do 5 eexists. split; [reflexivity|].
    split; [apply length_be_bytes|].
    repeat split.
    + rewrite Z_of_byte_of_Z. apply Z.mod_small. lia.
    + rewrite Z_of_byte_of_Z, Z.mod_small by lia.
      rewrite lor_shiftl_low by (change (2 ^ 4) with 16; lia).
      reflexivity.
    + rewrite Z_of_byte_of_Z, Z.mod_small by lia.
      now rewrite Z.shiftl_mul_pow2 by lia.
    + rewrite be_decode_be_bytes.
      change (2 ^ (8 * Z.of_nat 4)) with 4294967296.
      change (2 ^ 20) with 1048576. change (2 ^ 19) with 524288.
      change (2 ^ 8) with 256.
      apply Z.mod_small. lia.
  - apply create_oran_header_rejects; assumption.
Qed.

Lemma oran_header_masks_slot_only_witness :
  exists b0 b1 b2 b3 w,
    create_oran_header 5 3 (-7) 13 100 0 17 = Ok ([b0; b1; b2; b3] ++ w) /\
    List.length w = 4%nat /\
    Z_of_byte b1 = 5 /\
    Z_of_byte b2 = Z.lor (Z.shiftl 3 4) ((-7) mod 16) /\
    Z_of_byte b3 = Z.shiftl 13 2 /\
    be_decode w = 100 * 2 ^ 20 + 2 ^ 19 + 0 * 2 ^ 8 + 17.
Proof.
  apply (oran_header_masks_slot_only 5 3 (-7) 13 100 0 17); lia.
Defined.

(** Where C3 as stated fails: a subframe id of 16 is not reduced modulo
    16 (the call raises), and a start index of 1024 is packed unmasked,
    landing on the symInc bit. *)
Lemma oran_header_masking_counterexample :
  create_oran_header 0 16 0 0 0 0 0 = Raise StructError /\
  create_oran_header 0 0 0 64 0 0 0 = Raise StructError /\
  create_oran_header 0 0 0 0 4096 0 0 = Raise StructError /\
  (exists hdr,
     create_oran_header 0 0 0 0 0 1024 0 = Ok hdr /\
     f_sym_inc (decode_oran_header hdr) = 1 /\
     f_start_prbu (decode_oran_header hdr) = 0).
Proof.
  repeat split; try (vm_compute; reflexivity).
  eexists. repeat split; vm_compute; reflexivity.
Qed.

(** C2: at frame 5, subframe 3, slot 9, symbol 13, section 100, start 0
    and 273 resource blocks the encoder succeeds, and reading the eight
    bytes back by the documented layout returns the frame, subframe,
    slot, symbol and section ids, but numPrbu 17 and startPrbu 1: the
    count is OR-ed in unmasked and its ninth bit lands in startPrbu. *)
Theorem oran_header_273_reads_back_17 :
  exists hdr,
    create_oran_header 5 3 9 13 100 0 273 = Ok hdr /\
    hdr = [x10; x05; x39; x34; x06; x48; x01; x11] /\
    decode_oran_header hdr =
      {| f_frame_id := 5;
         f_subframe_id := 3;
         f_slot_id := 9;
         f_symbol_id := 13;
         f_section_id := 100;
         f_rb := 1;
         f_sym_inc := 0;
         f_start_prbu := 1;
         f_num_prbu := 17 |}.
Proof.
  exists [x10; x05; x39; x34; x06; x48; x01; x11].
  split; [vm_compute; reflexivity|].
  split; [reflexivity|].
  vm_compute. reflexivity.
Qed.

(** With a count that fits the 8-bit field the same call does read back. *)
Lemma oran_header_roundtrip
  (frame_id subframe_id slot_id symbol_id section_id start_prbu num_prbu : Z) :
  0 <= frame_id < 256 -> 0 <= subframe_id < 16 -> 0 <= slot_id < 16 ->
  0 <= symbol_id < 64 -> 0 <= section_id < 4096 ->
  0 <= start_prbu < 1024 -> 0 <= num_prbu < 256 ->
  exists hdr,
    create_oran_header frame_id subframe_id slot_id symbol_id section_id
      start_prbu num_prbu = Ok hdr /\
    decode_oran_header hdr =
      {| f_frame_id := frame_id;
         f_subframe_id := subframe_id;
         f_slot_id := slot_id;
         f_symbol_id := symbol_id;
         f_section_id := section_id;
         f_rb := 1;
         f_sym_inc := 0;
         f_start_prbu := start_prbu;
         f_num_prbu := num_prbu |}.
Proof.
  intros Hf Hsf Hsl Hsy Hsec Hsp Hnp.
  rewrite create_oran_header_ok by assumption.
  eexists. split; [reflexivity|].
  set (w := section_id * 1048576 + 524288 + start_prbu * 256 + num_prbu).
  assert (Hw : be_decode (be_bytes 4 w) = w).
  { rewrite be_decode_be_bytes. apply Z.mod_small.
    change (2 ^ (8 * Z.of_nat 4)) with 4294967296. unfold w. lia. }
  unfold decode_oran_header.
  change (slice 4 8 (_ ++ be_bytes 4 w)) with (be_bytes 4 w).
  rewrite Hw.
  cbn [slice firstn skipn app Nat.sub be_decode rev le_decode].
  rewrite !Z_of_byte_of_Z.
  rewrite (Z.mod_small slot_id 16) by lia.
  rewrite !Z.mod_small by lia.
  change 0x0f with (Z.ones 4). change 0x3ff with (Z.ones 10).
  change 0xff with (Z.ones 8).
  replace (Z.land (Z.shiftr w 19) 1) with (Z.land (Z.shiftr w 19) (Z.ones 1)) by reflexivity.
  replace (Z.land (Z.shiftr w 18) 1) with (Z.land (Z.shiftr w 18) (Z.ones 1)) by reflexivity.
  rewrite !Z.land_ones, !Z.shiftr_div_pow2 by lia.
  change (2 ^ 4) with 16. change (2 ^ 2) with 4. change (2 ^ 20) with 1048576.
  change (2 ^ 19) with 524288. change (2 ^ 18) with 262144.
  change (2 ^ 8) with 256. change (2 ^ 10) with 1024. change (2 ^ 1) with 2.
  unfold w.
  f_equal; Z.div_mod_to_equations; lia.
Qed.

(** ** The Ethernet header *)

Lemma ethertype_bytes : struct_pack BigEndian [fmt_H] [0xaefe] = Ok [xae; xfe].
Proof.
  cbn [struct_pack]. rewrite pack_H_ok by lia. reflexivity.
Qed.

Lemma create_ethernet_header_ok (src_mac dst_mac : string) (dst src : bytes) :
  mac_to_bytes dst_mac = Ok dst -> mac_to_bytes src_mac = Ok src ->
  create_ethernet_header src_mac dst_mac = Ok (dst ++ src ++ [xae; xfe]).
Proof.
  intros Hd Hs. unfold create_ethernet_header.
  rewrite Hd, Hs. cbn [bind]. rewrite ethertype_bytes. reflexivity.
Qed.

Lemma fromhex_octet (b : byte) (rest : string) :
  fromhex (format_octet b ++ rest) = (r <- fromhex rest ;; Ok (b :: r)).
Proof.
  destruct b; reflexivity.
Qed.

Lemma remove_colon_octet (b : byte) (rest : string) :
  remove_char ":" (format_octet b ++ rest)
  = (format_octet b ++ remove_char ":" rest)%string.
Proof.
  destruct b; reflexivity.
Qed.

Lemma format_octet_nil (b : byte) :
  format_octet b = (format_octet b ++ EmptyString)%string.
Proof.
  destruct b; reflexivity.
Qed.

(** Any number of octets, written with colons, parses back to them. *)
Lemma mac_to_bytes_format_mac (octets : bytes) :
  mac_to_bytes (format_mac octets) = Ok octets.
Proof.
  unfold mac_to_bytes.
  induction octets as [|b rest IH].
  - reflexivity.
  - destruct rest as [|b' rest'].
    + cbn [format_mac]. rewrite format_octet_nil, remove_colon_octet.
      rewrite fromhex_octet. reflexivity.
    + change (format_mac (b :: b' :: rest'))
        with (format_octet b ++ String ":" (format_mac (b' :: rest')))%string.
      rewrite remove_colon_octet.
      change (remove_char ":" (String ":" (format_mac (b' :: rest'))))
        with (remove_char ":" (format_mac (b' :: rest'))).
      rewrite fromhex_octet, IH. reflexivity.
Qed.

(** Where C10 as stated fails: a seven-octet source with a five-octet
    destination gives a 14-byte header, though neither address has six
    octets. *)
Lemma ethernet_header_14_bytes_counterexample :
  mac_to_bytes "00:11:22:33:44:55:66"
  = Ok [x00; x11; x22; x33; x44; x55; x66] /\
  mac_to_bytes "aa:bb:cc:dd:ee" = Ok [xaa; xbb; xcc; xdd; xee] /\
  create_ethernet_header "00:11:22:33:44:55:66" "aa:bb:cc:dd:ee"
  = Ok [xaa; xbb; xcc; xdd; xee;
        x00; x11; x22; x33; x44; x55; x66; xae; xfe] /\
  len [xaa; xbb; xcc; xdd; xee;
       x00; x11; x22; x33; x44; x55; x66; xae; xfe] = 14.
Proof.
  repeat split; vm_compute; reflexivity.
Qed.

(** C10 (as the code has it): the Ethernet encoder checks no octet
    count.  Whenever both MAC strings parse, it returns destination ++
    source ++ AE FE without error, of length (destination octets +
    source octets + 2).  That length is 14 exactly when the two octet
    counts add up to 12: six octets each is enough, and when one address
    has six octets the other must have six too, but two addresses of
    other lengths can make 14 as well.  All of it holds for
    colon-separated hex of any octet count, and the destination
    00:11:22:33 gives a 12-byte header. *)
Theorem ethernet_header_unchecked_length :
  (forall (src_mac dst_mac : string) (dst src : bytes),
      mac_to_bytes dst_mac = Ok dst -> mac_to_bytes src_mac = Ok src ->
      exists out,
        create_ethernet_header src_mac dst_mac = Ok out /\
        out = dst ++ src ++ [xae; xfe] /\
        len out = len dst + len src + 2 /\
        (len out = 14 <-> len dst + len src = 12) /\
        (len dst = 6 -> len src = 6 -> len out = 14) /\
        (len dst = 6 -> len src <> 6 -> len out <> 14) /\
        (len dst <> 6 -> len src = 6 -> len out <> 14))
  /\
  (forall dst src : bytes,
      create_ethernet_header (format_mac src) (format_mac dst)
      = Ok (dst ++ src ++ [xae; xfe]))
  /\
  (exists out,
      create_ethernet_header default_src_mac "00:11:22:33" = Ok out /\
      len out = 12 /\ len out <> 14).
Proof.
  split; [|split].
  - intros src_mac dst_mac dst src Hd Hs.
    exists (dst ++ src ++ [xae; xfe]).
    split; [now apply create_ethernet_header_ok|].
    split; [reflexivity|].
    assert (Hlen : len (dst ++ src ++ [xae; xfe]) = len dst + len src + 2).
    { unfold len. rewrite !length_app. cbn [List.length]. lia. }
    split; [exact Hlen|]. split; [lia|].
    repeat split; intros; lia.
  - intros dst src.
    apply create_ethernet_header_ok; apply mac_to_bytes_format_mac.
  - eexists. split; [vm_compute; reflexivity|].
    split; [reflexivity | discriminate].
Qed.

Lemma ethernet_header_unchecked_length_witness :
  exists out,
    create_ethernet_header "00:11:22:33:44:55" "aa:bb:cc:dd:ee:ff" = Ok out /\
    out = [xaa; xbb; xcc; xdd; xee; xff] ++ [x00; x11; x22; x33; x44; x55]
          ++ [xae; xfe] /\
    len out = 14.
Proof.
  destruct (proj1 ethernet_header_unchecked_length
              "00:11:22:33:44:55"%string "aa:bb:cc:dd:ee:ff"%string
              [xaa; xbb; xcc; xdd; xee; xff] [x00; x11; x22; x33; x44; x55]
              eq_refl eq_refl)
    as (out & Hok & Hout & _ & _ & H14 & _).
  exists out. split; [exact Hok|]. split; [exact Hout|].
  apply H14; reflexivity.
Defined.

(** ** Stateful code: binds, draws and loops *)

Section PyFacts.

Context {F : PyFloat} {R : PyRandom F}.

Lemma py_bind_ok {A B : Type} (m : py A) (k : A -> py B) s a s' :
  m s = (Ok a, s') -> py_bind m k s = k a s'.
Proof.
  intro H. unfold py_bind. now rewrite H.
Qed.

Lemma py_bind_raise {A B : Type} (m : py A) (k : A -> py B) s e s' :
  m s = (Raise e, s') -> py_bind m k s = (Raise e, s').
Proof.
  intro H. unfold py_bind. now rewrite H.
Qed.

Lemma py_bind_inv {A B : Type} (m : py A) (k : A -> py B) s b s2 :
  py_bind m k s = (Ok b, s2) ->
  exists a s1, m s = (Ok a, s1) /\ k a s1 = (Ok b, s2).
Proof.
  unfold py_bind. destruct (m s) as [[a|e] s1]; intro H.
  - now exists a, s1.
  - discriminate.
Qed.

Lemma lift_inv {A : Type} (r : result A) s a s' :
  lift r s = (Ok a, s') -> r = Ok a /\ s' = s.
Proof.
  unfold lift. intro H. injection H as -> ->. now split.
Qed.

Lemma ret_inv {A : Type} (x a : A) (s s' : rng_state) :
  ret x s = (Ok a, s') -> a = x /\ s' = s.
Proof.
  unfold ret. intro H. injection H as -> ->. now split.
Qed.

Lemma random_randint_ok (a b : Z) s :
  a <= b ->
  random_randint a b s
  = (Ok (fst (randint_draw a b s)), snd (randint_draw a b s)).
Proof.
  intro H. unfold random_randint.
  destruct (Z.ltb_spec b a) as [Hlt|_]; [lia|].
  now destruct (randint_draw a b s).
Qed.

Lemma random_random_ok s :
  random_random s = (Ok (fst (random_draw s)), snd (random_draw s)).
Proof.
  unfold random_random. now destruct (random_draw s).
Qed.

Lemma truediv_ok (i n : Z) : n <> 0 -> truediv i n = Ok (int_truediv i n).
Proof.
  intro H. unfold truediv.
  destruct (Z.eqb_spec n 0) as [E|_]; [contradiction | reflexivity].
Qed.

Lemma in_py_range (i n : Z) : In i (py_range n) -> 0 <= i < n.
Proof.
  unfold py_range. rewrite in_map_iff.
  intros (k & <- & Hk). apply in_seq in Hk. lia.
Qed.

Lemma length_py_range (n : Z) : List.length (py_range n) = Z.to_nat n.
Proof.
  unfold py_range. now rewrite length_map, length_seq.
Qed.

Lemma py_range_nonpositive (n : Z) : n <= 0 -> py_range n = [].
Proof.
  intro H. unfold py_range.
  replace (Z.to_nat n) with 0%nat by lia. reflexivity.
Qed.

(** A loop whose every turn serializes one in-range sample serializes
    a list of in-range samples, one per index. *)
Lemma for_range_samples (xs : list Z) (body : Z -> py bytes) :
  (forall i s, In i xs ->
     exists iq s', body i s = (Ok (encode_sample iq), s') /\ sample_in_range iq) ->
  forall s,
  exists vals s',
    for_range xs body s = (Ok (map encode_sample vals), s') /\
    Forall sample_in_range vals /\
    List.length vals = List.length xs.
Proof.
  induction xs as [|i xs IH]; intros Hbody s.
  - exists [], s. repeat split. constructor.
  - destruct (Hbody i s (or_introl eq_refl)) as (iq & s1 & Hb & Hiq).
    destruct (IH (fun j t Hj => Hbody j t (or_intror Hj)) s1)
      as (vals & s2 & Hrest & Hall & Hlen).
    exists (iq :: vals), s2.
    cbn [for_range].
    rewrite (py_bind_ok _ _ _ _ _ Hb), (py_bind_ok _ _ _ _ _ Hrest).
    repeat split.
    + now constructor.
    + cbn [List.length]. now rewrite Hlen.
Qed.

(** What a finished loop returned, whatever the model: one chunk per
    index, each of the length every turn produces. *)
Lemma for_range_chunks (xs : list Z) (body : Z -> py bytes) (k : nat) :
  (forall i s b s', body i s = (Ok b, s') -> List.length b = k) ->
  forall s chunks s',
    for_range xs body s = (Ok chunks, s') ->
    List.length (List.concat chunks) = (k * List.length xs)%nat.
Proof.
  intro Hbody.
  induction xs as [|i xs IH]; intros s chunks s' H.
  - apply ret_inv in H. destruct H as [-> _]. cbn. lia.
  - cbn [for_range] in H.
    apply py_bind_inv in H. destruct H as (b & s1 & Hb & H).
    apply py_bind_inv in H. destruct H as (rest & s2 & Hrest & H).
    apply ret_inv in H. destruct H as [-> _].
    cbn [List.concat List.length]. rewrite length_app.
    rewrite (Hbody _ _ _ _ Hb), (IH _ _ _ Hrest). lia.
Qed.

Lemma lift_pack_hh_length (i q : Z) s (b : bytes) s' :
  lift (pack_hh i q) s = (Ok b, s') -> List.length b = 4%nat.
Proof.
  intro H. apply lift_inv in H. destruct H as [H _].
  apply pack_hh_inv in H. destruct H as [_ ->].
  apply length_encode_sample.
Qed.

Lemma lift_pack_hh_clamped (i q : Z) s :
  lift (pack_hh (Z.max (-32768) (Z.min 32767 i))
                (Z.max (-32768) (Z.min 32767 q))) s
  = (Ok (encode_sample (Z.max (-32768) (Z.min 32767 i),
                        Z.max (-32768) (Z.min 32767 q))), s).
Proof.
  unfold lift. rewrite pack_hh_ok by (unfold int16; lia). reflexivity.
Qed.

Lemma clamped_in_range (i q : Z) :
  sample_in_range (Z.max (-32768) (Z.min 32767 i),
                   Z.max (-32768) (Z.min 32767 q)).
Proof.
  unfold sample_in_range, int16. cbn [fst snd]. lia.
Qed.

Lemma length_concat_samples (vals : list (Z * Z)) :
  List.length (List.concat (map encode_sample vals))
  = (4 * List.length vals)%nat.
Proof.
  induction vals as [|v vals IH].
  - reflexivity.
  - cbn [map List.concat List.length].
    rewrite length_app, length_encode_sample, IH. lia.
Qed.

End PyFacts.

Ltac py_inv H :=
  repeat (cbv beta zeta in H;
          apply py_bind_inv in H;
          let a := fresh "a" in
          let s := fresh "s" in
          let E := fresh "E" in
          destruct H as (a & s & E & H)).

(** ** The IQ sample generators *)

Section GeneratorFacts.

Context {F : PyFloat} {R : PyRandom F}.

Lemma finish_samples (m : py (list bytes)) (P : list (Z * Z) -> Prop) s :
  (exists vals s', m s = (Ok (map encode_sample vals), s') /\ P vals) ->
  exists vals s',
    py_bind m (fun samples => ret (List.concat samples)) s
    = (Ok (List.concat (map encode_sample vals)), s') /\ P vals.
Proof.
  intros (vals & s' & Hm & HP). exists vals, s'.
  now rewrite (py_bind_ok _ _ _ _ _ Hm).
Qed.

Ltac step_randint :=
  erewrite py_bind_ok by (apply random_randint_ok; lia); cbv beta zeta.

Ltac step_random :=
  erewrite py_bind_ok by (apply random_random_ok); cbv beta zeta.

Ltac step_truediv :=
  erewrite py_bind_ok
    by (unfold lift; rewrite truediv_ok by lia; reflexivity);
  cbv beta zeta.

Ltac loop_of_samples n :=
  match goal with
  | |- exists vals s', for_range (py_range n) ?body ?s = _ /\ _ =>
      let Hbody := fresh "Hbody" in
      enough (Hbody : forall i t, In i (py_range n) ->
                exists iq t', body i t = (Ok (encode_sample iq), t') /\
                              sample_in_range iq);
      [ destruct (for_range_samples (py_range n) body Hbody s)
          as (vals & s' & Hloop & Hall & Hlen);
        exists vals, s'; rewrite length_py_range in Hlen; auto
      | let i := fresh "i" in
        let t := fresh "t" in
        let Hi := fresh "Hi" in
        intros i t Hi; apply in_py_range in Hi ]
  end.

Lemma generate_iq_samples_fast_ok :
  randint_within R -> scaled_trig_within F ->
  forall num_samples pattern_type seed g,
  exists vals g',
    LargePcap.generate_iq_samples_fast num_samples pattern_type seed g
    = (Ok (List.concat (map encode_sample vals)), g') /\
    (Forall sample_in_range vals /\ List.length vals = Z.to_nat num_samples).
Proof.
  intros Hrand Htrig n p seed g.
  unfold LargePcap.generate_iq_samples_fast.
  unfold py_bind at 1, random_seed.
  apply finish_samples.
  destruct (p =? 0); [|destruct (p =? 1); [|destruct (p =? 2)]].
  - step_randint. step_random. step_random.
    loop_of_samples n.
    step_truediv. rewrite lift_pack_hh_clamped.
    do 2 eexists. split; [reflexivity | apply clamped_in_range].
  - step_randint.
    pose proof (Hrand (-300) 300 (seed_state seed) ltac:(lia)) as Ha.
    set (amplitude := 1000 + fst (randint_draw (-300) 300 (seed_state seed))) in *.
    loop_of_samples n.
    step_randint.
    pose proof (Hrand (- amplitude) amplitude t ltac:(lia)) as Hv1.
    step_randint.
    match goal with
    | |- context [randint_draw _ _ (snd ?d)] =>
        pose proof (Hrand (- amplitude) amplitude (snd d) ltac:(lia)) as Hv2
    end.
    unfold lift. rewrite pack_hh_ok by (unfold int16; lia).
    do 2 eexists. split; [reflexivity|].
    unfold sample_in_range, int16. cbn [fst snd]. lia.
  - step_randint.
    pose proof (Hrand (-50) 50 (seed_state seed) ltac:(lia)) as Ha.
    set (amplitude := 200 + fst (randint_draw (-50) 50 (seed_state seed))) in *.
    loop_of_samples n.
    step_truediv.
    match goal with
    | |- context [math_cos ?x] =>
        pose proof (Htrig amplitude x ltac:(lia)) as [Hc Hs]
    end.
    unfold lift. rewrite pack_hh_ok by (unfold int16; lia).
    do 2 eexists. split; [reflexivity|].
    unfold sample_in_range, int16. cbn [fst snd]. lia.
  - step_randint.
    loop_of_samples n.
    step_truediv. rewrite lift_pack_hh_clamped.
    do 2 eexists. split; [reflexivity | apply clamped_in_range].
Qed.

Lemma generate_iq_samples_fast_length num_samples pattern_type seed g iq g' :
  LargePcap.generate_iq_samples_fast num_samples pattern_type seed g = (Ok iq, g') ->
  len iq = 4 * Z.max 0 num_samples.
Proof.
  intro H. unfold LargePcap.generate_iq_samples_fast in H.
  apply py_bind_inv in H. destruct H as (u & s0 & _ & H).
  apply py_bind_inv in H. destruct H as (chunks & s1 & Hloop & H).
  apply ret_inv in H. destruct H as [-> _].
  assert (Hk : List.length (List.concat chunks)
               = (4 * List.length (py_range num_samples))%nat).
  { destruct (pattern_type =? 0);
      [|destruct (pattern_type =? 1); [|destruct (pattern_type =? 2)]].
    all: py_inv Hloop.
    all: eapply for_range_chunks; [|exact Hloop].
    all: intros i t b t' Hb; py_inv Hb.
    all: exact (lift_pack_hh_length _ _ _ _ _ Hb). }
  unfold len. rewrite Hk, length_py_range. lia.
Qed.

Lemma generate_iq_samples_fast_nonpositive num_samples pattern_type seed g :
  num_samples <= 0 ->
  fst (LargePcap.generate_iq_samples_fast num_samples pattern_type seed g) = Ok [].
Proof.
  intro Hn. unfold LargePcap.generate_iq_samples_fast.
  rewrite py_range_nonpositive by exact Hn.
  unfold py_bind at 1, random_seed.
  match goal with
  | |- fst (py_bind ?m _ ?s) = _ =>
      assert (Hb : exists s', m s = (Ok [], s'))
  end.
  { destruct (pattern_type =? 0);
      [|destruct (pattern_type =? 1); [|destruct (pattern_type =? 2)]].
    - step_randint. step_random. step_random. eexists. reflexivity.
    - step_randint. eexists. reflexivity.
    - step_randint. eexists. reflexivity.
    - step_randint. eexists. reflexivity. }
  destruct Hb as (s' & Hb).
  rewrite (py_bind_ok _ _ _ _ _ Hb). reflexivity.
Qed.

Lemma with_pattern_branch_ok (num_samples : Z) (pattern : string) i t :
  0 <= i < num_samples ->
  exists iq t',
    (if String.eqb pattern "sine" then
       d <~ lift (truediv i num_samples) ;;
       let t := d *~ float_of_int 4 *~ math_pi in
       let amplitude := 2000 in
       ret (int_of_float (float_of_int amplitude *~ math_cos t),
            int_of_float (float_of_int amplitude *~ math_sin t))
     else if String.eqb pattern "noise" then
       i_sample <~ random_randint (-5000) 5000 ;;
       q_sample <~ random_randint (-5000) 5000 ;;
       ret (i_sample, q_sample)
     else if String.eqb pattern "chirp" then
       t <~ lift (truediv i num_samples) ;;
       let freq := float_of_int 10 +~ float_of_int 90 *~ t in
       let amplitude := 3000 in
       ret (int_of_float (float_of_int amplitude *~
                            math_cos (float_of_int 2 *~ math_pi *~ freq *~ t)),
            int_of_float (float_of_int amplitude *~
                            math_sin (float_of_int 2 *~ math_pi *~ freq *~ t)))
     else if String.eqb pattern "low_power" then
       d <~ lift (truediv i num_samples) ;;
       let t := d *~ float_of_int 2 *~ math_pi in
       let amplitude := 100 in
       ret (int_of_float (float_of_int amplitude *~ math_cos t),
            int_of_float (float_of_int amplitude *~ math_sin t))
     else
       d <~ lift (truediv i num_samples) ;;
       let t := d *~ float_of_int 2 *~ math_pi in
       let amplitude := 8000 in
       ret (int_of_float (float_of_int amplitude *~ math_cos t),
            int_of_float (float_of_int amplitude *~ math_sin t))) t
    = (Ok iq, t').
Proof.
  intro Hi.
  destruct (String.eqb pattern "sine");
    [|destruct (String.eqb pattern "noise");
      [|destruct (String.eqb pattern "chirp");
        [|destruct (String.eqb pattern "low_power")]]].
  all: try (step_truediv; unfold ret; do 2 eexists; reflexivity).
  step_randint. step_randint. unfold ret. do 2 eexists. reflexivity.
Qed.

Lemma generate_iq_samples_with_pattern_ok num_samples pattern g :
  exists vals g',
    TestSamples.generate_iq_samples_with_pattern num_samples pattern g
    = (Ok (List.concat (map encode_sample vals)), g') /\
    (Forall sample_in_range vals /\ List.length vals = Z.to_nat num_samples).
Proof.
  unfold TestSamples.generate_iq_samples_with_pattern.
  apply finish_samples.
  loop_of_samples num_samples.
  destruct (with_pattern_branch_ok num_samples pattern i t Hi)
    as (iq & t' & Hbr).
  rewrite (py_bind_ok _ _ _ _ _ Hbr). cbv beta zeta.
  rewrite lift_pack_hh_clamped.
  do 2 eexists. split; [reflexivity | apply clamped_in_range].
Qed.

Lemma generate_iq_samples_with_pattern_nonpositive num_samples pattern g :
  num_samples <= 0 ->
  TestSamples.generate_iq_samples_with_pattern num_samples pattern g = (Ok [], g).
Proof.
  intro Hn. unfold TestSamples.generate_iq_samples_with_pattern.
  rewrite py_range_nonpositive by exact Hn. reflexivity.
Qed.

Lemma generate_iq_samples_ok num_samples g :
  exists vals g',
    SamplePcap.generate_iq_samples num_samples g
    = (Ok (List.concat (map encode_sample vals)), g') /\
    (Forall sample_in_range vals /\ List.length vals = Z.to_nat num_samples).
Proof.
  unfold SamplePcap.generate_iq_samples.
  apply finish_samples.
  loop_of_samples num_samples.
  step_truediv. step_randint. step_randint.
  rewrite lift_pack_hh_clamped.
  do 2 eexists. split; [reflexivity | apply clamped_in_range].
Qed.

End GeneratorFacts.

(** ** The reference instance meets what the proofs ask *)

Lemma lcg_randint_within : randint_within RefModel.lcg.
Proof.
  intros a b s Hab. cbn.
  pose proof (Z.mod_pos_bound (RefModel.lcg_next s / 65536) (b - a + 1)
                ltac:(lia)) as Hm.
  lia.
Qed.

Lemma fixed_point_trig_within : scaled_trig_within RefModel.fixed_point.
Proof.
  assert (Hq : forall a c, 0 <= a -> -1024 <= c <= 1024 ->
                 - a <= Z.quot (Z.quot (1024 * a * c) 1024) 1024 <= a).
  { intros a c Ha Hc.
    replace (1024 * a * c) with (a * c * 1024) by lia.
    rewrite Z.quot_mul by lia.
    split.
    - replace (- a) with (Z.quot (- a * 1024) 1024)
        by (rewrite Z.quot_mul by lia; reflexivity).
      apply Z.quot_le_mono; nia.
    - replace a with (Z.quot (a * 1024) 1024) at 2
        by (rewrite Z.quot_mul by lia; reflexivity).
      apply Z.quot_le_mono; nia. }
  intros a x Ha. cbn.
  split; apply Hq; unfold RefModel.unit_clamp; lia.
Qed.

(** ** Packet assembly *)

Lemma default_ethernet_header :
  create_ethernet_header default_src_mac default_dst_mac
  = Ok [xaa; xbb; xcc; xdd; xee; xff; x00; x11; x22; x33; x44; x55; xae; xfe].
Proof.
  apply (create_ethernet_header_ok default_src_mac default_dst_mac
           [xaa; xbb; xcc; xdd; xee; xff] [x00; x11; x22; x33; x44; x55]);
    reflexivity.
Qed.

Lemma create_ecpri_header_inv message_type rtc_id seq_id payload_size hdr :
  create_ecpri_header message_type rtc_id seq_id payload_size = Ok hdr ->
  0 <= payload_size <= 65535 /\
  hdr = [byte_of_Z (16 + message_type mod 4);
         byte_of_Z (Z.shiftr payload_size 8); byte_of_Z payload_size;
         byte_of_Z (Z.shiftr rtc_id 8); byte_of_Z rtc_id;
         byte_of_Z (Z.shiftr seq_id 8); byte_of_Z seq_id].
Proof.
  intro H.
  destruct (Z_le_dec 0 payload_size), (Z_le_dec payload_size 65535),
    (Z_le_dec 0 rtc_id), (Z_le_dec rtc_id 65535),
    (Z_le_dec 0 seq_id), (Z_le_dec seq_id 65535);
    try (rewrite create_ecpri_header_raise in H by lia; discriminate).
  rewrite create_ecpri_header_ok in H by lia.
  injection H as <-. split; [lia | reflexivity].
Qed.

(** The size field of a packet laid out as Ethernet, eCPRI, rest. *)
Lemma transport_payload_size_of (b0 hi lo r1 r2 q1 q2 : byte) (rest : bytes) :
  transport_payload_size
    ([xaa; xbb; xcc; xdd; xee; xff; x00; x11; x22; x33; x44; x55; xae; xfe]
     ++ [b0; hi; lo; r1; r2; q1; q2] ++ rest)
  = be_decode [hi; lo]
  /\ after_transport
       ([xaa; xbb; xcc; xdd; xee; xff; x00; x11; x22; x33; x44; x55; xae; xfe]
        ++ [b0; hi; lo; r1; r2; q1; q2] ++ rest) = rest.
Proof.
  split; reflexivity.
Qed.

Lemma be_decode_u16 (v : Z) :
  0 <= v <= 65535 -> be_decode [byte_of_Z (Z.shiftr v 8); byte_of_Z v] = v.
Proof.
  intro H. change (be_decode (be_bytes 2 v) = v).
  rewrite be_decode_be_bytes. apply Z.mod_small.
  change (2 ^ (8 * Z.of_nat 2)) with 65536. lia.
Qed.

Lemma create_oran_header_frame_raise
  (frame_id subframe_id slot_id symbol_id section_id start_prbu num_prbu : Z) :
  ~ (0 <= frame_id < 256) ->
  create_oran_header frame_id subframe_id slot_id symbol_id section_id
    start_prbu num_prbu = Raise StructError.
Proof.
  intro Hf. unfold create_oran_header.
  change (Z.lor (Z.lor (Z.shiftl 0 7) (Z.shiftl 1 4)) (Z.land 0 0x0f)) with 16.
  cbn [struct_pack].
  rewrite (pack_B_ok 16) by lia. cbn [bind].
  rewrite (pack_one_raise _ fmt_B frame_id) by (cbn [code_min code_max]; lia).
  reflexivity.
Qed.

Lemma oran_section_word_default (section_id : Z) :
  Z.lor (Z.lor (Z.lor (Z.lor (Z.shiftl section_id 20) (Z.shiftl 1 19))
                      (Z.shiftl 0 18))
               (Z.shiftl 0 8))
        default_num_prbu
  = section_id * 1048576 + 524288 + 273.
Proof.
  change (Z.shiftl 0 18) with 0. change (Z.shiftl 0 8) with 0.
  rewrite !Z.lor_0_r.
  change (Z.shiftl 1 19) with 524288.
  rewrite lor_shiftl_low by (change (2 ^ 20) with 1048576; lia).
  change (2 ^ 20) with 1048576.
  rewrite (lor_mul_low _ (section_id * 2 + 1) default_num_prbu 19)
    by (unfold default_num_prbu; change (2 ^ 19) with 524288; lia).
  reflexivity.
Qed.

(** The default count of 273 does not make the call fail: it fits the
    32-bit word, only not its own 8-bit field. *)
Lemma create_oran_header_default_ok
  (frame_id subframe_id slot_id symbol_id section_id : Z) :
  0 <= frame_id < 256 -> 0 <= subframe_id < 16 -> 0 <= symbol_id < 64 ->
  0 <= section_id < 4096 ->
  create_oran_header frame_id subframe_id slot_id symbol_id section_id
    0 default_num_prbu
  = Ok ([x10; byte_of_Z frame_id;
         byte_of_Z (subframe_id * 16 + slot_id mod 16);
         byte_of_Z (symbol_id * 4)]
        ++ be_bytes 4 (section_id * 1048576 + 524288 + 273)).
Proof.
  intros Hf Hsf Hsy Hsec. unfold create_oran_header.
  rewrite oran_byte2, oran_byte3, oran_section_word_default.
  change (Z.lor (Z.lor (Z.shiftl 0 7) (Z.shiftl 1 4)) (Z.land 0 0x0f)) with 16.
  pose proof (Z.mod_pos_bound slot_id 16 ltac:(lia)) as Hm.
  cbn [struct_pack].
  rewrite !pack_B_ok, pack_L_ok by lia.
  reflexivity.
Qed.

Lemma land_ffff (x : Z) : Z.land x 0xFFFF = x mod 65536.
Proof.
  change 0xFFFF with (Z.ones 16). now rewrite Z.land_ones by lia.
Qed.

Section AssemblyFacts.

Context {F : PyFloat} {R : PyRandom F}.

Lemma generate_iq_samples_length num_samples g iq g' :
  SamplePcap.generate_iq_samples num_samples g = (Ok iq, g') ->
  len iq = 4 * Z.max 0 num_samples.
Proof.
  intro H.
  destruct (generate_iq_samples_ok num_samples g)
    as (vals & g'' & Hok & _ & Hlen).
  rewrite Hok in H. injection H as <- _.
  unfold len. rewrite length_concat_samples, Hlen. lia.
Qed.

Lemma generate_iq_samples_with_pattern_length num_samples pattern g iq g' :
  TestSamples.generate_iq_samples_with_pattern num_samples pattern g
  = (Ok iq, g') ->
  len iq = 4 * Z.max 0 num_samples.
Proof.
  intro H.
  destruct (generate_iq_samples_with_pattern_ok num_samples pattern g)
    as (vals & g'' & Hok & _ & Hlen).
  rewrite Hok in H. injection H as <- _.
  unfold len. rewrite length_concat_samples, Hlen. lia.
Qed.

(** Ethernet ++ eCPRI ++ header ++ block, with the eCPRI size octets
    holding the size of what follows. *)
Lemma assembled_payload_size (b0 r1 r2 q1 q2 : byte) (oran iq : bytes) (count : Z) :
  len oran = 8 -> len iq = 4 * count -> 0 <= len oran + len iq <= 65535 ->
  payload_size_matches
    ([xaa; xbb; xcc; xdd; xee; xff; x00; x11; x22; x33; x44; x55; xae; xfe]
     ++ [b0; byte_of_Z (Z.shiftr (len oran + len iq) 8);
         byte_of_Z (len oran + len iq); r1; r2; q1; q2]
     ++ oran ++ iq)
    oran iq count.
Proof.
  intros Hlo Hli Hps. unfold payload_size_matches.
  destruct (transport_payload_size_of b0
              (byte_of_Z (Z.shiftr (len oran + len iq) 8))
              (byte_of_Z (len oran + len iq)) r1 r2 q1 q2 (oran ++ iq))
    as [Hsz Haft].
  split; [exact Haft|].
  split; [rewrite Hsz; now apply be_decode_u16|].
  now split.
Qed.

Lemma create_oran_packet_fast_payload packet_id g pkt :
  fst (LargePcap.create_oran_packet_fast packet_id g) = Ok pkt ->
  exists oran iq g',
    create_oran_header ((packet_id / 140) mod 1024)
      ((((packet_id / 14) mod 10) / 2) mod 10) ((packet_id / 14) mod 10)
      (packet_id mod 14) (packet_id mod 4096) 0 default_num_prbu = Ok oran /\
    LargePcap.generate_iq_samples_fast (273 * 12) (packet_id mod 4) packet_id g
    = (Ok iq, g') /\
    payload_size_matches pkt oran iq (273 * 12).
Proof.
  destruct (LargePcap.create_oran_packet_fast packet_id g) as [r gf] eqn:E.
  cbn [fst]. intros ->.
  unfold LargePcap.create_oran_packet_fast in E. cbv zeta in E.
  apply py_bind_inv in E. destruct E as (eth & s0 & Heth & E).
  apply py_bind_inv in E. destruct E as (oran & s1 & Horan & E).
  apply py_bind_inv in E. destruct E as (iq & s2 & Hiq & E).
  apply py_bind_inv in E. destruct E as (ecpri & s3 & Hecpri & E).
  apply lift_inv in Heth. destruct Heth as [Heth ->].
  apply lift_inv in Horan. destruct Horan as [Horan ->].
  apply lift_inv in Hecpri. destruct Hecpri as [Hecpri ->].
  apply ret_inv in E. destruct E as [-> _].
  rewrite default_ethernet_header in Heth. injection Heth as <-.
  pose proof (length_create_oran_header _ _ _ _ _ _ _ _ Horan) as Hlo.
  pose proof (generate_iq_samples_fast_length _ _ _ _ _ _ Hiq) as Hli.
  apply create_ecpri_header_inv in Hecpri. destruct Hecpri as [Hps ->].
  exists oran, iq, s2. split; [exact Horan|]. split; [exact Hiq|].
  apply assembled_payload_size; [unfold len; lia | rewrite Hli; lia | exact Hps].
Qed.

Lemma sample_create_oran_packet_payload rtc_id seq_id frame_id symbol_id g pkt :
  fst (SamplePcap.create_oran_packet rtc_id seq_id frame_id symbol_id g) = Ok pkt ->
  exists oran iq g',
    create_oran_header frame_id 0 0 symbol_id 0 0 default_num_prbu = Ok oran /\
    SamplePcap.generate_iq_samples (273 * 12) g = (Ok iq, g') /\
    payload_size_matches pkt oran iq (273 * 12).
Proof.
  destruct (SamplePcap.create_oran_packet rtc_id seq_id frame_id symbol_id g)
    as [r gf] eqn:E.
  cbn [fst]. intros ->.
  unfold SamplePcap.create_oran_packet in E. cbv zeta in E.
  apply py_bind_inv in E. destruct E as (eth & s0 & Heth & E).
  apply py_bind_inv in E. destruct E as (oran & s1 & Horan & E).
  apply py_bind_inv in E. destruct E as (iq & s2 & Hiq & E).
  apply py_bind_inv in E. destruct E as (ecpri0 & s3 & Hecpri0 & E).
  apply py_bind_inv in E. destruct E as (ecpri & s4 & Hecpri & E).
  apply lift_inv in Heth. destruct Heth as [Heth ->].
  apply lift_inv in Horan. destruct Horan as [Horan ->].
  apply lift_inv in Hecpri0. destruct Hecpri0 as [Hecpri0 ->].
  apply lift_inv in Hecpri. destruct Hecpri as [Hecpri ->].
  apply ret_inv in E. destruct E as [-> _].
  rewrite default_ethernet_header in Heth. injection Heth as <-.
  pose proof (length_create_oran_header _ _ _ _ _ _ _ _ Horan) as Hlo.
  pose proof (generate_iq_samples_length _ _ _ _ Hiq) as Hli.
  rewrite sample_create_ecpri_header_eq in Hecpri0.
  apply create_ecpri_header_inv in Hecpri0. destruct Hecpri0 as [_ ->].
  assert (Hps : 0 <= len oran + len iq <= 65535) by (unfold len in *; lia).
  unfold SamplePcap.patch_payload_size in Hecpri.
  cbn [struct_pack] in Hecpri. rewrite pack_H_ok in Hecpri by exact Hps.
  cbn [bind firstn skipn app] in Hecpri. injection Hecpri as <-.
  exists oran, iq, s2. split; [exact Horan|]. split; [exact Hiq|].
  apply assembled_payload_size; [unfold len; lia | rewrite Hli; lia | exact Hps].
Qed.

Lemma test_create_oran_packet_payload
  rtc_id seq_id frame_id symbol_id pattern g pkt :
  fst (TestSamples.create_oran_packet rtc_id seq_id frame_id symbol_id pattern g)
  = Ok pkt ->
  exists oran iq g',
    create_oran_header frame_id 0 0 symbol_id 0 0 default_num_prbu = Ok oran /\
    TestSamples.generate_iq_samples_with_pattern (273 * 12) pattern g
    = (Ok iq, g') /\
    payload_size_matches pkt oran iq (273 * 12).
Proof.
  destruct (TestSamples.create_oran_packet rtc_id seq_id frame_id symbol_id
              pattern g) as [r gf] eqn:E.
  cbn [fst]. intros ->.
  unfold TestSamples.create_oran_packet in E. cbv zeta in E.
  apply py_bind_inv in E. destruct E as (eth & s0 & Heth & E).
  apply py_bind_inv in E. destruct E as (oran & s1 & Horan & E).
  apply py_bind_inv in E. destruct E as (iq & s2 & Hiq & E).
  apply py_bind_inv in E. destruct E as (ecpri & s3 & Hecpri & E).
  apply lift_inv in Heth. destruct Heth as [Heth ->].
  apply lift_inv in Horan. destruct Horan as [Horan ->].
  apply lift_inv in Hecpri. destruct Hecpri as [Hecpri ->].
  apply ret_inv in E. destruct E as [-> _].
  rewrite default_ethernet_header in Heth. injection Heth as <-.
  pose proof (length_create_oran_header _ _ _ _ _ _ _ _ Horan) as Hlo.
  pose proof (generate_iq_samples_with_pattern_length _ _ _ _ _ Hiq) as Hli.
  apply create_ecpri_header_inv in Hecpri. destruct Hecpri as [Hps ->].
  exists oran, iq, s2. split; [exact Horan|]. split; [exact Hiq|].
  apply assembled_payload_size; [unfold len; lia | rewrite Hli; lia | exact Hps].
Qed.

(** The batch generator derives a frame id below 1024 and hands it to a
    one-byte field: from packet 35840 on, assembly raises. *)
Lemma create_oran_packet_fast_raises packet_id g :
  256 <= (packet_id / 140) mod 1024 ->
  LargePcap.create_oran_packet_fast packet_id g = (Raise StructError, g).
Proof.
  intro Hf. unfold LargePcap.create_oran_packet_fast. cbv zeta.
  erewrite py_bind_ok
    by (unfold lift; rewrite default_ethernet_header; reflexivity).
  apply py_bind_raise. unfold lift.
  rewrite create_oran_header_frame_raise by lia. reflexivity.
Qed.

Lemma create_oran_packet_fast_ok packet_id g :
  randint_within R -> scaled_trig_within F ->
  (packet_id / 140) mod 1024 < 256 ->
  exists pkt g', LargePcap.create_oran_packet_fast packet_id g = (Ok pkt, g').
Proof.
  intros Hrand Htrig Hf.
  unfold LargePcap.create_oran_packet_fast. cbv zeta.
  pose proof (Z.mod_pos_bound (packet_id / 140) 1024 ltac:(lia)).
  pose proof (Z.mod_pos_bound (packet_id / 14) 10 ltac:(lia)).
  pose proof (Z.mod_pos_bound (((packet_id / 14) mod 10) / 2) 10 ltac:(lia)).
  pose proof (Z.mod_pos_bound packet_id 14 ltac:(lia)).
  pose proof (Z.mod_pos_bound packet_id 4096 ltac:(lia)).
  pose proof (Z.mod_pos_bound packet_id 8 ltac:(lia)).
  pose proof (Z.mod_pos_bound packet_id 65536 ltac:(lia)).
  erewrite py_bind_ok
    by (unfold lift; rewrite default_ethernet_header; reflexivity).
  erewrite py_bind_ok
    by (unfold lift; rewrite create_oran_header_default_ok by lia; reflexivity).
  destruct (generate_iq_samples_fast_ok Hrand Htrig (273 * 12)
              (packet_id mod 4) packet_id g)
    as (vals & g' & Hiq & _ & Hlen).
  rewrite (py_bind_ok _ _ _ _ _ Hiq).
  assert (Hli : len (List.concat (map encode_sample vals)) = 13104).
  { unfold len. rewrite length_concat_samples, Hlen. reflexivity. }
  erewrite py_bind_ok.
  - do 2 eexists. reflexivity.
  - unfold lift. rewrite create_ecpri_header_ok; [reflexivity | | lia |].
    + rewrite Hli. unfold len. rewrite length_app, length_be_bytes.
      cbn [List.length]. lia.
    + rewrite land_ffff. lia.
Qed.

Lemma sample_create_oran_packet_ok rtc_id seq_id frame_id symbol_id g :
  0 <= rtc_id < 65536 -> 0 <= seq_id < 65536 ->
  0 <= frame_id < 256 -> 0 <= symbol_id < 64 ->
  exists pkt g',
    SamplePcap.create_oran_packet rtc_id seq_id frame_id symbol_id g
    = (Ok pkt, g').
Proof.
  intros Hr Hs Hf Hsy.
  unfold SamplePcap.create_oran_packet. cbv zeta.
  erewrite py_bind_ok
    by (unfold lift; rewrite default_ethernet_header; reflexivity).
  erewrite py_bind_ok
    by (unfold lift; rewrite create_oran_header_default_ok by lia; reflexivity).
  destruct (generate_iq_samples_ok (273 * 12) g)
    as (vals & g' & Hiq & _ & Hlen).
  rewrite (py_bind_ok _ _ _ _ _ Hiq).
  assert (Hli : len (List.concat (map encode_sample vals)) = 13104).
  { unfold len. rewrite length_concat_samples, Hlen. reflexivity. }
  erewrite py_bind_ok
    by (unfold lift; rewrite sample_create_ecpri_header_eq,
          create_ecpri_header_ok by lia; reflexivity).
  erewrite py_bind_ok.
  - do 2 eexists. reflexivity.
  - unfold lift, SamplePcap.patch_payload_size. cbn [struct_pack].
    rewrite pack_H_ok; [reflexivity|].
    rewrite Hli. unfold len. rewrite length_app, length_be_bytes.
    cbn [List.length]. lia.
Qed.

Lemma test_create_oran_packet_ok rtc_id seq_id frame_id symbol_id pattern g :
  0 <= rtc_id < 65536 -> 0 <= seq_id < 65536 ->
  0 <= frame_id < 256 -> 0 <= symbol_id < 64 ->
  exists pkt g',
    TestSamples.create_oran_packet rtc_id seq_id frame_id symbol_id pattern g
    = (Ok pkt, g').
Proof.
  intros Hr Hs Hf Hsy.
  unfold TestSamples.create_oran_packet. cbv zeta.
  erewrite py_bind_ok
    by (unfold lift; rewrite default_ethernet_header; reflexivity).
  erewrite py_bind_ok
    by (unfold lift; rewrite create_oran_header_default_ok by lia; reflexivity).
  destruct (generate_iq_samples_with_pattern_ok (273 * 12) pattern g)
    as (vals & g' & Hiq & _ & Hlen).
  rewrite (py_bind_ok _ _ _ _ _ Hiq).
  assert (Hli : len (List.concat (map encode_sample vals)) = 13104).
  { unfold len. rewrite length_concat_samples, Hlen. reflexivity. }
  erewrite py_bind_ok.
  - do 2 eexists. reflexivity.
  - unfold lift. rewrite create_ecpri_header_ok; [reflexivity | | lia | lia].
    rewrite Hli. unfold len. rewrite length_app, length_be_bytes.
    cbn [List.length]. lia.
Qed.

End AssemblyFacts.

(** ** The claims about generation and assembly *)

(** C1: in every packet any of the three assemblers returns, the 16-bit
    big-endian size field of the eCPRI header equals the byte length of
    the application header plus that of the IQ block behind it, which is
    8 + 4 * 3276; the block of the batch generator has 4 bytes per
    requested sample, for any count. *)
Theorem transport_payload_size_matches (F : PyFloat) (R : PyRandom F) :
  (forall packet_id g pkt,
      fst (LargePcap.create_oran_packet_fast packet_id g) = Ok pkt ->
      exists oran iq g',
        create_oran_header ((packet_id / 140) mod 1024)
          ((((packet_id / 14) mod 10) / 2) mod 10) ((packet_id / 14) mod 10)
          (packet_id mod 14) (packet_id mod 4096) 0 default_num_prbu = Ok oran /\
        LargePcap.generate_iq_samples_fast (273 * 12) (packet_id mod 4)
          packet_id g = (Ok iq, g') /\
        payload_size_matches pkt oran iq (273 * 12))
  /\
  (forall rtc_id seq_id frame_id symbol_id g pkt,
      fst (SamplePcap.create_oran_packet rtc_id seq_id frame_id symbol_id g)
      = Ok pkt ->
      exists oran iq g',
        create_oran_header frame_id 0 0 symbol_id 0 0 default_num_prbu = Ok oran /\
        SamplePcap.generate_iq_samples (273 * 12) g = (Ok iq, g') /\
        payload_size_matches pkt oran iq (273 * 12))
  /\
  (forall rtc_id seq_id frame_id symbol_id pattern g pkt,
      fst (TestSamples.create_oran_packet rtc_id seq_id frame_id symbol_id
             pattern g) = Ok pkt ->
      exists oran iq g',
        create_oran_header frame_id 0 0 symbol_id 0 0 default_num_prbu = Ok oran /\
        TestSamples.generate_iq_samples_with_pattern (273 * 12) pattern g
        = (Ok iq, g') /\
        payload_size_matches pkt oran iq (273 * 12))
  /\
  (forall num_samples pattern_type seed g iq g',
      LargePcap.generate_iq_samples_fast num_samples pattern_type seed g
      = (Ok iq, g') ->
      len iq = 4 * Z.max 0 num_samples).
Proof.
  split; [|split; [|split]].
  - intros packet_id g pkt H.
    exact (create_oran_packet_fast_payload packet_id g pkt H).
  - intros rtc_id seq_id frame_id symbol_id g pkt H.
    exact (sample_create_oran_packet_payload rtc_id seq_id frame_id symbol_id
             g pkt H).
  - intros rtc_id seq_id frame_id symbol_id pattern g pkt H.
    exact (test_create_oran_packet_payload rtc_id seq_id frame_id symbol_id
             pattern g pkt H).
  - intros num_samples pattern_type seed g iq g' H.
    exact (generate_iq_samples_fast_length num_samples pattern_type seed g
             iq g' H).
Qed.

Lemma transport_payload_size_matches_witness :
  exists pkt oran iq,
    fst (LargePcap.create_oran_packet_fast (R := RefModel.lcg) 0 0) = Ok pkt /\
    payload_size_matches pkt oran iq (273 * 12) /\
    transport_payload_size pkt = 13112.
Proof.
  set (pkt := match fst (LargePcap.create_oran_packet_fast
                           (R := RefModel.lcg) 0 0) with
              | Ok p => p
              | Raise _ => []
              end).
  assert (Hpkt : fst (LargePcap.create_oran_packet_fast (R := RefModel.lcg) 0 0)
                 = Ok pkt) by (vm_compute; reflexivity).
  destruct (proj1 (transport_payload_size_matches RefModel.fixed_point
                     RefModel.lcg) 0 0 pkt Hpkt)
    as (oran & iq & g' & _ & _ & Hm).
  exists pkt, oran, iq. split; [exact Hpkt|]. split; [exact Hm|].
  destruct Hm as (_ & Hsz & Hlo & Hli). rewrite Hsz, Hlo, Hli. reflexivity.
Defined.

(** C4: a frame id of 256 is not reduced modulo 256: the application
    header encoder raises on it, and so does the batch assembler at
    packet 35840, the first whose derived frame id is 256. *)
Theorem frame_id_256_raises :
  create_oran_header 256 0 0 0 0 0 default_num_prbu = Raise StructError /\
  (35840 / 140) mod 1024 = 256 /\
  (forall (F : PyFloat) (R : PyRandom F) (g : rng_state),
      LargePcap.create_oran_packet_fast 35840 g = (Raise StructError, g)).
Proof.
  split; [|split].
  - apply create_oran_header_frame_raise. lia.
  - reflexivity.
  - intros F R g. apply create_oran_packet_fast_raises.
    change ((35840 / 140) mod 1024) with 256. lia.
Qed.

(** C5: for every sample count, pattern and seed, the generators
    serialize only values of the signed 16-bit range, so packing never
    fails: the output is the big-endian rendering of one in-range (I, Q)
    pair per sample.  For the batch generator this rests on randint
    staying within its bounds and on |int(a * cos x)|, |int(a * sin x)|
    not exceeding a; the pattern generator clamps every sample. *)
Theorem iq_samples_within_int16 (F : PyFloat) (R : PyRandom F) :
  randint_within R -> scaled_trig_within F ->
  (forall num_samples pattern_type seed g,
      exists vals g',
        LargePcap.generate_iq_samples_fast num_samples pattern_type seed g
        = (Ok (List.concat (map encode_sample vals)), g') /\
        (Forall sample_in_range vals /\
         List.length vals = Z.to_nat num_samples))
  /\
  (forall num_samples pattern g,
      exists vals g',
        TestSamples.generate_iq_samples_with_pattern num_samples pattern g
        = (Ok (List.concat (map encode_sample vals)), g') /\
        (Forall sample_in_range vals /\
         List.length vals = Z.to_nat num_samples)).
Proof.
  intros Hrand Htrig. split.
  - intros num_samples pattern_type seed g.
    now apply generate_iq_samples_fast_ok.
  - intros num_samples pattern g.
    apply generate_iq_samples_with_pattern_ok.
Qed.

Lemma iq_samples_within_int16_witness :
  exists vals g',
    LargePcap.generate_iq_samples_fast (R := RefModel.lcg) 8 2 42 0
    = (Ok (List.concat (map encode_sample vals)), g') /\
    (Forall sample_in_range vals /\ List.length vals = 8%nat).
Proof.
  exact (proj1 (iq_samples_within_int16 RefModel.fixed_point RefModel.lcg
                  lcg_randint_within fixed_point_trig_within) 8 2 42 0).
Defined.

(** C6: the batch generator's output is a function of (count, pattern,
    seed) alone: whatever state earlier calls left in the random module,
    two calls with the same arguments return the same bytes (and leave
    the same state). *)
Theorem iq_generator_deterministic (F : PyFloat) (R : PyRandom F)
  (num_samples pattern_type seed : Z) (g1 g2 : rng_state) :
  LargePcap.generate_iq_samples_fast num_samples pattern_type seed g1
  = LargePcap.generate_iq_samples_fast num_samples pattern_type seed g2.
Proof.
  unfold LargePcap.generate_iq_samples_fast.
  unfold py_bind at 1. unfold py_bind at 2.
  unfold random_seed. reflexivity.
Qed.

(** The unseeded pattern generator is a different matter: its noise
    depends on the state it finds. *)
Lemma unseeded_noise_depends_on_state :
  fst (TestSamples.generate_iq_samples_with_pattern (R := RefModel.lcg)
         2 "noise" 0)
  = Ok [xec; x78; xf2; x32; x13; x7c; xf4; xbb] /\
  fst (TestSamples.generate_iq_samples_with_pattern (R := RefModel.lcg)
         2 "noise" 1)
  = Ok [x07; x2d; x02; xf6; xec; xe8; x09; xd2].
Proof.
  split; vm_compute; reflexivity.
Qed.

(** C7 (as the code has it): a negative sample count is not an error.
    Like a count of zero it makes the loop run no turn, and both
    generators return the empty byte string. *)
Theorem iq_generator_nonpositive_count_is_empty (F : PyFloat) (R : PyRandom F)
  (num_samples : Z) :
  num_samples <= 0 ->
  (forall pattern_type seed g,
      fst (LargePcap.generate_iq_samples_fast num_samples pattern_type seed g)
      = Ok [])
  /\
  (forall pattern g,
      TestSamples.generate_iq_samples_with_pattern num_samples pattern g
      = (Ok [], g)).
Proof.
  intro Hn. split.
  - intros pattern_type seed g.
    now apply generate_iq_samples_fast_nonpositive.
  - intros pattern g.
    now apply generate_iq_samples_with_pattern_nonpositive.
Qed.

Lemma iq_generator_nonpositive_count_is_empty_witness :
  fst (LargePcap.generate_iq_samples_fast (R := RefModel.lcg) 0 0 42 0) = Ok [] /\
  TestSamples.generate_iq_samples_with_pattern (R := RefModel.lcg) (-3) "sine" 7
  = (Ok [], 7).
Proof.
  pose proof (iq_generator_nonpositive_count_is_empty RefModel.fixed_point
                RefModel.lcg 0 ltac:(lia)) as [H0 _].
  pose proof (iq_generator_nonpositive_count_is_empty RefModel.fixed_point
                RefModel.lcg (-3) ltac:(lia)) as [_ H3].
  split; [apply H0 | apply H3].
Defined.

(** Where C7 as stated fails: a count of -1 returns a buffer, the empty
    one, from both generators. *)
Lemma iq_generator_negative_count_counterexample :
  fst (LargePcap.generate_iq_samples_fast (R := RefModel.lcg) (-1) 0 42 0)
  = Ok [] /\
  fst (TestSamples.generate_iq_samples_with_pattern (R := RefModel.lcg)
         (-1) "sine" 0)
  = Ok [].
Proof.
  split; vm_compute; reflexivity.
Qed.

(** * Further properties of the encoders *)

(** ** The record header *)

Lemma pack_L_le_ok (v : Z) :
  0 <= v <= 4294967295 -> pack_one LittleEndian fmt_L v = Ok (le_bytes 4 v).
Proof.
  intro H. rewrite pack_one_ok by exact H. reflexivity.
Qed.

Lemma le_decode_u32 (v : Z) :
  0 <= v <= 4294967295 -> le_decode (le_bytes 4 v) = v.
Proof.
  intro H. rewrite le_decode_le_bytes. apply Z.mod_small.
  change (2 ^ (8 * Z.of_nat 4)) with 4294967296. lia.
Qed.

Lemma struct_pack_LLLL_ok (a b c d : Z) :
  0 <= a <= 4294967295 -> 0 <= b <= 4294967295 ->
  0 <= c <= 4294967295 -> 0 <= d <= 4294967295 ->
  struct_pack LittleEndian [fmt_L; fmt_L; fmt_L; fmt_L] [a; b; c; d]
  = Ok (le_bytes 4 a ++ le_bytes 4 b ++ le_bytes 4 c ++ le_bytes 4 d).
Proof.
  intros Ha Hb Hc Hd. cbn [struct_pack].
  rewrite !pack_L_le_ok by assumption. cbn [bind].
  now rewrite app_nil_r.
Qed.

Lemma struct_pack_LLLL_raise (a b c d : Z) :
  ~ (0 <= a <= 4294967295 /\ 0 <= b <= 4294967295 /\
     0 <= c <= 4294967295 /\ 0 <= d <= 4294967295) ->
  struct_pack LittleEndian [fmt_L; fmt_L; fmt_L; fmt_L] [a; b; c; d]
  = Raise StructError.
Proof.
  intro Hn. cbn [struct_pack].
  destruct (Z_le_dec 0 a), (Z_le_dec a 4294967295);
    try (rewrite (pack_one_raise _ fmt_L a)
           by (cbn [code_min code_max]; lia); reflexivity).
  rewrite (pack_L_le_ok a) by lia. cbn [bind].
  destruct (Z_le_dec 0 b), (Z_le_dec b 4294967295);
    try (rewrite (pack_one_raise _ fmt_L b)
           by (cbn [code_min code_max]; lia); reflexivity).
  rewrite (pack_L_le_ok b) by lia. cbn [bind].
  destruct (Z_le_dec 0 c), (Z_le_dec c 4294967295);
    try (rewrite (pack_one_raise _ fmt_L c)
           by (cbn [code_min code_max]; lia); reflexivity).
  rewrite (pack_L_le_ok c) by lia. cbn [bind].
  rewrite (pack_one_raise _ fmt_L d) by (cbn [code_min code_max]; lia).
  reflexivity.
Qed.

Lemma decode_record_header_le (a b c d : Z) :
  0 <= a <= 4294967295 -> 0 <= b <= 4294967295 ->
  0 <= c <= 4294967295 -> 0 <= d <= 4294967295 ->
  decode_record_header
    (le_bytes 4 a ++ le_bytes 4 b ++ le_bytes 4 c ++ le_bytes 4 d)
  = {| r_ts_sec := a; r_ts_usec := b; r_caplen := c; r_origlen := d |}.
Proof.
  intros Ha Hb Hc Hd. unfold decode_record_header.
  change (slice 0 4 (le_bytes 4 a ++ ?r)) with (le_bytes 4 a).
  change (slice 4 8 (le_bytes 4 a ++ le_bytes 4 b ++ ?r)) with (le_bytes 4 b).
  change (slice 8 12 (le_bytes 4 a ++ le_bytes 4 b ++ le_bytes 4 c ++ ?r))
    with (le_bytes 4 c).
  change (slice 12 16
            (le_bytes 4 a ++ le_bytes 4 b ++ le_bytes 4 c ++ le_bytes 4 d))
    with (le_bytes 4 d).
  now rewrite !le_decode_u32 by assumption.
Qed.

Section RecordHeaderFacts.

Context {F : PyFloat} {T : PyTime F}.

Lemma py_int_finite (x : float) : finite x -> py_int x = Ok (int_of_float x).
Proof.
  intros [Hn Hi]. unfold py_int. now rewrite Hn, Hi.
Qed.

Lemma py_int_nan (x : float) : is_nan x = true -> py_int x = Raise ValueError.
Proof.
  intro Hn. unfold py_int. now rewrite Hn.
Qed.

Lemma py_int_inf (x : float) :
  is_nan x = false -> is_inf x = true -> py_int x = Raise OverflowError.
Proof.
  intros Hn Hi. unfold py_int. now rewrite Hn, Hi.
Qed.

(** Past the two conversions the header is the packing of the four
    fields. *)
Lemma create_packet_header_finite (packet_data : bytes) (timestamp : float) :
  finite timestamp -> finite (usec_float timestamp) ->
  create_packet_header packet_data timestamp
  = struct_pack LittleEndian [fmt_L; fmt_L; fmt_L; fmt_L]
      [int_of_float timestamp; usec_of timestamp;
       len packet_data; len packet_data].
Proof.
  intros Ht Hu. unfold create_packet_header.
  rewrite (py_int_finite _ Ht). cbn [bind].
  fold (usec_float timestamp). rewrite (py_int_finite _ Hu). cbn [bind].
  reflexivity.
Qed.

Lemma create_packet_header_ok (packet_data : bytes) (timestamp : float) :
  packable_time timestamp -> len packet_data < 2 ^ 32 ->
  create_packet_header packet_data timestamp
  = Ok (le_bytes 4 (int_of_float timestamp) ++ le_bytes 4 (usec_of timestamp)
        ++ le_bytes 4 (len packet_data) ++ le_bytes 4 (len packet_data)).
Proof.
  unfold packable_time, fits_u32. change (2 ^ 32) with 4294967296.
  intros [[Ht Hf] [Hs Hu]] Hl.
  assert (Hlen : 0 <= len packet_data) by (unfold len; lia).
  rewrite (create_packet_header_finite _ _ Ht Hf).
  apply struct_pack_LLLL_ok; lia.
Qed.

Lemma create_packet_header_raise (packet_data : bytes) (timestamp : float) :
  finite timestamp -> finite (usec_float timestamp) ->
  ~ (fits_u32 timestamp /\ len packet_data < 2 ^ 32) ->
  create_packet_header packet_data timestamp = Raise StructError.
Proof.
  unfold fits_u32. change (2 ^ 32) with 4294967296.
  intros Ht Hf Hn.
  assert (Hlen : 0 <= len packet_data) by (unfold len; lia).
  rewrite (create_packet_header_finite _ _ Ht Hf).
  apply struct_pack_LLLL_raise. lia.
Qed.

Lemma create_packet_header_nan (packet_data : bytes) (timestamp : float) :
  is_nan timestamp = true ->
  create_packet_header packet_data timestamp = Raise ValueError.
Proof.
  intro Hn. unfold create_packet_header. now rewrite (py_int_nan _ Hn).
Qed.

Lemma create_packet_header_inf (packet_data : bytes) (timestamp : float) :
  is_nan timestamp = false -> is_inf timestamp = true ->
  create_packet_header packet_data timestamp = Raise OverflowError.
Proof.
  intros Hn Hi. unfold create_packet_header.
  now rewrite (py_int_inf _ Hn Hi).
Qed.

Lemma create_packet_header_usec_nan (packet_data : bytes) (timestamp : float) :
  finite timestamp -> is_nan (usec_float timestamp) = true ->
  create_packet_header packet_data timestamp = Raise ValueError.
Proof.
  intros Ht Hn. unfold create_packet_header.
  rewrite (py_int_finite _ Ht). cbn [bind].
  fold (usec_float timestamp). now rewrite (py_int_nan _ Hn).
Qed.

Lemma create_packet_header_usec_inf (packet_data : bytes) (timestamp : float) :
  finite timestamp ->
  is_nan (usec_float timestamp) = false ->
  is_inf (usec_float timestamp) = true ->
  create_packet_header packet_data timestamp = Raise OverflowError.
Proof.
  intros Ht Hn Hi. unfold create_packet_header.
  rewrite (py_int_finite _ Ht). cbn [bind].
  fold (usec_float timestamp). now rewrite (py_int_inf _ Hn Hi).
Qed.

End RecordHeaderFacts.

(** X1: the record header is four little-endian 32-bit fields, made
    after two conversions by [int].  A NaN timestamp raises ValueError
    and an infinite one OverflowError, at [int(timestamp)]; so would the
    second [int] if the scaled fraction were not finite.  For a finite
    timestamp with a finite fraction: when the whole seconds, the
    microseconds and the packet length each fit 32 bits unsigned, the
    encoder returns 16 bytes that read back as those seconds and
    microseconds, with captured length and original length both the
    packet's length; otherwise (a time before the epoch, say) it raises
    struct.error. *)
Theorem record_header_fields (F : PyFloat) (T : PyTime F)
  (packet_data : bytes) (timestamp : float) :
  (is_nan timestamp = true ->
   create_packet_header packet_data timestamp = Raise ValueError)
  /\
  (is_nan timestamp = false -> is_inf timestamp = true ->
   create_packet_header packet_data timestamp = Raise OverflowError)
  /\
  (finite timestamp -> is_nan (usec_float timestamp) = true ->
   create_packet_header packet_data timestamp = Raise ValueError)
  /\
  (finite timestamp -> is_nan (usec_float timestamp) = false ->
   is_inf (usec_float timestamp) = true ->
   create_packet_header packet_data timestamp = Raise OverflowError)
  /\
  (packable_time timestamp /\ len packet_data < 2 ^ 32 ->
   exists hdr,
     create_packet_header packet_data timestamp = Ok hdr /\
     List.length hdr = 16%nat /\
     decode_record_header hdr =
       {| r_ts_sec := int_of_float timestamp;
          r_ts_usec :=
            int_of_float ((timestamp -~ float_of_int (int_of_float timestamp))
                          *~ float_of_int 1000000);
          r_caplen := len packet_data;
          r_origlen := len packet_data |})
  /\
  (finite timestamp -> finite (usec_float timestamp) ->
   ~ (fits_u32 timestamp /\ len packet_data < 2 ^ 32) ->
   create_packet_header packet_data timestamp = Raise StructError).
Proof.
  split; [apply create_packet_header_nan|].
  split; [apply create_packet_header_inf|].
  split; [apply create_packet_header_usec_nan|].
  split; [apply create_packet_header_usec_inf|].
  split; [|apply create_packet_header_raise].
  intros [Ht Hl].
  rewrite create_packet_header_ok by assumption.
  eexists. split; [reflexivity|]. split.
  - now rewrite !length_app, !length_le_bytes.
  - assert (Hlen : 0 <= len packet_data) by (unfold len; lia).
    destruct Ht as [_ [Hs Hu]]. change (2 ^ 32) with 4294967296 in *.
    fold (usec_of timestamp).
    apply decode_record_header_le; lia.
Qed.

Lemma record_header_fields_witness :
  (exists hdr,
     create_packet_header (T := RefClock.fixed_point_time) [x01; x02; x03]
       (1024 * 1700000000 + 512) = Ok hdr /\
     List.length hdr = 16%nat /\
     decode_record_header hdr =
       {| r_ts_sec := 1700000000;
          r_ts_usec := 500000;
          r_caplen := 3;
          r_origlen := 3 |})
  /\
  create_packet_header (T := RefClock.fixed_point_time) [x01; x02; x03]
    (1024 * (-5)) = Raise StructError
  /\
  create_packet_header (T := RefNonFinite.extended_time) [x01; x02; x03]
    RefNonFinite.NaN = Raise ValueError
  /\
  create_packet_header (T := RefNonFinite.extended_time) [x01; x02; x03]
    (RefNonFinite.Inf false) = Raise OverflowError.
Proof.
  split; [|split; [|split]].
  - apply (proj1 (proj2 (proj2 (proj2 (proj2
             (record_header_fields RefModel.fixed_point
                RefClock.fixed_point_time [x01; x02; x03]
                (1024 * 1700000000 + 512))))))).
    vm_compute. repeat split; discriminate || reflexivity.
  - apply (proj2 (proj2 (proj2 (proj2 (proj2
             (record_header_fields RefModel.fixed_point
                RefClock.fixed_point_time [x01; x02; x03]
                (1024 * (-5)))))))).
    + split; reflexivity.
    + split; reflexivity.
    + vm_compute. intros [[[H _] _] _]. apply H. reflexivity.
  - apply (proj1 (record_header_fields RefNonFinite.extended
                    RefNonFinite.extended_time [x01; x02; x03]
                    RefNonFinite.NaN)).
    reflexivity.
  - apply (proj1 (proj2 (record_header_fields RefNonFinite.extended
                           RefNonFinite.extended_time [x01; x02; x03]
                           (RefNonFinite.Inf false)))); reflexivity.
Defined.

(** The non-finite instance packs finite timestamps like the first. *)
Lemma record_header_extended_finite :
  create_packet_header (T := RefNonFinite.extended_time) [x01; x02; x03]
    (RefNonFinite.Fin (1024 * 1700000000 + 512))
  = create_packet_header (T := RefClock.fixed_point_time) [x01; x02; x03]
      (1024 * 1700000000 + 512).
Proof.
  vm_compute. reflexivity.
Qed.

(** ** The eCPRI header read back *)

Lemma decode_ecpri_header_bytes (m payload_size rtc_id seq_id : Z) :
  0 <= m < 4 ->
  0 <= payload_size <= 65535 -> 0 <= rtc_id <= 65535 -> 0 <= seq_id <= 65535 ->
  decode_ecpri_header
    [byte_of_Z (16 + m);
     byte_of_Z (Z.shiftr payload_size 8); byte_of_Z payload_size;
     byte_of_Z (Z.shiftr rtc_id 8); byte_of_Z rtc_id;
     byte_of_Z (Z.shiftr seq_id 8); byte_of_Z seq_id]
  = {| e_version := 1;
       e_reserved := 0;
       e_concat := 0;
       e_message_type := m;
       e_payload_size := payload_size;
       e_rtc_id := rtc_id;
       e_seq_id := seq_id |}.
Proof.
  intros Hm Hp Hr Hs. unfold decode_ecpri_header.
  cbn [slice firstn skipn Nat.sub].
  rewrite !be_decode_u16 by assumption.
  unfold be_decode. cbn [rev app le_decode].
  rewrite Z_of_byte_of_Z, Z.mod_small by lia.
  assert (Hc : m = 0 \/ m = 1 \/ m = 2 \/ m = 3) by lia.
  destruct Hc as [-> | [-> | [-> | ->]]]; reflexivity.
Qed.

(** X2: the transport header round-trips.  With a 16-bit payload size,
    flow id and sequence id, and any integer message type, the encoder
    returns 7 bytes that read back as version 1, reserved 0, C 0, the
    message type reduced modulo 4, and the three 16-bit values; if any of
    the three is not 16-bit it raises instead. *)
Theorem ecpri_header_roundtrip (message_type rtc_id seq_id payload_size : Z) :
  (0 <= payload_size < 65536 /\ 0 <= rtc_id < 65536 /\ 0 <= seq_id < 65536 ->
   exists hdr,
     create_ecpri_header message_type rtc_id seq_id payload_size = Ok hdr /\
     List.length hdr = 7%nat /\
     decode_ecpri_header hdr =
       {| e_version := 1;
          e_reserved := 0;
          e_concat := 0;
          e_message_type := message_type mod 4;
          e_payload_size := payload_size;
          e_rtc_id := rtc_id;
          e_seq_id := seq_id |})
  /\
  (~ (0 <= payload_size < 65536 /\ 0 <= rtc_id < 65536 /\ 0 <= seq_id < 65536) ->
   create_ecpri_header message_type rtc_id seq_id payload_size
   = Raise StructError).
Proof.
  split.
  - intros (Hp & Hr & Hs).
    rewrite create_ecpri_header_ok by lia.
    eexists. split; [reflexivity|]. split; [reflexivity|].
    apply decode_ecpri_header_bytes; try lia.
    apply Z.mod_pos_bound. lia.
  - intro Hn. apply create_ecpri_header_raise. lia.
Qed.

Lemma ecpri_header_roundtrip_witness :
  exists hdr,
    create_ecpri_header 6 0x1003 65535 13112 = Ok hdr /\
    List.length hdr = 7%nat /\
    decode_ecpri_header hdr =
      {| e_version := 1;
         e_reserved := 0;
         e_concat := 0;
         e_message_type := 6 mod 4;
         e_payload_size := 13112;
         e_rtc_id := 0x1003;
         e_seq_id := 65535 |}.
Proof.
  apply (proj1 (ecpri_header_roundtrip 6 0x1003 65535 13112)). lia.
Defined.

(** ** The application header read back *)

Lemma decode_oran_header_bytes (frame_id b2 b3 w : Z) :
  0 <= frame_id < 256 -> 0 <= b2 < 256 -> 0 <= b3 < 256 ->
  0 <= w < 4294967296 ->
  decode_oran_header
    ([x10; byte_of_Z frame_id; byte_of_Z b2; byte_of_Z b3] ++ be_bytes 4 w)
  = {| f_frame_id := frame_id;
       f_subframe_id := b2 / 16;
       f_slot_id := b2 mod 16;
       f_symbol_id := b3 / 4;
       f_section_id := w / 1048576;
       f_rb := (w / 524288) mod 2;
       f_sym_inc := (w / 262144) mod 2;
       f_start_prbu := (w / 256) mod 1024;
       f_num_prbu := w mod 256 |}.
Proof.
  intros Hf H2 H3 Hw.
  assert (Hd : be_decode (be_bytes 4 w) = w).
  { rewrite be_decode_be_bytes. apply Z.mod_small.
    change (2 ^ (8 * Z.of_nat 4)) with 4294967296. lia. }
  unfold decode_oran_header.
  change (slice 4 8 (_ ++ be_bytes 4 w)) with (be_bytes 4 w).
  rewrite Hd.
  cbn [slice firstn skipn app Nat.sub be_decode rev le_decode].
  rewrite !Z_of_byte_of_Z, !Z.mod_small by lia.
  change 0x0f with (Z.ones 4). change 0x3ff with (Z.ones 10).
  change 0xff with (Z.ones 8).
  replace (Z.land (Z.shiftr w 19) 1) with (Z.land (Z.shiftr w 19) (Z.ones 1))
    by reflexivity.
  replace (Z.land (Z.shiftr w 18) 1) with (Z.land (Z.shiftr w 18) (Z.ones 1))
    by reflexivity.
  rewrite !Z.land_ones, !Z.shiftr_div_pow2 by lia.
  rewrite !Z.add_0_r.
  reflexivity.
Qed.

(** X3: what every caller in the three scripts gets, since none passes
    [num_prbu]: with the default count of 273 and start index 0, and
    frame, subframe, symbol and section ids within their widths, the
    header is built without error and reads back with those ids and
    [slot_id mod 16], but always with startPrbu 1 and numPrbu 17. *)
Theorem oran_header_default_reads_back
  (frame_id subframe_id slot_id symbol_id section_id : Z) :
  0 <= frame_id < 256 -> 0 <= subframe_id < 16 -> 0 <= symbol_id < 64 ->
  0 <= section_id < 4096 ->
  exists hdr,
    create_oran_header frame_id subframe_id slot_id symbol_id section_id
      0 default_num_prbu = Ok hdr /\
    List.length hdr = 8%nat /\
    decode_oran_header hdr =
      {| f_frame_id := frame_id;
         f_subframe_id := subframe_id;
         f_slot_id := slot_id mod 16;
         f_symbol_id := symbol_id;
         f_section_id := section_id;
         f_rb := 1;
         f_sym_inc := 0;
         f_start_prbu := 1;
         f_num_prbu := 17 |}.
Proof.
  intros Hf Hsf Hsy Hsec.
  pose proof (Z.mod_pos_bound slot_id 16 ltac:(lia)) as Hm.
  rewrite create_oran_header_default_ok by assumption.
  eexists. split; [reflexivity|].
  split; [rewrite length_app, length_be_bytes; reflexivity|].
  rewrite decode_oran_header_bytes by lia.
  f_equal; Z.div_mod_to_equations; lia.
Qed.

Lemma oran_header_default_reads_back_witness :
  exists hdr,
    create_oran_header 255 4 9 13 4095 0 default_num_prbu = Ok hdr /\
    List.length hdr = 8%nat /\
    decode_oran_header hdr =
      {| f_frame_id := 255;
         f_subframe_id := 4;
         f_slot_id := 9 mod 16;
         f_symbol_id := 13;
         f_section_id := 4095;
         f_rb := 1;
         f_sym_inc := 0;
         f_start_prbu := 1;
         f_num_prbu := 17 |}.
Proof.
  apply (oran_header_default_reads_back 255 4 9 13 4095); lia.
Defined.

(** X4: the application header round-trips when the count fits its
    field.  For frame, subframe, symbol, section and start index within
    their widths, a count below 256 and any integer slot id, the eight
    bytes read back as exactly those values, the slot id reduced modulo
    16, rb 1 and symInc 0. *)
Theorem oran_header_fields_roundtrip
  (frame_id subframe_id slot_id symbol_id section_id start_prbu num_prbu : Z) :
  0 <= frame_id < 256 -> 0 <= subframe_id < 16 -> 0 <= symbol_id < 64 ->
  0 <= section_id < 4096 -> 0 <= start_prbu < 1024 -> 0 <= num_prbu < 256 ->
  exists hdr,
    create_oran_header frame_id subframe_id slot_id symbol_id section_id
      start_prbu num_prbu = Ok hdr /\
    List.length hdr = 8%nat /\
    decode_oran_header hdr =
      {| f_frame_id := frame_id;
         f_subframe_id := subframe_id;
         f_slot_id := slot_id mod 16;
         f_symbol_id := symbol_id;
         f_section_id := section_id;
         f_rb := 1;
         f_sym_inc := 0;
         f_start_prbu := start_prbu;
         f_num_prbu := num_prbu |}.
Proof.
  intros Hf Hsf Hsy Hsec Hsp Hnp.
  pose proof (Z.mod_pos_bound slot_id 16 ltac:(lia)) as Hm.
  rewrite create_oran_header_ok by assumption.
  eexists. split; [reflexivity|].
  split; [rewrite length_app, length_be_bytes; reflexivity|].
  rewrite decode_oran_header_bytes by lia.
  f_equal; Z.div_mod_to_equations; lia.
Qed.

Lemma oran_header_fields_roundtrip_witness :
  exists hdr,
    create_oran_header 200 9 (-1) 13 4095 1023 255 = Ok hdr /\
    List.length hdr = 8%nat /\
    decode_oran_header hdr =
      {| f_frame_id := 200;
         f_subframe_id := 9;
         f_slot_id := (-1) mod 16;
         f_symbol_id := 13;
         f_section_id := 4095;
         f_rb := 1;
         f_sym_inc := 0;
         f_start_prbu := 1023;
         f_num_prbu := 255 |}.
Proof.
  apply (oran_header_fields_roundtrip 200 9 (-1) 13 4095 1023 255); lia.
Defined.

Lemma create_oran_header_default_rejects
  (frame_id subframe_id slot_id symbol_id section_id : Z) :
  ~ (0 <= frame_id < 256 /\ 0 <= subframe_id < 16 /\ 0 <= symbol_id < 64 /\
     0 <= section_id < 4096) ->
  create_oran_header frame_id subframe_id slot_id symbol_id section_id
    0 default_num_prbu = Raise StructError.
Proof.
  intros Hbad. unfold create_oran_header.
  rewrite oran_byte2, oran_byte3, oran_section_word_default.
  change (Z.lor (Z.lor (Z.shiftl 0 7) (Z.shiftl 1 4)) (Z.land 0 0x0f)) with 16.
  pose proof (Z.mod_pos_bound slot_id 16 ltac:(lia)) as Hm.
  cbn [struct_pack].
  rewrite (pack_B_ok 16) by lia. cbn [bind].
  destruct (Z_le_dec 0 frame_id), (Z_lt_dec frame_id 256);
    try (rewrite (pack_one_raise _ fmt_B frame_id)
           by (cbn [code_min code_max]; lia); reflexivity).
  rewrite (pack_B_ok frame_id) by lia. cbn [bind].
  destruct (Z_le_dec 0 subframe_id), (Z_lt_dec subframe_id 16);
    try (rewrite (pack_one_raise _ fmt_B (subframe_id * 16 + _))
           by (cbn [code_min code_max]; lia); reflexivity).
  rewrite (pack_B_ok (subframe_id * 16 + _)) by lia. cbn [bind].
  destruct (Z_le_dec 0 symbol_id), (Z_lt_dec symbol_id 64);
    try (rewrite (pack_one_raise _ fmt_B (symbol_id * 4))
           by (cbn [code_min code_max]; lia); reflexivity).
  rewrite (pack_B_ok (symbol_id * 4)) by lia. cbn [bind].
  rewrite (pack_one_raise _ fmt_L) by (cbn [code_min code_max]; lia).
  reflexivity.
Qed.

Lemma create_oran_header_default_inv
  (frame_id subframe_id slot_id symbol_id section_id : Z) (hdr : bytes) :
  create_oran_header frame_id subframe_id slot_id symbol_id section_id
    0 default_num_prbu = Ok hdr ->
  (0 <= frame_id < 256 /\ 0 <= subframe_id < 16 /\ 0 <= symbol_id < 64 /\
   0 <= section_id < 4096) /\
  hdr = [x10; byte_of_Z frame_id;
         byte_of_Z (subframe_id * 16 + slot_id mod 16);
         byte_of_Z (symbol_id * 4)]
        ++ be_bytes 4 (section_id * 1048576 + 524288 + 273).
Proof.
  intro H.
  destruct (Z_le_dec 0 frame_id), (Z_lt_dec frame_id 256),
    (Z_le_dec 0 subframe_id), (Z_lt_dec subframe_id 16),
    (Z_le_dec 0 symbol_id), (Z_lt_dec symbol_id 64),
    (Z_le_dec 0 section_id), (Z_lt_dec section_id 4096);
    try (rewrite create_oran_header_default_rejects in H by lia; discriminate).
  rewrite create_oran_header_default_ok in H by lia.
  injection H as <-. split; [lia | reflexivity].
Qed.

(** ** Assembled packets, layer by layer *)

(** The layers of Ethernet ++ eCPRI ++ application header ++ block. *)
Lemma packet_layers (e0 e1 e2 e3 e4 e5 e6 o0 o1 o2 o3 : byte) (w iq pkt : bytes) :
  List.length w = 4%nat ->
  pkt = default_ethernet_bytes ++ [e0; e1; e2; e3; e4; e5; e6]
        ++ ([o0; o1; o2; o3] ++ w) ++ iq ->
  ethernet_part pkt = default_ethernet_bytes /\
  ecpri_part pkt = [e0; e1; e2; e3; e4; e5; e6] /\
  oran_part pkt = [o0; o1; o2; o3] ++ w /\
  len pkt = 29 + len iq.
Proof.
  intros Hw ->.
  destruct w as [|w0 [|w1 [|w2 [|w3 [|w4 w]]]]]; try discriminate.
  repeat split.
  unfold len, default_ethernet_bytes. cbn [app List.length]. lia.
Qed.

Section PacketFacts.

Context {F : PyFloat} {R : PyRandom F}.

Lemma create_oran_packet_fast_fields packet_id g pkt :
  fst (LargePcap.create_oran_packet_fast packet_id g) = Ok pkt ->
  (packet_id / 140) mod 1024 < 256 /\
  len pkt = 13133 /\
  ethernet_part pkt = default_ethernet_bytes /\
  decode_ecpri_header (ecpri_part pkt) =
    {| e_version := 1;
       e_reserved := 0;
       e_concat := 0;
       e_message_type := 0;
       e_payload_size := 13112;
       e_rtc_id := 0x1000 + packet_id mod 8;
       e_seq_id := packet_id mod 65536 |} /\
  decode_oran_header (oran_part pkt) =
    {| f_frame_id := (packet_id / 140) mod 1024;
       f_subframe_id := (((packet_id / 14) mod 10) / 2) mod 10;
       f_slot_id := (packet_id / 14) mod 10;
       f_symbol_id := packet_id mod 14;
       f_section_id := packet_id mod 4096;
       f_rb := 1;
       f_sym_inc := 0;
       f_start_prbu := 1;
       f_num_prbu := 17 |}.
Proof.
  destruct (LargePcap.create_oran_packet_fast packet_id g) as [r gf] eqn:E.
  cbn [fst]. intros ->.
  unfold LargePcap.create_oran_packet_fast in E. cbv zeta in E.
  apply py_bind_inv in E. destruct E as (eth & s0 & Heth & E).
  apply py_bind_inv in E. destruct E as (oran & s1 & Horan & E).
  apply py_bind_inv in E. destruct E as (iq & s2 & Hiq & E).
  apply py_bind_inv in E. destruct E as (ecpri & s3 & Hecpri & E).
  apply lift_inv in Heth. destruct Heth as [Heth ->].
  apply lift_inv in Horan. destruct Horan as [Horan ->].
  apply lift_inv in Hecpri. destruct Hecpri as [Hecpri ->].
  apply ret_inv in E. destruct E as [E _].
  rewrite default_ethernet_header in Heth. injection Heth as <-.
  pose proof (generate_iq_samples_fast_length _ _ _ _ _ _ Hiq) as Hli.
  change (4 * Z.max 0 (273 * 12)) with 13104 in Hli.
  apply create_oran_header_default_inv in Horan.
  destruct Horan as [(Hf & Hsf & Hsy & Hsec) ->].
  rewrite land_ffff in Hecpri.
  apply create_ecpri_header_inv in Hecpri. destruct Hecpri as [Hps ->].
  assert (Hlo : len ([x10; byte_of_Z ((packet_id / 140) mod 1024);
                      byte_of_Z ((packet_id / 14) mod 10 / 2 mod 10 * 16
                                 + (packet_id / 14) mod 10 mod 16);
                      byte_of_Z (packet_id mod 14 * 4)]
                     ++ be_bytes 4 (packet_id mod 4096 * 1048576 + 524288 + 273))
                = 8) by reflexivity.
  rewrite Hlo, Hli in *. change (8 + 13104) with 13112 in *.
  destruct (packet_layers _ _ _ _ _ _ _ _ _ _ _ _ iq pkt
              (length_be_bytes 4 _) E) as (He & Hc & Ho & Hl).
  pose proof (Z.mod_pos_bound packet_id 8 ltac:(lia)).
  pose proof (Z.mod_pos_bound packet_id 65536 ltac:(lia)).
  pose proof (Z.mod_pos_bound (packet_id / 14) 10 ltac:(lia)).
  split; [lia|]. split; [rewrite Hl, Hli; reflexivity|].
  split; [exact He|].
  rewrite Hc, Ho. split.
  - change (0 mod 4) with 0.
    rewrite (decode_ecpri_header_bytes 0) by lia. reflexivity.
  - set (sl := (packet_id / 14) mod 10) in *.
    set (sf := (sl / 2) mod 10) in *.
    set (fr := (packet_id / 140) mod 1024) in *.
    set (sy := packet_id mod 14) in *.
    set (sec := packet_id mod 4096) in *.
    clearbody sl sf fr sy sec.
    rewrite (Z.mod_small sl 16) by lia.
    rewrite decode_oran_header_bytes by lia.
    f_equal; Z.div_mod_to_equations; lia.
Qed.

Lemma sample_create_oran_packet_fields rtc_id seq_id frame_id symbol_id g pkt :
  fst (SamplePcap.create_oran_packet rtc_id seq_id frame_id symbol_id g) = Ok pkt ->
  len pkt = 13133 /\
  ethernet_part pkt = default_ethernet_bytes /\
  decode_ecpri_header (ecpri_part pkt) =
    {| e_version := 1;
       e_reserved := 0;
       e_concat := 0;
       e_message_type := 0;
       e_payload_size := 13112;
       e_rtc_id := rtc_id;
       e_seq_id := seq_id |} /\
  decode_oran_header (oran_part pkt) =
    {| f_frame_id := frame_id;
       f_subframe_id := 0;
       f_slot_id := 0;
       f_symbol_id := symbol_id;
       f_section_id := 0;
       f_rb := 1;
       f_sym_inc := 0;
       f_start_prbu := 1;
       f_num_prbu := 17 |}.
Proof.
  destruct (SamplePcap.create_oran_packet rtc_id seq_id frame_id symbol_id g)
    as [r gf] eqn:E.
  cbn [fst]. intros ->.
  unfold SamplePcap.create_oran_packet in E. cbv zeta in E.
  apply py_bind_inv in E. destruct E as (eth & s0 & Heth & E).
  apply py_bind_inv in E. destruct E as (oran & s1 & Horan & E).
  apply py_bind_inv in E. destruct E as (iq & s2 & Hiq & E).
  apply py_bind_inv in E. destruct E as (ecpri0 & s3 & Hecpri0 & E).
  apply py_bind_inv in E. destruct E as (ecpri & s4 & Hecpri & E).
  apply lift_inv in Heth. destruct Heth as [Heth ->].
  apply lift_inv in Horan. destruct Horan as [Horan ->].
  apply lift_inv in Hecpri0. destruct Hecpri0 as [Hecpri0 ->].
  apply lift_inv in Hecpri. destruct Hecpri as [Hecpri ->].
  apply ret_inv in E. destruct E as [E _].
  rewrite default_ethernet_header in Heth. injection Heth as <-.
  pose proof (generate_iq_samples_length _ _ _ _ Hiq) as Hli.
  change (4 * Z.max 0 (273 * 12)) with 13104 in Hli.
  apply create_oran_header_default_inv in Horan.
  destruct Horan as [(Hf & _ & Hsy & _) ->].
  assert (Hrs : 0 <= rtc_id <= 65535 /\ 0 <= seq_id <= 65535).
  { rewrite sample_create_ecpri_header_eq in Hecpri0.
    destruct (Z_le_dec 0 rtc_id), (Z_le_dec rtc_id 65535),
      (Z_le_dec 0 seq_id), (Z_le_dec seq_id 65535);
      try (rewrite create_ecpri_header_raise in Hecpri0 by lia; discriminate).
    lia. }
  rewrite sample_create_ecpri_header_eq in Hecpri0.
  apply create_ecpri_header_inv in Hecpri0. destruct Hecpri0 as [_ ->].
  assert (Hlo : len ([x10; byte_of_Z frame_id; byte_of_Z (0 * 16 + 0 mod 16);
                      byte_of_Z (symbol_id * 4)]
                     ++ be_bytes 4 (0 * 1048576 + 524288 + 273)) = 8)
    by reflexivity.
  rewrite Hlo, Hli in *. change (8 + 13104) with 13112 in *.
  unfold SamplePcap.patch_payload_size in Hecpri.
  cbn [struct_pack] in Hecpri. rewrite pack_H_ok in Hecpri by lia.
  cbn [bind firstn skipn app] in Hecpri. injection Hecpri as <-.
  destruct (packet_layers _ _ _ _ _ _ _ _ _ _ _ _ iq pkt
              (length_be_bytes 4 _) E) as (He & Hc & Ho & Hl).
  split; [rewrite Hl, Hli; reflexivity|].
  split; [exact He|].
  rewrite Hc, Ho. split.
  - change (0 mod 4) with 0.
    rewrite (decode_ecpri_header_bytes 0) by lia. reflexivity.
  - change (0 * 16 + 0 mod 16) with 0.
    rewrite decode_oran_header_bytes by lia.
    f_equal; Z.div_mod_to_equations; lia.
Qed.

Lemma test_create_oran_packet_fields
  rtc_id seq_id frame_id symbol_id pattern g pkt :
  fst (TestSamples.create_oran_packet rtc_id seq_id frame_id symbol_id pattern g)
  = Ok pkt ->
  len pkt = 13133 /\
  ethernet_part pkt = default_ethernet_bytes /\
  decode_ecpri_header (ecpri_part pkt) =
    {| e_version := 1;
       e_reserved := 0;
       e_concat := 0;
       e_message_type := 0;
       e_payload_size := 13112;
       e_rtc_id := rtc_id;
       e_seq_id := seq_id |} /\
  decode_oran_header (oran_part pkt) =
    {| f_frame_id := frame_id;
       f_subframe_id := 0;
       f_slot_id := 0;
       f_symbol_id := symbol_id;
       f_section_id := 0;
       f_rb := 1;
       f_sym_inc := 0;
       f_start_prbu := 1;
       f_num_prbu := 17 |}.
Proof.
  destruct (TestSamples.create_oran_packet rtc_id seq_id frame_id symbol_id
              pattern g) as [r gf] eqn:E.
  cbn [fst]. intros ->.
  unfold TestSamples.create_oran_packet in E. cbv zeta in E.
  apply py_bind_inv in E. destruct E as (eth & s0 & Heth & E).
  apply py_bind_inv in E. destruct E as (oran & s1 & Horan & E).
  apply py_bind_inv in E. destruct E as (iq & s2 & Hiq & E).
  apply py_bind_inv in E. destruct E as (ecpri & s3 & Hecpri & E).
  apply lift_inv in Heth. destruct Heth as [Heth ->].
  apply lift_inv in Horan. destruct Horan as [Horan ->].
  apply lift_inv in Hecpri. destruct Hecpri as [Hecpri ->].
  apply ret_inv in E. destruct E as [E _].
  rewrite default_ethernet_header in Heth. injection Heth as <-.
  pose proof (generate_iq_samples_with_pattern_length _ _ _ _ _ Hiq) as Hli.
  change (4 * Z.max 0 (273 * 12)) with 13104 in Hli.
  apply create_oran_header_default_inv in Horan.
  destruct Horan as [(Hf & _ & Hsy & _) ->].
  assert (Hrs : 0 <= rtc_id <= 65535 /\ 0 <= seq_id <= 65535).
  { destruct (Z_le_dec 0 rtc_id), (Z_le_dec rtc_id 65535),
      (Z_le_dec 0 seq_id), (Z_le_dec seq_id 65535);
      try (rewrite create_ecpri_header_raise in Hecpri by lia; discriminate).
    lia. }
  apply create_ecpri_header_inv in Hecpri. destruct Hecpri as [_ ->].
  assert (Hlo : len ([x10; byte_of_Z frame_id; byte_of_Z (0 * 16 + 0 mod 16);
                      byte_of_Z (symbol_id * 4)]
                     ++ be_bytes 4 (0 * 1048576 + 524288 + 273)) = 8)
    by reflexivity.
  rewrite Hlo, Hli in *. change (8 + 13104) with 13112 in *.
  destruct (packet_layers _ _ _ _ _ _ _ _ _ _ _ _ iq pkt
              (length_be_bytes 4 _) E) as (He & Hc & Ho & Hl).
  split; [rewrite Hl, Hli; reflexivity|].
  split; [exact He|].
  rewrite Hc, Ho. split.
  - change (0 mod 4) with 0.
    rewrite (decode_ecpri_header_bytes 0) by lia. reflexivity.
  - change (0 * 16 + 0 mod 16) with 0.
    rewrite decode_oran_header_bytes by lia.
    f_equal; Z.div_mod_to_equations; lia.
Qed.

Lemma sample_create_oran_packet_raises rtc_id seq_id frame_id symbol_id g :
  ~ (0 <= rtc_id < 65536 /\ 0 <= seq_id < 65536 /\
     0 <= frame_id < 256 /\ 0 <= symbol_id < 64) ->
  fst (SamplePcap.create_oran_packet rtc_id seq_id frame_id symbol_id g)
  = Raise StructError.
Proof.
  intro Hbad.
  unfold SamplePcap.create_oran_packet. cbv zeta.
  erewrite py_bind_ok
    by (unfold lift; rewrite default_ethernet_header; reflexivity).
  destruct (Z_le_dec 0 frame_id), (Z_lt_dec frame_id 256),
    (Z_le_dec 0 symbol_id), (Z_lt_dec symbol_id 64);
    try (erewrite py_bind_raise;
         [reflexivity
         | unfold lift; rewrite create_oran_header_default_rejects by lia;
           reflexivity]).
  erewrite py_bind_ok
    by (unfold lift; rewrite create_oran_header_default_ok by lia; reflexivity).
  destruct (generate_iq_samples_ok (273 * 12) g)
    as (vals & g' & Hiq & _ & Hlen).
  rewrite (py_bind_ok _ _ _ _ _ Hiq).
  erewrite py_bind_raise; [reflexivity|].
  unfold lift. rewrite sample_create_ecpri_header_eq.
  rewrite create_ecpri_header_raise by lia. reflexivity.
Qed.

Lemma test_create_oran_packet_raises
  rtc_id seq_id frame_id symbol_id pattern g :
  ~ (0 <= rtc_id < 65536 /\ 0 <= seq_id < 65536 /\
     0 <= frame_id < 256 /\ 0 <= symbol_id < 64) ->
  fst (TestSamples.create_oran_packet rtc_id seq_id frame_id symbol_id pattern g)
  = Raise StructError.
Proof.
  intro Hbad.
  unfold TestSamples.create_oran_packet. cbv zeta.
  erewrite py_bind_ok
    by (unfold lift; rewrite default_ethernet_header; reflexivity).
  destruct (Z_le_dec 0 frame_id), (Z_lt_dec frame_id 256),
    (Z_le_dec 0 symbol_id), (Z_lt_dec symbol_id 64);
    try (erewrite py_bind_raise;
         [reflexivity
         | unfold lift; rewrite create_oran_header_default_rejects by lia;
           reflexivity]).
  erewrite py_bind_ok
    by (unfold lift; rewrite create_oran_header_default_ok by lia; reflexivity).
  destruct (generate_iq_samples_with_pattern_ok (273 * 12) pattern g)
    as (vals & g' & Hiq & _ & Hlen).
  rewrite (py_bind_ok _ _ _ _ _ Hiq).
  erewrite py_bind_raise; [reflexivity|].
  unfold lift. rewrite create_ecpri_header_raise by lia. reflexivity.
Qed.

(** The batch generator seeds the random module first, so what it
    returns does not depend on the state it finds; nor does the packet. *)
Lemma generate_iq_samples_fast_seeded (num_samples pattern_type seed : Z) g1 g2 :
  LargePcap.generate_iq_samples_fast num_samples pattern_type seed g1
  = LargePcap.generate_iq_samples_fast num_samples pattern_type seed g2.
Proof.
  unfold LargePcap.generate_iq_samples_fast.
  unfold py_bind at 1. unfold py_bind at 2.
  unfold random_seed. reflexivity.
Qed.

Lemma create_oran_packet_fast_seeded (packet_id : Z) g1 g2 :
  fst (LargePcap.create_oran_packet_fast packet_id g1)
  = fst (LargePcap.create_oran_packet_fast packet_id g2).
Proof.
  unfold LargePcap.create_oran_packet_fast. cbv zeta.
  unfold py_bind at 1 2. unfold py_bind at 3 4. unfold lift at 1 2 4 5.
  destruct (create_ethernet_header default_src_mac default_dst_mac)
    as [eth|e]; [|reflexivity].
  destruct (create_oran_header _ _ _ _ _ _ _) as [oran|e]; [|reflexivity].
  unfold py_bind at 1. unfold py_bind at 2.
  rewrite (generate_iq_samples_fast_seeded _ _ _ g1 g2).
  destruct (LargePcap.generate_iq_samples_fast _ _ _ g2) as [[iq|e] g3];
    reflexivity.
Qed.

End PacketFacts.

(** X5: every packet the batch assembler returns is 13133 bytes: the
    fixed Ethernet header, an eCPRI header that reads version 1, message
    type 0, payload size 13112, flow id 0x1000 + packet_id mod 8 and
    sequence id packet_id mod 65536, and an application header that reads
    the derived frame, subframe, slot, symbol and section ids (with
    startPrbu 1 and numPrbu 17, from the default count).  A returned
    packet also means the derived frame id was below 256. *)
Theorem batch_packet_reads_back (F : PyFloat) (R : PyRandom F)
  (packet_id : Z) (g : rng_state) (pkt : bytes) :
  fst (LargePcap.create_oran_packet_fast packet_id g) = Ok pkt ->
  (packet_id / 140) mod 1024 < 256 /\
  len pkt = 13133 /\
  ethernet_part pkt = default_ethernet_bytes /\
  decode_ecpri_header (ecpri_part pkt) =
    {| e_version := 1;
       e_reserved := 0;
       e_concat := 0;
       e_message_type := 0;
       e_payload_size := 13112;
       e_rtc_id := 0x1000 + packet_id mod 8;
       e_seq_id := packet_id mod 65536 |} /\
  decode_oran_header (oran_part pkt) =
    {| f_frame_id := (packet_id / 140) mod 1024;
       f_subframe_id := (((packet_id / 14) mod 10) / 2) mod 10;
       f_slot_id := (packet_id / 14) mod 10;
       f_symbol_id := packet_id mod 14;
       f_section_id := packet_id mod 4096;
       f_rb := 1;
       f_sym_inc := 0;
       f_start_prbu := 1;
       f_num_prbu := 17 |}.
Proof.
  intro H. exact (create_oran_packet_fast_fields packet_id g pkt H).
Qed.

Lemma batch_packet_reads_back_witness :
  exists pkt,
    fst (LargePcap.create_oran_packet_fast (R := RefModel.lcg) 143365 0)
    = Ok pkt /\
    len pkt = 13133 /\
    e_seq_id (decode_ecpri_header (ecpri_part pkt)) = 12293 /\
    e_rtc_id (decode_ecpri_header (ecpri_part pkt)) = 0x1005 /\
    f_frame_id (decode_oran_header (oran_part pkt)) = 0 /\
    f_symbol_id (decode_oran_header (oran_part pkt)) = 5.
Proof.
  set (pkt := match fst (LargePcap.create_oran_packet_fast
                           (R := RefModel.lcg) 143365 0) with
              | Ok p => p
              | Raise _ => []
              end).
  assert (Hpkt : fst (LargePcap.create_oran_packet_fast
                        (R := RefModel.lcg) 143365 0) = Ok pkt)
    by (vm_compute; reflexivity).
  destruct (batch_packet_reads_back RefModel.fixed_point RefModel.lcg
              143365 0 pkt Hpkt) as (_ & Hlen & _ & He & Ho).
  exists pkt. split; [exact Hpkt|]. split; [exact Hlen|].
  rewrite He, Ho. repeat split.
Defined.

(** X6: the assembler of [create_sample_pcap.py] succeeds exactly on
    16-bit flow and sequence ids, a frame id below 256 and a symbol id
    below 64.  Then the packet is 13133 bytes and its headers read back
    the four arguments, with payload size 13112; otherwise the call
    raises. *)
Theorem sample_packet_reads_back (F : PyFloat) (R : PyRandom F)
  (rtc_id seq_id frame_id symbol_id : Z) (g : rng_state) :
  (0 <= rtc_id < 65536 /\ 0 <= seq_id < 65536 /\
   0 <= frame_id < 256 /\ 0 <= symbol_id < 64 ->
   exists pkt g',
     SamplePcap.create_oran_packet rtc_id seq_id frame_id symbol_id g
     = (Ok pkt, g') /\
     len pkt = 13133 /\
     ethernet_part pkt = default_ethernet_bytes /\
     decode_ecpri_header (ecpri_part pkt) =
       {| e_version := 1;
          e_reserved := 0;
          e_concat := 0;
          e_message_type := 0;
          e_payload_size := 13112;
          e_rtc_id := rtc_id;
          e_seq_id := seq_id |} /\
     decode_oran_header (oran_part pkt) =
       {| f_frame_id := frame_id;
          f_subframe_id := 0;
          f_slot_id := 0;
          f_symbol_id := symbol_id;
          f_section_id := 0;
          f_rb := 1;
          f_sym_inc := 0;
          f_start_prbu := 1;
          f_num_prbu := 17 |})
  /\
  (~ (0 <= rtc_id < 65536 /\ 0 <= seq_id < 65536 /\
      0 <= frame_id < 256 /\ 0 <= symbol_id < 64) ->
   fst (SamplePcap.create_oran_packet rtc_id seq_id frame_id symbol_id g)
   = Raise StructError).
Proof.
  split.
  - intros (Hr & Hs & Hf & Hsy).
    destruct (sample_create_oran_packet_ok rtc_id seq_id frame_id symbol_id g
                Hr Hs Hf Hsy) as (pkt & g' & Hok).
    exists pkt, g'. split; [exact Hok|].
    apply (sample_create_oran_packet_fields rtc_id seq_id frame_id symbol_id g).
    now rewrite Hok.
  - apply sample_create_oran_packet_raises.
Qed.

Lemma sample_packet_reads_back_witness :
  exists pkt g',
    SamplePcap.create_oran_packet (R := RefModel.lcg) 0x5678 3 1 0 0
    = (Ok pkt, g') /\
    len pkt = 13133 /\
    ethernet_part pkt = default_ethernet_bytes /\
    decode_ecpri_header (ecpri_part pkt) =
      {| e_version := 1;
         e_reserved := 0;
         e_concat := 0;
         e_message_type := 0;
         e_payload_size := 13112;
         e_rtc_id := 0x5678;
         e_seq_id := 3 |} /\
    decode_oran_header (oran_part pkt) =
      {| f_frame_id := 1;
         f_subframe_id := 0;
         f_slot_id := 0;
         f_symbol_id := 0;
         f_section_id := 0;
         f_rb := 1;
         f_sym_inc := 0;
         f_start_prbu := 1;
         f_num_prbu := 17 |}.
Proof.
  apply (proj1 (sample_packet_reads_back RefModel.fixed_point RefModel.lcg
                  0x5678 3 1 0 0)).
  lia.
Defined.

(** X7: the same for the assembler of [create_test_samples.py], whatever
    the pattern name: success exactly on 16-bit flow and sequence ids, a
    frame id below 256 and a symbol id below 64, a 13133-byte packet
    whose headers read back the arguments, and an exception otherwise. *)
Theorem test_packet_reads_back (F : PyFloat) (R : PyRandom F)
  (rtc_id seq_id frame_id symbol_id : Z) (pattern : string) (g : rng_state) :
  (0 <= rtc_id < 65536 /\ 0 <= seq_id < 65536 /\
   0 <= frame_id < 256 /\ 0 <= symbol_id < 64 ->
   exists pkt g',
     TestSamples.create_oran_packet rtc_id seq_id frame_id symbol_id pattern g
     = (Ok pkt, g') /\
     len pkt = 13133 /\
     ethernet_part pkt = default_ethernet_bytes /\
     decode_ecpri_header (ecpri_part pkt) =
       {| e_version := 1;
          e_reserved := 0;
          e_concat := 0;
          e_message_type := 0;
          e_payload_size := 13112;
          e_rtc_id := rtc_id;
          e_seq_id := seq_id |} /\
     decode_oran_header (oran_part pkt) =
       {| f_frame_id := frame_id;
          f_subframe_id := 0;
          f_slot_id := 0;
          f_symbol_id := symbol_id;
          f_section_id := 0;
          f_rb := 1;
          f_sym_inc := 0;
          f_start_prbu := 1;
          f_num_prbu := 17 |})
  /\
  (~ (0 <= rtc_id < 65536 /\ 0 <= seq_id < 65536 /\
      0 <= frame_id < 256 /\ 0 <= symbol_id < 64) ->
   fst (TestSamples.create_oran_packet rtc_id seq_id frame_id symbol_id
          pattern g) = Raise StructError).
Proof.
  split.
  - intros (Hr & Hs & Hf & Hsy).
    destruct (test_create_oran_packet_ok rtc_id seq_id frame_id symbol_id
                pattern g Hr Hs Hf Hsy) as (pkt & g' & Hok).
    exists pkt, g'. split; [exact Hok|].
    apply (test_create_oran_packet_fields rtc_id seq_id frame_id symbol_id
             pattern g).
    now rewrite Hok.
  - apply test_create_oran_packet_raises.
Qed.

Lemma test_packet_reads_back_witness :
  exists pkt g',
    TestSamples.create_oran_packet (R := RefModel.lcg) 0x2003 3 0 3 "chirp" 0
    = (Ok pkt, g') /\
    len pkt = 13133 /\
    ethernet_part pkt = default_ethernet_bytes /\
    decode_ecpri_header (ecpri_part pkt) =
      {| e_version := 1;
         e_reserved := 0;
         e_concat := 0;
         e_message_type := 0;
         e_payload_size := 13112;
         e_rtc_id := 0x2003;
         e_seq_id := 3 |} /\
    decode_oran_header (oran_part pkt) =
      {| f_frame_id := 0;
         f_subframe_id := 0;
         f_slot_id := 0;
         f_symbol_id := 3;
         f_section_id := 0;
         f_rb := 1;
         f_sym_inc := 0;
         f_start_prbu := 1;
         f_num_prbu := 17 |}.
Proof.
  apply (proj1 (test_packet_reads_back RefModel.fixed_point RefModel.lcg
                  0x2003 3 0 3 "chirp" 0)).
  lia.
Defined.

(** X8: when randint stays within its bounds and the scaled cosine and
    sine within the amplitude, the batch assembler succeeds exactly when
    the derived frame id is below 256, and raises otherwise; every packet
    id from 0 to 35839, so every packet of the default run of 10000, is
    one it succeeds on. *)
Theorem batch_assembles_below_frame_256 (F : PyFloat) (R : PyRandom F) :
  randint_within R -> scaled_trig_within F ->
  forall packet_id g,
    ((packet_id / 140) mod 1024 < 256 ->
     exists pkt g',
       LargePcap.create_oran_packet_fast packet_id g = (Ok pkt, g')) /\
    (256 <= (packet_id / 140) mod 1024 ->
     LargePcap.create_oran_packet_fast packet_id g = (Raise StructError, g)) /\
    (0 <= packet_id < 35840 -> (packet_id / 140) mod 1024 < 256).
Proof.
  intros Hrand Htrig packet_id g. split; [|split].
  - intro Hf. now apply create_oran_packet_fast_ok.
  - intro Hf. now apply create_oran_packet_fast_raises.
  - intro Hp.
    assert (0 <= packet_id / 140 < 256)
      by (split; [apply Z.div_pos | apply Z.div_lt_upper_bound]; lia).
    rewrite Z.mod_small; lia.
Qed.

Lemma batch_assembles_below_frame_256_witness :
  exists pkt g',
    LargePcap.create_oran_packet_fast (R := RefModel.lcg) 9999 0 = (Ok pkt, g').
Proof.
  apply (proj1 (batch_assembles_below_frame_256 RefModel.fixed_point
                  RefModel.lcg lcg_randint_within fixed_point_trig_within
                  9999 0)).
  reflexivity.
Defined.

(** X9: the generator of [create_sample_pcap.py] never raises.  For every
    count it returns the big-endian rendering of one clamped (I, Q) pair
    per sample, so 4 bytes per sample and nothing for a count of zero or
    less, whatever the noise drawn. *)
Theorem sample_generator_clamps (F : PyFloat) (R : PyRandom F)
  (num_samples : Z) (g : rng_state) :
  exists vals g',
    SamplePcap.generate_iq_samples num_samples g
    = (Ok (List.concat (map encode_sample vals)), g') /\
    Forall sample_in_range vals /\
    List.length vals = Z.to_nat num_samples /\
    len (List.concat (map encode_sample vals)) = 4 * Z.max 0 num_samples.
Proof.
  destruct (generate_iq_samples_ok num_samples g)
    as (vals & g' & Hok & Hall & Hlen).
  exists vals, g'. split; [exact Hok|]. split; [exact Hall|].
  split; [exact Hlen|].
  unfold len. rewrite length_concat_samples, Hlen. lia.
Qed.

(** ** MAC strings that do not parse *)

(** Induction along the way [fromhex] reads: a blank, a lone last
    character, or two characters at a time. *)
Lemma fromhex_shape_ind (P : string -> Prop) :
  P EmptyString ->
  (forall c r, is_space c = true -> P r -> P (String c r)) ->
  (forall c, is_space c = false -> P (String c EmptyString)) ->
  (forall c d r, is_space c = false -> P r -> P (String c (String d r))) ->
  forall s, P s.
Proof.
  intros Hnil Hsp Hone Htwo s.
  enough (H : P s /\ forall c, P (String c s)) by apply H.
  induction s as [|d r [IH1 IH2]].
  - split; [exact Hnil|]. intro c.
    destruct (is_space c) eqn:E; [now apply Hsp | now apply Hone].
  - split; [apply IH2|]. intro c.
    destruct (is_space c) eqn:E; [apply Hsp; [exact E | apply IH2]|].
    now apply Htwo.
Qed.

Lemma fromhex_space (c : ascii) (r : string) :
  is_space c = true -> fromhex (String c r) = fromhex r.
Proof.
  intro E. cbn [fromhex]. now rewrite E.
Qed.

Lemma fromhex_lone (c : ascii) :
  is_space c = false -> fromhex (String c EmptyString) = Raise ValueError.
Proof.
  intro E. cbn [fromhex]. rewrite E. now destruct (hex_digit c).
Qed.

Lemma fromhex_pair (c d : ascii) (r : string) :
  is_space c = false ->
  fromhex (String c (String d r)) =
    match hex_digit c, hex_digit d with
    | Some top, Some bot =>
        rest <- fromhex r ;; Ok (byte_of_Z (Z.shiftl top 4 + bot) :: rest)
    | _, _ => Raise ValueError
    end.
Proof.
  intro E. cbn [fromhex]. rewrite E.
  destruct (hex_digit c); [|reflexivity].
  now destruct (hex_digit d).
Qed.

(** [bytes.fromhex] raises nothing but [ValueError]. *)
Lemma fromhex_raises_value_error (s : string) (e : exn) :
  fromhex s = Raise e -> e = ValueError.
Proof.
  induction s as [| c r Hc IH | c Hc | c d r Hc IH] using fromhex_shape_ind.
  - discriminate.
  - rewrite fromhex_space by exact Hc. exact IH.
  - rewrite fromhex_lone by exact Hc. now intros [= <-].
  - rewrite fromhex_pair by exact Hc.
    destruct (hex_digit c); [|now intros [= <-]].
    destruct (hex_digit d); [|now intros [= <-]].
    destruct (fromhex r) as [bs|e']; cbn [bind]; [discriminate|].
    intros [= <-]. now apply IH.
Qed.

Lemma fromhex_foreign (s : string) (c : ascii) :
  hex_digit c = None -> is_space c = false -> occurs c s ->
  fromhex s = Raise ValueError.
Proof.
  intros Hh Hs.
  induction s as [| a r Ha IH | a Ha | a d r Ha IH] using fromhex_shape_ind.
  - intros [].
  - intros [-> | Hin]; [congruence|].
    rewrite fromhex_space by exact Ha. now apply IH.
  - intros _. now apply fromhex_lone.
  - rewrite fromhex_pair by exact Ha.
    intros [-> | [-> | Hin]].
    + now rewrite Hh.
    + rewrite Hh. now destruct (hex_digit a).
    + destruct (hex_digit a); [|reflexivity].
      destruct (hex_digit d); [|reflexivity].
      now rewrite (IH Hin).
Qed.

Lemma occurs_remove_char (c x : ascii) (s : string) :
  c <> x -> occurs c s -> occurs c (remove_char x s).
Proof.
  intro Hne. induction s as [|d r IH]; cbn [occurs remove_char].
  - exact (fun H => H).
  - intros [-> | Hin].
    + destruct (Ascii.eqb_spec c x) as [E|_]; [contradiction|]. now left.
    + destruct (Ascii.eqb d x); [now apply IH|]. right. now apply IH.
Qed.

Lemma mac_to_bytes_foreign (s : string) (c : ascii) :
  foreign_char c -> occurs c s -> mac_to_bytes s = Raise ValueError.
Proof.
  intros (Hh & Hs & Hne) Hin. unfold mac_to_bytes.
  apply (fromhex_foreign _ c Hh Hs).
  now apply occurs_remove_char.
Qed.

(** X10: a MAC string is not sanitised.  If either address contains a
    character that is no hex digit, no colon and no whitespace (a dash,
    say), the Ethernet encoder raises ValueError, whatever the other
    address is. *)
Theorem ethernet_header_rejects_foreign_char
  (src_mac dst_mac : string) (c : ascii) :
  foreign_char c -> occurs c dst_mac \/ occurs c src_mac ->
  create_ethernet_header src_mac dst_mac = Raise ValueError.
Proof.
  intros Hc Hin. unfold create_ethernet_header.
  destruct (mac_to_bytes dst_mac) as [dst|e] eqn:Ed.
  - destruct Hin as [Hin | Hin].
    + rewrite (mac_to_bytes_foreign _ _ Hc Hin) in Ed. discriminate.
    + cbn [bind]. now rewrite (mac_to_bytes_foreign _ _ Hc Hin).
  - cbn [bind].
    now rewrite (fromhex_raises_value_error _ _ Ed).
Qed.

Lemma ethernet_header_rejects_foreign_char_witness :
  create_ethernet_header "00-11-22-33-44-55" "aa:bb:cc:dd:ee:ff"
  = Raise ValueError.
Proof.
  apply (ethernet_header_rejects_foreign_char
           "00-11-22-33-44-55" "aa:bb:cc:dd:ee:ff" "-").
  - repeat split. discriminate.
  - right. cbn [occurs]. right. right. left. reflexivity.
Defined.

Lemma hex_digit_not_space (c : ascii) (v : Z) :
  hex_digit c = Some v -> is_space c = false.
Proof.
  revert v.
  destruct c as [[] [] [] [] [] [] [] []]; intro v; vm_compute; intro H;
    first [reflexivity | discriminate H].
Qed.

Lemma hex_and_colons_removed (s : string) (c : ascii) :
  hex_and_colons s = true -> occurs c (remove_char ":" s) ->
  hex_digit c <> None.
Proof.
  induction s as [|d r IH]; cbn [hex_and_colons remove_char occurs].
  - intros _ [].
  - intro H. apply andb_true_iff in H. destruct H as [Hd Hr].
    destruct (Ascii.eqb d ":") eqn:E.
    + now apply IH.
    + cbn [occurs]. intros [<- | Hin]; [|now apply IH].
      destruct (hex_digit d); [discriminate | discriminate Hd].
Qed.

Lemma fromhex_digits (t : string) :
  (forall c, occurs c t -> hex_digit c <> None) ->
  (Nat.even (String.length t) = true ->
   exists bs, fromhex t = Ok bs /\
              List.length bs = Nat.div2 (String.length t)) /\
  (Nat.even (String.length t) = false -> fromhex t = Raise ValueError).
Proof.
  induction t as [| c r Hc IH | c Hc | c d r Hc IH] using fromhex_shape_ind;
    intro Hall.
  - split; [|discriminate]. intros _. now exists [].
  - exfalso.
    destruct (hex_digit c) as [v|] eqn:E.
    + rewrite (hex_digit_not_space c v E) in Hc. discriminate.
    + now apply (Hall c (or_introl eq_refl)).
  - split; [discriminate|]. intros _. now apply fromhex_lone.
  - rewrite fromhex_pair by exact Hc.
    destruct (hex_digit c) as [top|] eqn:Ec;
      [|exfalso; now apply (Hall c (or_introl eq_refl))].
    destruct (hex_digit d) as [bot|] eqn:Ed;
      [|exfalso; now apply (Hall d (or_intror (or_introl eq_refl)))].
    destruct (IH (fun x Hx => Hall x (or_intror (or_intror Hx))))
      as [Heven Hodd].
    change (Nat.even (String.length (String c (String d r))))
      with (Nat.even (String.length r)).
    split.
    + intro He. destruct (Heven He) as (bs & -> & Hlen).
      eexists. split; [reflexivity|].
      cbn [List.length String.length Nat.div2]. now rewrite Hlen.
    + intro Ho. now rewrite (Hodd Ho).
Qed.

(** X11: for a MAC string made of hex digits and colons only, parsing
    depends on the number of digits and not on where the colons stand:
    with an even number it yields half as many octets, with an odd
    number the Ethernet encoder's parser raises ValueError. *)
Theorem mac_parse_by_digit_count (mac_str : string) :
  hex_and_colons mac_str = true ->
  (Nat.even (digit_count mac_str) = true ->
   exists octets,
     mac_to_bytes mac_str = Ok octets /\
     List.length octets = Nat.div2 (digit_count mac_str)) /\
  (Nat.even (digit_count mac_str) = false ->
   mac_to_bytes mac_str = Raise ValueError).
Proof.
  intro H. unfold mac_to_bytes, digit_count.
  apply fromhex_digits.
  intros c Hin. now apply (hex_and_colons_removed mac_str).
Qed.

Lemma mac_parse_by_digit_count_witness :
  (exists octets,
     mac_to_bytes "0011:2233:4455" = Ok octets /\
     List.length octets = 6%nat) /\
  mac_to_bytes "0:11:22:33:44:55" = Raise ValueError.
Proof.
  split.
  - apply (proj1 (mac_parse_by_digit_count "0011:2233:4455" eq_refl)).
    reflexivity.
  - apply (proj2 (mac_parse_by_digit_count "0:11:22:33:44:55" eq_refl)).
    reflexivity.
Defined.

(** ** Writers: binds and loops over the open file *)

Lemma firstn_skipn_exact {A : Type} (l1 l2 : list A) (n : nat) :
  List.length l1 = n -> firstn n (l1 ++ l2) = l1 /\ skipn n (l1 ++ l2) = l2.
Proof.
  intros <-. split.
  - rewrite firstn_app, firstn_all, Nat.sub_diag. cbn [firstn].
    apply app_nil_r.
  - rewrite skipn_app, skipn_all, Nat.sub_diag. reflexivity.
Qed.

Lemma global_header_value : create_pcap_global_header = Ok global_header_bytes.
Proof.
  unfold create_pcap_global_header. cbv zeta. cbn [struct_pack].
  rewrite !pack_one_ok by (cbn [code_min code_max]; lia).
  reflexivity.
Qed.

Lemma map_of_nat_seq (y x : nat) :
  map Z.of_nat (seq x y) = map (fun k => Z.of_nat x + Z.of_nat k) (seq 0 y).
Proof.
  revert x. induction y as [|y IH]; intro x.
  - reflexivity.
  - cbn [seq map]. f_equal; [lia|].
    rewrite IH, <- seq_shift, map_map.
    apply map_ext. intro k. lia.
Qed.

Lemma py_range_split (a b : Z) :
  0 <= a <= b -> py_range b = py_range a ++ py_range2 a b.
Proof.
  intro H. unfold py_range, py_range2.
  replace (Z.to_nat b) with (Z.to_nat a + Z.to_nat (b - a))%nat by lia.
  rewrite seq_app, map_app. f_equal.
  cbn [Nat.add]. rewrite map_of_nat_seq.
  apply map_ext. intro k. lia.
Qed.

Lemma py_range2_first (a b : Z) :
  a < b -> py_range2 a b = a :: py_range2 (a + 1) b.
Proof.
  intro H. unfold py_range2.
  replace (Z.to_nat (b - a)) with (S (Z.to_nat (b - (a + 1)))) by lia.
  cbn [seq map]. f_equal; [lia|].
  rewrite <- seq_shift, map_map.
  apply map_ext. intro k. lia.
Qed.

(** The batches of one hundred cover every index once, in order. *)
Lemma batch_schedule (n : Z) :
  flat_map (fun batch_start =>
              py_range2 batch_start (Z.min (batch_start + 100) n))
           (py_range3 0 n 100)
  = py_range n.
Proof.
  unfold py_range3.
  set (m := Z.to_nat ((n - 0 + 100 - 1) / 100)).
  assert (Hj : forall j, (j <= m)%nat ->
             flat_map (fun batch_start =>
                         py_range2 batch_start (Z.min (batch_start + 100) n))
                      (map (fun k => 0 + 100 * Z.of_nat k) (seq 0 j))
             = py_range (Z.min (100 * Z.of_nat j) n)).
  { induction j as [|j IH]; intro Hle.
    - cbn [seq map flat_map]. symmetry. apply py_range_nonpositive. lia.
    - rewrite seq_S, map_app, flat_map_app, IH by lia.
      cbn [Nat.add map flat_map]. rewrite app_nil_r.
      assert (Hlt : 100 * Z.of_nat j < n).
      { subst m. pose proof (Z.mul_div_le (n - 0 + 100 - 1) 100 ltac:(lia)).
        lia. }
      rewrite Z.min_l by lia.
      replace (0 + 100 * Z.of_nat j) with (100 * Z.of_nat j) by lia.
      replace (100 * Z.of_nat (S j)) with (100 * Z.of_nat j + 100) by lia.
      symmetry. apply py_range_split. lia. }
  rewrite (Hj m (le_n m)).
  destruct (Z_le_dec n 0) as [Hn|Hn].
  - rewrite !py_range_nonpositive by lia. reflexivity.
  - f_equal. subst m.
    pose proof (Z.mul_succ_div_gt (n - 0 + 100 - 1) 100 ltac:(lia)).
    assert (0 <= (n - 0 + 100 - 1) / 100) by (apply Z.div_pos; lia).
    lia.
Qed.

Section WriterFacts.

Context {F : PyFloat} {R : PyRandom F} {T : PyTime F}.

Lemma io_bind_ok {A B : Type} (m : io A) (k : A -> io B) w a w' :
  m w = (Ok a, w') -> io_bind m k w = k a w'.
Proof.
  intro H. unfold io_bind. now rewrite H.
Qed.

Lemma io_bind_raise {A B : Type} (m : io A) (k : A -> io B) w e w' :
  m w = (Raise e, w') -> io_bind m k w = (Raise e, w').
Proof.
  intro H. unfold io_bind. now rewrite H.
Qed.

Lemma for_each_app {A : Type} (xs ys : list A) (body : A -> io unit) w :
  for_each (xs ++ ys) body w
  = io_bind (for_each xs body) (fun _ => for_each ys body) w.
Proof.
  revert w. induction xs as [|x xs IH]; intro w.
  - reflexivity.
  - cbn [app for_each]. unfold io_bind.
    destruct (body x w) as [[u|e] w1]; [|reflexivity].
    rewrite IH. reflexivity.
Qed.

Lemma for_each_flat_map {A B : Type} (f : A -> list B) (xs : list A)
  (body : B -> io unit) w :
  for_each (flat_map f xs) body w
  = for_each xs (fun x => for_each (f x) body) w.
Proof.
  revert w. induction xs as [|x xs IH]; intro w.
  - reflexivity.
  - cbn [flat_map for_each]. rewrite for_each_app.
    unfold io_bind.
    destruct (for_each (f x) body w) as [[u|e] w1]; [apply IH | reflexivity].
Qed.

(** A loop whose every turn appends one chunk appends them all, in the
    order of the list. *)
Lemma for_each_records {A : Type} (xs : list A) (body : A -> io unit)
  (P : A -> bytes -> Prop) :
  (forall x g out, In x xs ->
     exists g' rec, body x (g, out) = (Ok tt, (g', out ++ rec)) /\ P x rec) ->
  forall g out,
  exists g' recs,
    for_each xs body (g, out) = (Ok tt, (g', out ++ List.concat recs)) /\
    Forall2 P xs recs.
Proof.
  induction xs as [|x xs IH]; intros Hbody g out.
  - exists g, []. cbn [for_each List.concat]. rewrite app_nil_r.
    split; [reflexivity | constructor].
  - destruct (Hbody x g out (or_introl eq_refl)) as (g1 & rec & Hb & HP).
    destruct (IH (fun y g0 o0 Hy => Hbody y g0 o0 (or_intror Hy))
                g1 (out ++ rec)) as (g2 & recs & Hrest & Hall).
    exists g2, (rec :: recs).
    cbn [for_each]. rewrite (io_bind_ok _ _ _ _ _ Hb). cbv beta.
    split; [|now constructor].
    eapply eq_trans; [exact Hrest|].
    cbn [List.concat]. now rewrite app_assoc.
Qed.

(** One record written: the packet is made, its header packed, and both
    are appended. *)
Lemma write_record_exact (mk : py bytes) (ts : float) g out pkt g'
  (e : ecpri_fields) (o : oran_fields) :
  mk g = (Ok pkt, g') ->
  len pkt = 13133 /\
  ethernet_part pkt = default_ethernet_bytes /\
  decode_ecpri_header (ecpri_part pkt) = e /\
  decode_oran_header (oran_part pkt) = o ->
  packable_time ts ->
  exists rec,
    (packet_data <<- run mk ;;
     packet_header <<- io_lift (create_packet_header packet_data ts) ;;
     _ <<- f_write packet_header ;;
     f_write packet_data) (g, out)
    = (Ok tt, (g', out ++ rec)) /\
    record_of_packet rec ts pkt /\
    record_reads rec ts e o.
Proof.
  intros Hmk (Hlen & Heth & He & Ho) Hts.
  set (hdr := le_bytes 4 (int_of_float ts) ++ le_bytes 4 (usec_of ts)
              ++ le_bytes 4 (len pkt) ++ le_bytes 4 (len pkt)).
  assert (Hhdr : create_packet_header pkt ts = Ok hdr)
    by (apply create_packet_header_ok; [exact Hts | rewrite Hlen; reflexivity]).
  assert (Hl16 : List.length hdr = 16%nat)
    by (unfold hdr; now rewrite !length_app, !length_le_bytes).
  destruct (firstn_skipn_exact hdr pkt 16 Hl16) as [Hfst Hskp].
  exists (hdr ++ pkt). split; [|split].
  - unfold io_bind, run, io_lift, f_write. cbn [fst snd].
    rewrite Hmk, Hhdr. cbn [fst snd]. now rewrite <- app_assoc.
  - exists hdr. now split.
  - unfold record_reads. rewrite Hfst, Hskp.
    split; [unfold len in *; rewrite length_app; lia|].
    split; [|now repeat split].
    unfold hdr. rewrite Hlen.
    destruct Hts as [_ [Hs Hu]]. change (2 ^ 32) with 4294967296 in *.
    apply decode_record_header_le; lia.
Qed.

Lemma write_record_step (mk : py bytes) (ts : float) g out pkt g'
  (e : ecpri_fields) (o : oran_fields) :
  mk g = (Ok pkt, g') ->
  len pkt = 13133 /\
  ethernet_part pkt = default_ethernet_bytes /\
  decode_ecpri_header (ecpri_part pkt) = e /\
  decode_oran_header (oran_part pkt) = o ->
  packable_time ts ->
  exists rec,
    (packet_data <<- run mk ;;
     packet_header <<- io_lift (create_packet_header packet_data ts) ;;
     _ <<- f_write packet_header ;;
     f_write packet_data) (g, out)
    = (Ok tt, (g', out ++ rec)) /\
    record_reads rec ts e o.
Proof.
  intros Hmk Hfields Hts.
  destruct (write_record_exact mk ts g out pkt g' e o Hmk Hfields Hts)
    as (rec & Hw & _ & Hrec).
  now exists rec.
Qed.

(** The writers' common start: the file is emptied and the global
    header written. *)
Lemma writer_prologue (k : io unit) g out :
  (_ <<- f_open ;;
   global_header <<- io_lift create_pcap_global_header ;;
   _ <<- f_write global_header ;;
   k) (g, out)
  = k (g, global_header_bytes).
Proof.
  unfold io_bind, f_open, io_lift, f_write. cbn [fst snd].
  rewrite global_header_value. reflexivity.
Qed.

End WriterFacts.

(** ** What the writers leave in the file *)

Section FileFacts.

Context {F : PyFloat} {R : PyRandom F} {T : PyTime F}.

Lemma records_length {A : Type} (P : A -> bytes -> Prop) (xs : list A)
  (recs : list bytes) :
  (forall x rec, P x rec -> len rec = 16 + 13133) ->
  Forall2 P xs recs ->
  len (global_header_bytes ++ List.concat recs) = 24 + 13149 * len xs.
Proof.
  intros HP Hall.
  assert (Hc : len (List.concat recs) = 13149 * len xs).
  { induction Hall as [|x rec xs recs Hx _ IH].
    - reflexivity.
    - cbn [List.concat]. pose proof (HP x rec Hx) as Hr.
      unfold len in *. rewrite length_app. cbn [List.length]. lia. }
  unfold len in *. rewrite length_app.
  change (List.length global_header_bytes) with 24%nat. lia.
Qed.

Lemma record_reads_length (rec : bytes) (ts : float)
  (e : ecpri_fields) (o : oran_fields) :
  record_reads rec ts e o -> len rec = 16 + 13133.
Proof.
  now intros [H _].
Qed.

Lemma simple_pcap_records (base_time : float) g out :
  (forall i, 0 <= i < 5 ->
     packable_time (base_time +~ (float_of_int i *~ float_literal 1 (-3)))) ->
  exists g' recs,
    TestSamplesFile.create_test_pcap_simple base_time (g, out)
    = (Ok tt, (g', global_header_bytes ++ List.concat recs)) /\
    Forall2 (fun i rec =>
               record_reads rec
                 (base_time +~ (float_of_int i *~ float_literal 1 (-3)))
                 (expected_ecpri (0x1000 + i) i)
                 (expected_oran (i / 2) 0 0 (i mod 4) 0))
            (py_range 5) recs.
Proof.
  intro Hclock.
  unfold TestSamplesFile.create_test_pcap_simple.
  rewrite writer_prologue.
  apply for_each_records.
  intros i g0 out0 Hin. apply in_py_range in Hin.
  assert (Hd : 0 <= i / 2 < 256)
    by (split; [apply Z.div_pos | apply Z.div_lt_upper_bound]; lia).
  pose proof (Z.mod_pos_bound i 4 ltac:(lia)) as Hm.
  destruct (test_create_oran_packet_ok (0x1000 + i) i (i / 2) (i mod 4)
              "sine" g0 ltac:(lia) ltac:(lia) Hd ltac:(lia))
    as (pkt & g1 & Hok).
  pose proof (test_create_oran_packet_fields (0x1000 + i) i (i / 2) (i mod 4)
                "sine" g0 pkt) as Hfields.
  rewrite Hok in Hfields. specialize (Hfields eq_refl).
  destruct (write_record_step _ _ g0 out0 pkt g1 _ _ Hok Hfields (Hclock i Hin))
    as (rec & Hw & Hr).
  exists g1, rec. split; [exact Hw | exact Hr].
Qed.

Lemma sample_pcap_records (base_time : float) g out :
  (forall i, 0 <= i < 8 ->
     packable_time (base_time +~ (float_of_int i *~ float_literal 1 (-3)))) ->
  exists g' recs,
    SamplePcapFile.create_sample_pcap base_time (g, out)
    = (Ok tt, (g', global_header_bytes ++ List.concat recs)) /\
    Forall2 (fun '(i, config) rec =>
               record_reads rec
                 (base_time +~ (float_of_int i *~ float_literal 1 (-3)))
                 (expected_ecpri (cfg_rtc_id config) i)
                 (expected_oran (cfg_frame_id config) 0 0
                    (cfg_symbol_id config) 0))
            (enumerate SamplePcapFile.packet_configs) recs.
Proof.
  intro Hclock.
  unfold SamplePcapFile.create_sample_pcap.
  rewrite writer_prologue.
  apply for_each_records.
  intros [i config] g0 out0 Hin.
  assert (Hi : 0 <= i < 8 /\ 0 <= cfg_rtc_id config < 65536 /\
               0 <= cfg_frame_id config < 256 /\
               0 <= cfg_symbol_id config < 64).
  { cbn in Hin.
    repeat (destruct Hin as [Hin | Hin];
            [injection Hin as <- <-; cbn; lia|]).
    destruct Hin. }
  destruct Hi as (Hi & Hr & Hf & Hsy).
  destruct (sample_create_oran_packet_ok (cfg_rtc_id config) i
              (cfg_frame_id config) (cfg_symbol_id config) g0
              Hr ltac:(lia) Hf Hsy) as (pkt & g1 & Hok).
  pose proof (sample_create_oran_packet_fields (cfg_rtc_id config) i
                (cfg_frame_id config) (cfg_symbol_id config) g0 pkt)
    as Hfields.
  rewrite Hok in Hfields. specialize (Hfields eq_refl).
  destruct (write_record_step _ _ g0 out0 pkt g1 _ _ Hok Hfields (Hclock i Hi))
    as (rec & Hw & Hrec).
  exists g1, rec. split; [exact Hw | exact Hrec].
Qed.

Lemma rms_pcap_records (base_time : float) g out :
  (forall i, 0 <= i < 5 ->
     packable_time (base_time +~ (float_of_int i *~ float_literal 2 (-3)))) ->
  exists g' recs,
    TestSamplesFile.create_test_pcap_rms_variations base_time (g, out)
    = (Ok tt, (g', global_header_bytes ++ List.concat recs)) /\
    Forall2 (fun '(i, (pattern, rtc_id)) rec =>
               record_reads rec
                 (base_time +~ (float_of_int i *~ float_literal 2 (-3)))
                 (expected_ecpri rtc_id i)
                 (expected_oran 0 0 0 i 0))
            (enumerate TestSamplesFile.rms_patterns) recs.
Proof.
  intro Hclock.
  unfold TestSamplesFile.create_test_pcap_rms_variations.
  rewrite writer_prologue.
  apply for_each_records.
  intros [i [pattern rtc_id]] g0 out0 Hin.
  assert (Hi : 0 <= i < 5 /\ 0 <= rtc_id < 65536).
  { cbn in Hin.
    repeat (destruct Hin as [Hin | Hin];
            [injection Hin as <- <- <-; cbn; lia|]).
    destruct Hin. }
  destruct Hi as (Hi & Hr).
  destruct (test_create_oran_packet_ok rtc_id i 0 i pattern g0
              Hr ltac:(lia) ltac:(lia) ltac:(lia)) as (pkt & g1 & Hok).
  pose proof (test_create_oran_packet_fields rtc_id i 0 i pattern g0 pkt)
    as Hfields.
  rewrite Hok in Hfields. specialize (Hfields eq_refl).
  destruct (write_record_step _ _ g0 out0 pkt g1 _ _ Hok Hfields (Hclock i Hi))
    as (rec & Hw & Hrec).
  exists g1, rec. split; [exact Hw | exact Hrec].
Qed.

Lemma batched_for_each (n : Z) (body : Z -> io unit) w :
  for_each (py_range3 0 n 100)
    (fun batch_start =>
       for_each (py_range2 batch_start (Z.min (batch_start + 100) n)) body) w
  = for_each (py_range n) body w.
Proof.
  rewrite <- (batch_schedule n). symmetry.
  apply for_each_flat_map.
Qed.

Lemma large_pcap_unfold (base_time : float) (num_packets : Z) g out :
  LargePcapFile.create_large_pcap base_time num_packets (g, out)
  = for_each (py_range num_packets)
      (fun i =>
         packet_data <<- run (LargePcap.create_oran_packet_fast i) ;;
         packet_header <<-
           io_lift (create_packet_header packet_data
                      (base_time +~ float_of_int i *~ float_literal 714 (-7))) ;;
         _ <<- f_write packet_header ;;
         f_write packet_data)
      (g, global_header_bytes).
Proof.
  unfold LargePcapFile.create_large_pcap. cbv zeta.
  rewrite writer_prologue. apply batched_for_each.
Qed.

Lemma large_pcap_records (base_time : float) (n : Z) g out :
  randint_within R -> scaled_trig_within F ->
  n <= 35840 ->
  (forall i, 0 <= i < n ->
     packable_time (base_time +~ float_of_int i *~ float_literal 714 (-7))) ->
  exists g' recs,
    for_each (py_range n)
      (fun i =>
         packet_data <<- run (LargePcap.create_oran_packet_fast i) ;;
         packet_header <<-
           io_lift (create_packet_header packet_data
                      (base_time +~ float_of_int i *~ float_literal 714 (-7))) ;;
         _ <<- f_write packet_header ;;
         f_write packet_data)
      (g, out)
    = (Ok tt, (g', out ++ List.concat recs)) /\
    Forall2 (fun i rec =>
               record_reads rec
                 (base_time +~ float_of_int i *~ float_literal 714 (-7))
                 (expected_ecpri (0x1000 + i mod 8) (i mod 65536))
                 (expected_oran ((i / 140) mod 1024)
                    ((((i / 14) mod 10) / 2) mod 10) ((i / 14) mod 10)
                    (i mod 14) (i mod 4096)))
            (py_range n) recs.
Proof.
  intros Hrand Htrig Hn Hclock.
  apply for_each_records.
  intros i g0 out0 Hin. apply in_py_range in Hin.
  assert (Hf : (i / 140) mod 1024 < 256).
  { assert (0 <= i / 140 < 256)
      by (split; [apply Z.div_pos | apply Z.div_lt_upper_bound]; lia).
    rewrite Z.mod_small; lia. }
  destruct (create_oran_packet_fast_ok i g0 Hrand Htrig Hf)
    as (pkt & g1 & Hok).
  pose proof (create_oran_packet_fast_fields i g0 pkt) as Hfields.
  rewrite Hok in Hfields. specialize (Hfields eq_refl).
  destruct Hfields as (_ & Hfields).
  destruct (write_record_step _ _ g0 out0 pkt g1 _ _ Hok Hfields (Hclock i Hin))
    as (rec & Hw & Hrec).
  exists g1, rec. split; [exact Hw | exact Hrec].
Qed.

(** The same run, with every record tied to the packet it holds. *)
Lemma large_pcap_packets (base_time : float) (n : Z) g out :
  randint_within R -> scaled_trig_within F ->
  n <= 35840 ->
  (forall i, 0 <= i < n ->
     packable_time (base_time +~ float_of_int i *~ float_literal 714 (-7))) ->
  exists g' recs,
    for_each (py_range n)
      (fun i =>
         packet_data <<- run (LargePcap.create_oran_packet_fast i) ;;
         packet_header <<-
           io_lift (create_packet_header packet_data
                      (base_time +~ float_of_int i *~ float_literal 714 (-7))) ;;
         _ <<- f_write packet_header ;;
         f_write packet_data)
      (g, out)
    = (Ok tt, (g', out ++ List.concat recs)) /\
    Forall2 (fun i rec =>
               (exists pkt,
                  (forall g0,
                     fst (LargePcap.create_oran_packet_fast i g0) = Ok pkt) /\
                  record_of_packet rec
                    (base_time +~ float_of_int i *~ float_literal 714 (-7))
                    pkt) /\
               record_reads rec
                 (base_time +~ float_of_int i *~ float_literal 714 (-7))
                 (expected_ecpri (0x1000 + i mod 8) (i mod 65536))
                 (expected_oran ((i / 140) mod 1024)
                    ((((i / 14) mod 10) / 2) mod 10) ((i / 14) mod 10)
                    (i mod 14) (i mod 4096)))
            (py_range n) recs.
Proof.
  intros Hrand Htrig Hn Hclock.
  apply for_each_records.
  intros i g0 out0 Hin. apply in_py_range in Hin.
  assert (Hf : (i / 140) mod 1024 < 256).
  { assert (0 <= i / 140 < 256)
      by (split; [apply Z.div_pos | apply Z.div_lt_upper_bound]; lia).
    rewrite Z.mod_small; lia. }
  destruct (create_oran_packet_fast_ok i g0 Hrand Htrig Hf)
    as (pkt & g1 & Hok).
  pose proof (create_oran_packet_fast_fields i g0 pkt) as Hfields.
  rewrite Hok in Hfields. specialize (Hfields eq_refl).
  destruct Hfields as (_ & Hfields).
  destruct (write_record_exact _ _ g0 out0 pkt g1 _ _ Hok Hfields
              (Hclock i Hin)) as (rec & Hw & Hof & Hrec).
  exists g1, rec. split; [exact Hw|]. split; [|exact Hrec].
  exists pkt. split; [|exact Hof].
  intro g2. rewrite (create_oran_packet_fast_seeded i g2 g0).
  now rewrite Hok.
Qed.

End FileFacts.

(** X12: a run of the batch writer for at most 35840 packets, with
    randint inside its bounds, the scaled cosine and sine inside the
    amplitude and every timestamp finite and inside the 32-bit range,
    ends normally with a file that is the 24-byte global header followed
    by one record per packet index, in increasing index order and
    whatever the batch boundaries.  Record i is the header that
    [create_packet_header] returns for packet i at the time
    base_time + i * 0.0000714, followed by packet i itself, the bytes
    [create_oran_packet_fast(i)] returns from any state of the random
    module.  Read back, the header has both lengths 13133 and the packet
    has flow id 0x1000 + i mod 8, sequence id i mod 65536 and the
    derived frame, subframe, slot, symbol and section ids.  The file has
    24 + 13149 * num_packets bytes. *)
Theorem large_pcap_layout (F : PyFloat) (R : PyRandom F) (T : PyTime F)
  (base_time : float) (num_packets : Z) (g : rng_state) (out : bytes) :
  randint_within R -> scaled_trig_within F ->
  num_packets <= 35840 ->
  (forall i, 0 <= i < num_packets ->
     packable_time (base_time +~ float_of_int i *~ float_literal 714 (-7))) ->
  exists g' recs,
    LargePcapFile.create_large_pcap base_time num_packets (g, out)
    = (Ok tt, (g', global_header_bytes ++ List.concat recs)) /\
    Forall2 (fun i rec =>
               (exists pkt,
                  (forall g0,
                     fst (LargePcap.create_oran_packet_fast i g0) = Ok pkt) /\
                  record_of_packet rec
                    (base_time +~ float_of_int i *~ float_literal 714 (-7))
                    pkt) /\
               record_reads rec
                 (base_time +~ float_of_int i *~ float_literal 714 (-7))
                 (expected_ecpri (0x1000 + i mod 8) (i mod 65536))
                 (expected_oran ((i / 140) mod 1024)
                    ((((i / 14) mod 10) / 2) mod 10) ((i / 14) mod 10)
                    (i mod 14) (i mod 4096)))
            (py_range num_packets) recs /\
    len (global_header_bytes ++ List.concat recs)
    = 24 + 13149 * Z.max 0 num_packets.
Proof.
  intros Hrand Htrig Hn Hclock.
  rewrite large_pcap_unfold.
  destruct (large_pcap_packets base_time num_packets g global_header_bytes
              Hrand Htrig Hn Hclock) as (g' & recs & Hrun & Hall).
  exists g', recs. split; [exact Hrun|]. split; [exact Hall|].
  rewrite (records_length _ _ _
             (fun i rec H => record_reads_length rec _ _ _ (proj2 H)) Hall).
  unfold len. rewrite length_py_range. lia.
Qed.

(** X13: asked for more than 35840 packets, under the same conditions,
    the batch writer does not finish: it raises struct.error at packet
    35840, whose frame id is 256, and leaves a file of the global header
    and the 35840 complete records before it. *)
Theorem large_pcap_stops_at_35840 (F : PyFloat) (R : PyRandom F) (T : PyTime F)
  (base_time : float) (num_packets : Z) (g : rng_state) (out : bytes) :
  randint_within R -> scaled_trig_within F ->
  35840 < num_packets ->
  (forall i, 0 <= i < 35840 ->
     packable_time (base_time +~ float_of_int i *~ float_literal 714 (-7))) ->
  exists g' recs,
    LargePcapFile.create_large_pcap base_time num_packets (g, out)
    = (Raise StructError, (g', global_header_bytes ++ List.concat recs)) /\
    Forall2 (fun i rec =>
               record_reads rec
                 (base_time +~ float_of_int i *~ float_literal 714 (-7))
                 (expected_ecpri (0x1000 + i mod 8) (i mod 65536))
                 (expected_oran ((i / 140) mod 1024)
                    ((((i / 14) mod 10) / 2) mod 10) ((i / 14) mod 10)
                    (i mod 14) (i mod 4096)))
            (py_range 35840) recs /\
    len (global_header_bytes ++ List.concat recs) = 24 + 13149 * 35840.
Proof.
  intros Hrand Htrig Hn Hclock.
  rewrite large_pcap_unfold.
  rewrite (py_range_split 35840 num_packets) by lia.
  rewrite (py_range2_first 35840 num_packets) by lia.
  rewrite for_each_app.
  destruct (large_pcap_records base_time 35840 g global_header_bytes
              Hrand Htrig ltac:(lia) Hclock) as (g' & recs & Hrun & Hall).
  exists g', recs. split; [|split; [exact Hall|]].
  - rewrite (io_bind_ok _ _ _ _ _ Hrun). cbn [for_each].
    apply io_bind_raise. apply io_bind_raise.
    unfold run. cbn [fst snd].
    rewrite create_oran_packet_fast_raises; [reflexivity|].
    change ((35840 / 140) mod 1024) with 256. lia.
  - rewrite (records_length _ _ _
               (fun i rec H => record_reads_length rec _ _ _ H) Hall).
    unfold len. rewrite length_py_range. reflexivity.
Qed.

(** ** A loop that counts *)

Lemma py_range2_split (a b c : Z) :
  a <= b <= c -> py_range2 a c = py_range2 a b ++ py_range2 b c.
Proof.
  intro H. unfold py_range2.
  replace (Z.to_nat (c - a)) with (Z.to_nat (b - a) + Z.to_nat (c - b))%nat
    by lia.
  rewrite seq_app, map_app. f_equal.
  cbn [Nat.add].
  transitivity (map (fun z => a + z)
                  (map Z.of_nat (seq (Z.to_nat (b - a)) (Z.to_nat (c - b))))).
  { now rewrite map_map. }
  rewrite map_of_nat_seq, map_map. apply map_ext. intro k. lia.
Qed.

Lemma py_range2_from_0 (n : Z) : py_range2 0 n = py_range n.
Proof.
  unfold py_range2, py_range. rewrite Z.sub_0_r.
  apply map_ext. intro k. lia.
Qed.

Lemma py_range2_one (c : Z) : py_range2 c (c + 1) = [c].
Proof.
  unfold py_range2. replace (c + 1 - c) with 1 by lia.
  change (Z.to_nat 1) with 1%nat. cbn [seq map]. f_equal. lia.
Qed.

Lemma counted_app (Rec : Z -> bytes -> Prop) (k1 k2 c : Z) (x y : bytes) :
  0 <= k1 -> 0 <= k2 ->
  counted_records Rec k1 c x -> counted_records Rec k2 (c + k1) y ->
  counted_records Rec (k1 + k2) c (x ++ y).
Proof.
  intros H1 H2 (r1 & -> & F1) (r2 & -> & F2).
  exists (r1 ++ r2). split; [now rewrite concat_app|].
  rewrite (py_range2_split c (c + k1) (c + (k1 + k2))) by lia.
  replace (c + (k1 + k2)) with (c + k1 + k2) by lia.
  now apply Forall2_app.
Qed.

Lemma count_decomposed (frame slot symbol : Z) :
  0 <= slot < 10 -> 0 <= symbol < 14 ->
  (140 * frame + 14 * slot + symbol) / 140 = frame /\
  ((140 * frame + 14 * slot + symbol) / 14) mod 10 = slot /\
  (140 * frame + 14 * slot + symbol) mod 14 = symbol.
Proof.
  intros Hs Hy. repeat split; Z.div_mod_to_equations; lia.
Qed.

Section CountingFacts.

Context {F : PyFloat} {R : PyRandom F} {T : PyTime F}.

Lemma for_fold_app {A S : Type} (xs ys : list A) (body : A -> S -> io S)
  (acc : S) w :
  for_fold (xs ++ ys) body acc w
  = io_bind (for_fold xs body acc) (fun acc' => for_fold ys body acc') w.
Proof.
  revert acc w. induction xs as [|x xs IH]; intros acc w.
  - reflexivity.
  - cbn [app for_fold]. unfold io_bind.
    destruct (body x acc w) as [[acc1|e] w1]; [|reflexivity].
    rewrite IH. reflexivity.
Qed.

(** A counting loop over [range(n)] whose every turn advances the
    counter by [k] and appends the [k] records counted, advances it by
    [k * n] in all and appends the [k * n] records counted. *)
Lemma for_fold_counted (Rec : Z -> bytes -> Prop) (k c0 : Z) (n : nat)
  (body : Z -> Z -> io Z) :
  0 <= k ->
  (forall i g out, 0 <= i < Z.of_nat n ->
     exists g' chunk,
       body i (c0 + k * i) (g, out) = (Ok (c0 + k * i + k), (g', out ++ chunk)) /\
       counted_records Rec k (c0 + k * i) chunk) ->
  forall g out,
  exists g' chunk,
    for_fold (py_range (Z.of_nat n)) body c0 (g, out)
    = (Ok (c0 + k * Z.of_nat n), (g', out ++ chunk)) /\
    counted_records Rec (k * Z.of_nat n) c0 chunk.
Proof.
  intros Hk. induction n as [|n IH]; intros Hbody g out.
  - exists g, []. split.
    + cbn. now rewrite app_nil_r, Z.mul_0_r, Z.add_0_r.
    + exists []. split; [reflexivity|].
      rewrite Z.mul_0_r, Z.add_0_r. unfold py_range2.
      rewrite Z.sub_diag. constructor.
  - destruct (IH (fun i g0 o0 Hi => Hbody i g0 o0 ltac:(lia)) g out)
      as (g1 & chunk1 & Hrun1 & Hc1).
    destruct (Hbody (Z.of_nat n) g1 (out ++ chunk1) ltac:(lia))
      as (g2 & chunk2 & Hrun2 & Hc2).
    exists g2, (chunk1 ++ chunk2).
    unfold py_range. rewrite Nat2Z.id, seq_S, map_app. cbn [Nat.add map].
    rewrite for_fold_app.
    assert (Hpre : for_fold (map Z.of_nat (seq 0 n)) body c0 (g, out)
                   = (Ok (c0 + k * Z.of_nat n), (g1, out ++ chunk1))).
    { unfold py_range in Hrun1. now rewrite Nat2Z.id in Hrun1. }
    rewrite (io_bind_ok _ _ _ _ _ Hpre). cbn [for_fold].
    rewrite (io_bind_ok _ _ _ _ _ Hrun2). cbv beta.
    split.
    + unfold io_ret. rewrite <- app_assoc.
      replace (c0 + k * Z.of_nat (S n)) with (c0 + k * Z.of_nat n + k) by lia.
      reflexivity.
    + replace (k * Z.of_nat (S n)) with (k * Z.of_nat n + k) by lia.
      apply counted_app; [lia | lia | exact Hc1 | exact Hc2].
Qed.

Lemma frame_sequence_records (base_time : float) g out :
  (forall c, 0 <= c < 280 -> packable_time (frame_sequence_time base_time c)) ->
  exists g' recs,
    TestSamplesFile.create_test_pcap_frame_sequence base_time (g, out)
    = (Ok 280, (g', global_header_bytes ++ List.concat recs)) /\
    Forall2 (fun c rec =>
               record_reads rec (frame_sequence_time base_time c)
                 (expected_ecpri 0x3000 c)
                 (expected_oran (c / 140) 0 0 (c mod 14) 0))
            (py_range 280) recs.
Proof.
  intro Hclock.
  unfold TestSamplesFile.create_test_pcap_frame_sequence. cbv zeta.
  unfold io_bind at 1 2 3. unfold f_open, io_lift, f_write. cbn [fst snd].
  rewrite global_header_value. cbn [app].
  set (Rec := fun c rec =>
                record_reads rec (frame_sequence_time base_time c)
                  (expected_ecpri 0x3000 c)
                  (expected_oran (c / 140) 0 0 (c mod 14) 0)).
  match goal with
  | |- exists g' recs, for_fold _ ?body 0 _ = _ /\ _ =>
      destruct (for_fold_counted Rec 140 0 2 body ltac:(lia)) with
        (g := g) (out := global_header_bytes)
        as (g' & chunk & Hrun & (recs & -> & Hall))
  end.
  - intros frame g0 out0 Hframe.
    match goal with
    | |- exists g' chunk, for_fold _ ?body _ _ = _ /\ _ =>
        destruct (for_fold_counted Rec 14 (0 + 140 * frame) 10 body ltac:(lia))
          with (g := g0) (out := out0)
          as (g1 & chunk & Hrun & Hc)
    end.
    + intros slot g1 out1 Hslot.
      match goal with
      | |- exists g' chunk, for_fold _ ?body _ _ = _ /\ _ =>
          destruct (for_fold_counted Rec 1 (0 + 140 * frame + 14 * slot) 14
                      body ltac:(lia))
            with (g := g1) (out := out1)
            as (g2 & chunk & Hrun & Hc)
      end.
      * intros symbol g2 out2 Hsymbol.
        set (c := 0 + 140 * frame + 14 * slot + 1 * symbol).
        destruct (count_decomposed frame slot symbol ltac:(lia) ltac:(lia))
          as (Hcf & Hcs & Hcy).
        assert (Hceq : c = 140 * frame + 14 * slot + symbol)
          by (unfold c; lia).
        destruct (test_create_oran_packet_ok 0x3000 c frame symbol "sine" g2
                    ltac:(lia) ltac:(lia) ltac:(lia) ltac:(lia))
          as (pkt & g3 & Hok).
        pose proof (test_create_oran_packet_fields 0x3000 c frame symbol
                      "sine" g2 pkt) as Hfields.
        rewrite Hok in Hfields. specialize (Hfields eq_refl).
        assert (Hts : base_time
                      +~ float_of_int (frame * 10 + slot) *~ float_literal 1 (-3)
                      +~ float_of_int symbol *~ float_literal 7 (-5)
                      = frame_sequence_time base_time c).
        { unfold frame_sequence_time. rewrite Hceq, Hcf, Hcs, Hcy.
          reflexivity. }
        destruct (write_record_step _ _ g2 out2 pkt g3 _ _ Hok Hfields
                    (Hclock c ltac:(lia))) as (rec & Hw & Hrec).
        exists g3, rec. split.
        -- rewrite Hts.
           unfold io_bind, run, io_lift, f_write, io_ret in *.
           cbn [fst snd] in *. rewrite Hok in *.
           destruct (create_packet_header pkt (frame_sequence_time base_time c))
             as [hdr|e]; [|discriminate].
           cbn [fst snd] in *. injection Hw as Hw. rewrite <- Hw.
           reflexivity.
        -- exists [rec]. split; [cbn; now rewrite app_nil_r|].
           rewrite py_range2_one. constructor; [|constructor].
           unfold Rec. rewrite <- Hceq in Hcf, Hcy.
           rewrite Hcf, Hcy. exact Hrec.
      * exists g2, chunk. split; [exact Hrun | exact Hc].
    + exists g1, chunk. split; [exact Hrun | exact Hc].
  - exists g', recs. split; [exact Hrun|].
    now rewrite py_range2_from_0 in Hall.
Qed.

End CountingFacts.

(** X14: with every timestamp finite and inside the 32-bit range,
    [create_test_pcap_simple] ends normally with the global header and
    five records, in order: record i is stamped base_time + i * 0.001,
    has both lengths 13133, and holds a packet with flow id 0x1000 + i,
    sequence id i, frame id i // 2 and symbol id i % 4.  The file has
    24 + 5 * 13149 bytes. *)
Theorem simple_pcap_layout (F : PyFloat) (R : PyRandom F) (T : PyTime F)
  (base_time : float) (g : rng_state) (out : bytes) :
  (forall i, 0 <= i < 5 ->
     packable_time (base_time +~ (float_of_int i *~ float_literal 1 (-3)))) ->
  exists g' recs,
    TestSamplesFile.create_test_pcap_simple base_time (g, out)
    = (Ok tt, (g', global_header_bytes ++ List.concat recs)) /\
    Forall2 (fun i rec =>
               record_reads rec
                 (base_time +~ (float_of_int i *~ float_literal 1 (-3)))
                 (expected_ecpri (0x1000 + i) i)
                 (expected_oran (i / 2) 0 0 (i mod 4) 0))
            (py_range 5) recs /\
    len (global_header_bytes ++ List.concat recs) = 24 + 13149 * 5.
Proof.
  intro Hclock.
  destruct (simple_pcap_records base_time g out Hclock)
    as (g' & recs & Hrun & Hall).
  exists g', recs. split; [exact Hrun|]. split; [exact Hall|].
  now rewrite (records_length _ _ _
                 (fun i rec H => record_reads_length rec _ _ _ H) Hall).
Qed.

(** X15: with every timestamp finite and inside the 32-bit range,
    [create_sample_pcap] ends normally with the global header and eight
    records, one per entry of its configuration table and in the table's
    order: record i is stamped base_time + i * 0.001 and holds a packet
    with the entry's flow id, frame id and symbol id and sequence id i.
    The file has 24 + 8 * 13149 bytes. *)
Theorem sample_pcap_layout (F : PyFloat) (R : PyRandom F) (T : PyTime F)
  (base_time : float) (g : rng_state) (out : bytes) :
  (forall i, 0 <= i < 8 ->
     packable_time (base_time +~ (float_of_int i *~ float_literal 1 (-3)))) ->
  exists g' recs,
    SamplePcapFile.create_sample_pcap base_time (g, out)
    = (Ok tt, (g', global_header_bytes ++ List.concat recs)) /\
    Forall2 (fun '(i, config) rec =>
               record_reads rec
                 (base_time +~ (float_of_int i *~ float_literal 1 (-3)))
                 (expected_ecpri (cfg_rtc_id config) i)
                 (expected_oran (cfg_frame_id config) 0 0
                    (cfg_symbol_id config) 0))
            (enumerate SamplePcapFile.packet_configs) recs /\
    len (global_header_bytes ++ List.concat recs) = 24 + 13149 * 8.
Proof.
  intro Hclock.
  destruct (sample_pcap_records base_time g out Hclock)
    as (g' & recs & Hrun & Hall).
  exists g', recs. split; [exact Hrun|]. split; [exact Hall|].
  rewrite (fun HP => records_length _ _ _ HP Hall); [reflexivity|].
  intros [i config] rec H. exact (record_reads_length _ _ _ _ H).
Qed.

(** X16: with every timestamp finite and inside the 32-bit range,
    [create_test_pcap_rms_variations] ends normally with the global
    header and five records, one per pattern of its table and in the
    table's order (low_power, sine, high_power, chirp, noise): record i
    is stamped base_time + i * 0.002 and holds a packet with the
    pattern's flow id, sequence id i, frame id 0 and symbol id i.  The
    file has 24 + 5 * 13149 bytes. *)
Theorem rms_pcap_layout (F : PyFloat) (R : PyRandom F) (T : PyTime F)
  (base_time : float) (g : rng_state) (out : bytes) :
  (forall i, 0 <= i < 5 ->
     packable_time (base_time +~ (float_of_int i *~ float_literal 2 (-3)))) ->
  exists g' recs,
    TestSamplesFile.create_test_pcap_rms_variations base_time (g, out)
    = (Ok tt, (g', global_header_bytes ++ List.concat recs)) /\
    Forall2 (fun '(i, (pattern, rtc_id)) rec =>
               record_reads rec
                 (base_time +~ (float_of_int i *~ float_literal 2 (-3)))
                 (expected_ecpri rtc_id i)
                 (expected_oran 0 0 0 i 0))
            (enumerate TestSamplesFile.rms_patterns) recs /\
    len (global_header_bytes ++ List.concat recs) = 24 + 13149 * 5.
Proof.
  intro Hclock.
  destruct (rms_pcap_records base_time g out Hclock)
    as (g' & recs & Hrun & Hall).
  exists g', recs. split; [exact Hrun|]. split; [exact Hall|].
  rewrite (fun HP => records_length _ _ _ HP Hall); [reflexivity|].
  intros [i [pattern rtc_id]] rec H. exact (record_reads_length _ _ _ _ H).
Qed.

(** X17: with every timestamp finite and inside the 32-bit range,
    [create_test_pcap_frame_sequence] ends normally having counted 280
    packets (2 frames of 10 slots of 14 symbols), and the file is the
    global header followed by 280 records in counting order: record c
    holds a packet with flow id 0x3000, sequence id c, frame id c // 140
    and symbol id c % 14.  The file has 24 + 280 * 13149 bytes. *)
Theorem frame_sequence_layout (F : PyFloat) (R : PyRandom F) (T : PyTime F)
  (base_time : float) (g : rng_state) (out : bytes) :
  (forall c, 0 <= c < 280 -> packable_time (frame_sequence_time base_time c)) ->
  exists g' recs,
    TestSamplesFile.create_test_pcap_frame_sequence base_time (g, out)
    = (Ok 280, (g', global_header_bytes ++ List.concat recs)) /\
    Forall2 (fun c rec =>
               record_reads rec (frame_sequence_time base_time c)
                 (expected_ecpri 0x3000 c)
                 (expected_oran (c / 140) 0 0 (c mod 14) 0))
            (py_range 280) recs /\
    len (global_header_bytes ++ List.concat recs) = 24 + 13149 * 280.
Proof.
  intro Hclock.
  destruct (frame_sequence_records base_time g out Hclock)
    as (g' & recs & Hrun & Hall).
  exists g', recs. split; [exact Hrun|]. split; [exact Hall|].
  now rewrite (records_length _ _ _
                 (fun c rec H => record_reads_length rec _ _ _ H) Hall).
Qed.

(** ** The reference clock

    In the fixed-point reference model a timestamp is a count of 1/1024
    seconds; every timestamp below 2^32 seconds can be packed. *)

Lemma ref_clock_packable (x : Z) :
  0 <= x < 1024 * 2 ^ 32 ->
  packable_time (F := RefModel.fixed_point) (T := RefClock.fixed_point_time) x.
Proof.
  intro Hx. unfold packable_time, fits_u32, usec_of.
  split; [repeat split|].
  change (0 <= Z.quot x 1024 < 2 ^ 32 /\
          0 <= Z.quot (Z.quot ((x - 1024 * Z.quot x 1024) * (1024 * 1000000))
                         1024) 1024 < 2 ^ 32).
  change (2 ^ 32) with 4294967296 in *.
  change (1024 * 1000000) with 1024000000.
  rewrite (Z.quot_div_nonneg x 1024) by lia.
  assert (Hr : 0 <= x - 1024 * (x / 1024) < 1024)
    by (Z.div_mod_to_equations; lia).
  set (r := x - 1024 * (x / 1024)) in *. clearbody r.
  rewrite (Z.quot_div_nonneg (r * 1024000000) 1024) by lia.
  assert (Hq : 0 <= r * 1024000000 / 1024 < 1024000000)
    by (Z.div_mod_to_equations; lia).
  rewrite (Z.quot_div_nonneg _ 1024) by lia.
  split; Z.div_mod_to_equations; lia.
Qed.

Lemma ref_clock_step (base i m e : Z) :
  0 <= i -> 0 <= RefClock.decimal m e ->
  @fadd RefModel.fixed_point base
    (@fmul RefModel.fixed_point (@float_of_int RefModel.fixed_point i)
       (@float_literal _ RefClock.fixed_point_time m e))
  = base + i * RefClock.decimal m e.
Proof.
  intros Hi Hd.
  change (base + Z.quot (1024 * i * RefClock.decimal m e) 1024
          = base + i * RefClock.decimal m e).
  f_equal.
  replace (1024 * i * RefClock.decimal m e)
    with (i * RefClock.decimal m e * 1024) by lia.
  apply Z.quot_mul. lia.
Qed.

Lemma ref_clock_linear (base i m e bound : Z) :
  0 <= base -> 0 <= i < bound -> 0 <= RefClock.decimal m e ->
  base + bound * RefClock.decimal m e < 1024 * 2 ^ 32 ->
  packable_time (F := RefModel.fixed_point) (T := RefClock.fixed_point_time)
    (@fadd RefModel.fixed_point base
       (@fmul RefModel.fixed_point (@float_of_int RefModel.fixed_point i)
          (@float_literal _ RefClock.fixed_point_time m e))).
Proof.
  intros Hb Hi Hd Hbound. rewrite ref_clock_step by lia.
  apply ref_clock_packable.
  assert (i * RefClock.decimal m e <= bound * RefClock.decimal m e)
    by (apply Z.mul_le_mono_nonneg_r; lia).
  split; [apply Z.add_nonneg_nonneg; [lia | apply Z.mul_nonneg_nonneg; lia]
         | lia].
Qed.

Lemma ref_frame_sequence_clock (c : Z) :
  0 <= c < 280 ->
  packable_time (F := RefModel.fixed_point) (T := RefClock.fixed_point_time)
    (frame_sequence_time (F := RefModel.fixed_point)
       (T := RefClock.fixed_point_time) (1024 * 1700000000) c).
Proof.
  intro Hc. unfold frame_sequence_time.
  rewrite (ref_clock_step _ (c mod 14) 7 (-5))
    by (try (vm_compute; discriminate); Z.div_mod_to_equations; lia).
  rewrite (ref_clock_step _ (c / 140 * 10 + (c / 14) mod 10) 1 (-3))
    by (try (vm_compute; discriminate); Z.div_mod_to_equations; lia).
  change (RefClock.decimal 7 (-5)) with 0.
  change (RefClock.decimal 1 (-3)) with 1.
  apply ref_clock_packable. change (2 ^ 32) with 4294967296.
  Z.div_mod_to_equations. lia.
Qed.

Lemma large_pcap_layout_witness :
  exists g' recs,
    LargePcapFile.create_large_pcap (R := RefModel.lcg)
      (T := RefClock.fixed_point_time) (1024 * 1700000000) 250 (42, [])
    = (Ok tt, (g', global_header_bytes ++ List.concat recs)) /\
    List.length recs = 250%nat /\
    len (global_header_bytes ++ List.concat recs) = 3287274.
Proof.
  destruct (large_pcap_layout RefModel.fixed_point RefModel.lcg
              RefClock.fixed_point_time (1024 * 1700000000) 250 42 []
              lcg_randint_within fixed_point_trig_within ltac:(lia)
              (fun i Hi => ref_clock_linear (1024 * 1700000000) i 714 (-7) 250
                             ltac:(lia) Hi ltac:(vm_compute; discriminate)
                             ltac:(vm_compute; reflexivity)))
    as (g' & recs & Hrun & Hall & Hlen).
  exists g', recs. split; [exact Hrun|]. split; [|exact Hlen].
  eapply eq_trans; [symmetry; exact (Forall2_length Hall)|].
  exact (length_py_range 250).
Defined.

Lemma large_pcap_stops_at_35840_witness :
  exists g' recs,
    LargePcapFile.create_large_pcap (R := RefModel.lcg)
      (T := RefClock.fixed_point_time) (1024 * 1700000000) 40000 (42, [])
    = (Raise StructError, (g', global_header_bytes ++ List.concat recs)) /\
    len (global_header_bytes ++ List.concat recs) = 471260184.
Proof.
  destruct (large_pcap_stops_at_35840 RefModel.fixed_point RefModel.lcg
              RefClock.fixed_point_time (1024 * 1700000000) 40000 42 []
              lcg_randint_within fixed_point_trig_within ltac:(lia)
              (fun i Hi => ref_clock_linear (1024 * 1700000000) i 714 (-7)
                             35840
                             ltac:(lia) Hi ltac:(vm_compute; discriminate)
                             ltac:(vm_compute; reflexivity)))
    as (g' & recs & Hrun & _ & Hlen).
  exists g', recs. split; [exact Hrun | exact Hlen].
Defined.

Lemma simple_pcap_layout_witness :
  exists g' recs,
    TestSamplesFile.create_test_pcap_simple (R := RefModel.lcg)
      (T := RefClock.fixed_point_time) (1024 * 1700000000) (42, [])
    = (Ok tt, (g', global_header_bytes ++ List.concat recs)) /\
    len (global_header_bytes ++ List.concat recs) = 65769.
Proof.
  destruct (simple_pcap_layout RefModel.fixed_point RefModel.lcg
              RefClock.fixed_point_time (1024 * 1700000000) 42 []
              (fun i Hi => ref_clock_linear (1024 * 1700000000) i 1 (-3) 5
                             ltac:(lia) Hi ltac:(vm_compute; discriminate)
                             ltac:(vm_compute; reflexivity)))
    as (g' & recs & Hrun & _ & Hlen).
  exists g', recs. split; [exact Hrun | exact Hlen].
Defined.

Lemma sample_pcap_layout_witness :
  exists g' recs,
    SamplePcapFile.create_sample_pcap (R := RefModel.lcg)
      (T := RefClock.fixed_point_time) (1024 * 1700000000) (42, [])
    = (Ok tt, (g', global_header_bytes ++ List.concat recs)) /\
    len (global_header_bytes ++ List.concat recs) = 105216.
Proof.
  destruct (sample_pcap_layout RefModel.fixed_point RefModel.lcg
              RefClock.fixed_point_time (1024 * 1700000000) 42 []
              (fun i Hi => ref_clock_linear (1024 * 1700000000) i 1 (-3) 8
                             ltac:(lia) Hi ltac:(vm_compute; discriminate)
                             ltac:(vm_compute; reflexivity)))
    as (g' & recs & Hrun & _ & Hlen).
  exists g', recs. split; [exact Hrun | exact Hlen].
Defined.

Lemma rms_pcap_layout_witness :
  exists g' recs,
    TestSamplesFile.create_test_pcap_rms_variations (R := RefModel.lcg)
      (T := RefClock.fixed_point_time) (1024 * 1700000000) (42, [])
    = (Ok tt, (g', global_header_bytes ++ List.concat recs)) /\
    len (global_header_bytes ++ List.concat recs) = 65769.
Proof.
  destruct (rms_pcap_layout RefModel.fixed_point RefModel.lcg
              RefClock.fixed_point_time (1024 * 1700000000) 42 []
              (fun i Hi => ref_clock_linear (1024 * 1700000000) i 2 (-3) 5
                             ltac:(lia) Hi ltac:(vm_compute; discriminate)
                             ltac:(vm_compute; reflexivity)))
    as (g' & recs & Hrun & _ & Hlen).
  exists g', recs. split; [exact Hrun | exact Hlen].
Defined.

Lemma frame_sequence_layout_witness :
  exists g' recs,
    TestSamplesFile.create_test_pcap_frame_sequence (R := RefModel.lcg)
      (T := RefClock.fixed_point_time) (1024 * 1700000000) (42, [])
    = (Ok 280, (g', global_header_bytes ++ List.concat recs)) /\
    len (global_header_bytes ++ List.concat recs) = 3681744.
Proof.
  destruct (frame_sequence_layout RefModel.fixed_point RefModel.lcg
              RefClock.fixed_point_time (1024 * 1700000000) 42 []
              ref_frame_sequence_clock)
    as (g' & recs & Hrun & _ & Hlen).
  exists g', recs. split; [exact Hrun | exact Hlen].
Defined.

(** ** Sample amplitudes *)

Section AmplitudeFacts.

Context {F : PyFloat} {R : PyRandom F}.

Lemma for_range_sample_bound (P : Z * Z -> Prop) (xs : list Z)
  (body : Z -> py bytes) :
  (forall i s, In i xs ->
     exists iq s', body i s = (Ok (encode_sample iq), s') /\ P iq) ->
  forall s,
  exists vals s',
    for_range xs body s = (Ok (map encode_sample vals), s') /\
    (Forall P vals /\ List.length vals = List.length xs).
Proof.
  induction xs as [|i xs IH]; intros Hbody s.
  - exists [], s. repeat split. constructor.
  - destruct (Hbody i s (or_introl eq_refl)) as (iq & s1 & Hb & Hiq).
    destruct (IH (fun j t Hj => Hbody j t (or_intror Hj)) s1)
      as (vals & s2 & Hrest & Hall & Hlen).
    exists (iq :: vals), s2.
    cbn [for_range].
    rewrite (py_bind_ok _ _ _ _ _ Hb), (py_bind_ok _ _ _ _ _ Hrest).
    repeat split.
    + now constructor.
    + cbn [List.length]. now rewrite Hlen.
Qed.

Lemma for_range_stateless (xs : list Z) (body : Z -> py bytes) :
  (forall i, In i xs -> exists b, forall s, body i s = (Ok b, s)) ->
  exists chunks, forall s, for_range xs body s = (Ok chunks, s).
Proof.
  induction xs as [|i xs IH]; intro Hbody.
  - exists []. reflexivity.
  - destruct (Hbody i (or_introl eq_refl)) as (b & Hb).
    destruct (IH (fun j Hj => Hbody j (or_intror Hj))) as (chunks & Hrest).
    exists (b :: chunks). intro s. cbn [for_range].
    now rewrite (py_bind_ok _ _ _ _ _ (Hb s)),
                (py_bind_ok _ _ _ _ _ (Hrest s)).
Qed.

Lemma clamp_within_peak (a i q : Z) :
  0 <= a ->
  within_peak a (i, q) ->
  within_peak a (Z.max (-32768) (Z.min 32767 i),
                 Z.max (-32768) (Z.min 32767 q)).
Proof.
  unfold within_peak. cbn [fst snd]. lia.
Qed.

Ltac draw_randint :=
  erewrite py_bind_ok by (apply random_randint_ok; lia); cbv beta zeta.

Ltac draw_random :=
  erewrite py_bind_ok by (apply random_random_ok); cbv beta zeta.

Ltac do_truediv :=
  erewrite py_bind_ok
    by (unfold lift; rewrite truediv_ok by lia; reflexivity);
  cbv beta zeta.

Ltac loop_within a n :=
  match goal with
  | |- exists vals s', for_range (py_range n) ?body ?s = _ /\ _ =>
      let Hbody := fresh "Hbody" in
      enough (Hbody : forall i t, In i (py_range n) ->
                exists iq t', body i t = (Ok (encode_sample iq), t') /\
                              within_peak a iq);
      [ destruct (for_range_sample_bound (within_peak a) (py_range n) body
                    Hbody s)
          as (vals & s' & Hloop & Hall & Hlen);
        exists vals, s'; rewrite length_py_range in Hlen; auto
      | let i := fresh "i" in
        let t := fresh "t" in
        let Hi := fresh "Hi" in
        intros i t Hi; apply in_py_range in Hi ]
  end.

Ltac trig_within Htrig a :=
  match goal with
  | |- context [math_cos ?x] =>
      let Hc := fresh "Hc" in
      let Hs := fresh "Hs" in
      pose proof (Htrig a x ltac:(lia)) as [Hc Hs]
  end.

Lemma with_pattern_within_peak (num_samples : Z) (pattern : string) g :
  randint_within R -> scaled_trig_within F ->
  exists vals g',
    TestSamples.generate_iq_samples_with_pattern num_samples pattern g
    = (Ok (List.concat (map encode_sample vals)), g') /\
    (Forall (within_peak (pattern_peak pattern)) vals /\
     List.length vals = Z.to_nat num_samples).
Proof.
  intros Hrand Htrig.
  unfold TestSamples.generate_iq_samples_with_pattern.
  apply finish_samples.
  loop_within (pattern_peak pattern) num_samples.
  unfold pattern_peak.
  destruct (String.eqb pattern "sine");
    [|destruct (String.eqb pattern "noise");
      [|destruct (String.eqb pattern "chirp");
        [|destruct (String.eqb pattern "low_power")]]].
  - unfold py_bind at 1. do_truediv. unfold ret. cbn [fst snd].
    rewrite lift_pack_hh_clamped.
    trig_within Htrig 2000.
    do 2 eexists. split; [reflexivity|].
    apply clamp_within_peak; [lia | split; cbn [fst snd]; assumption].
  - unfold py_bind at 1.
    pose proof (Hrand (-5000) 5000 t ltac:(lia)) as Hv1.
    pose proof (Hrand (-5000) 5000 (snd (randint_draw (-5000) 5000 t))
                  ltac:(lia)) as Hv2.
    draw_randint. draw_randint. unfold ret. cbn [fst snd].
    rewrite lift_pack_hh_clamped.
    do 2 eexists. split; [reflexivity|].
    apply clamp_within_peak; [lia | split; cbn [fst snd]; assumption].
  - unfold py_bind at 1. do_truediv. unfold ret. cbn [fst snd].
    rewrite lift_pack_hh_clamped.
    trig_within Htrig 3000.
    do 2 eexists. split; [reflexivity|].
    apply clamp_within_peak; [lia | split; cbn [fst snd]; assumption].
  - unfold py_bind at 1. do_truediv. unfold ret. cbn [fst snd].
    rewrite lift_pack_hh_clamped.
    trig_within Htrig 100.
    do 2 eexists. split; [reflexivity|].
    apply clamp_within_peak; [lia | split; cbn [fst snd]; assumption].
  - unfold py_bind at 1. do_truediv. unfold ret. cbn [fst snd].
    rewrite lift_pack_hh_clamped.
    trig_within Htrig 8000.
    do 2 eexists. split; [reflexivity|].
    apply clamp_within_peak; [lia | split; cbn [fst snd]; assumption].
Qed.

Lemma fast_within_peak (num_samples pattern_type seed : Z) g :
  randint_within R -> scaled_trig_within F ->
  exists vals g',
    LargePcap.generate_iq_samples_fast num_samples pattern_type seed g
    = (Ok (List.concat (map encode_sample vals)), g') /\
    (Forall (within_peak (batch_peak pattern_type)) vals /\
     List.length vals = Z.to_nat num_samples).
Proof.
  intros Hrand Htrig.
  unfold LargePcap.generate_iq_samples_fast.
  unfold py_bind at 1, random_seed.
  apply finish_samples.
  unfold batch_peak.
  destruct (pattern_type =? 0);
    [|destruct (pattern_type =? 1); [|destruct (pattern_type =? 2)]].
  - draw_randint.
    pose proof (Hrand (-500) 500 (seed_state seed) ltac:(lia)) as Ha.
    set (amplitude := 2000 + fst (randint_draw (-500) 500 (seed_state seed)))
      in *.
    draw_random. draw_random.
    loop_within (2000 + 500) num_samples.
    do_truediv. rewrite lift_pack_hh_clamped.
    trig_within Htrig amplitude.
    do 2 eexists. split; [reflexivity|].
    apply clamp_within_peak; [lia | split; cbn [fst snd]; lia].
  - draw_randint.
    pose proof (Hrand (-300) 300 (seed_state seed) ltac:(lia)) as Ha.
    set (amplitude := 1000 + fst (randint_draw (-300) 300 (seed_state seed)))
      in *.
    loop_within (1000 + 300) num_samples.
    pose proof (Hrand (- amplitude) amplitude t ltac:(lia)) as Hv1.
    pose proof (Hrand (- amplitude) amplitude
                  (snd (randint_draw (- amplitude) amplitude t)) ltac:(lia))
      as Hv2.
    draw_randint. draw_randint.
    unfold lift. rewrite pack_hh_ok by (unfold int16; lia).
    do 2 eexists. split; [reflexivity|].
    split; cbn [fst snd]; lia.
  - draw_randint.
    pose proof (Hrand (-50) 50 (seed_state seed) ltac:(lia)) as Ha.
    set (amplitude := 200 + fst (randint_draw (-50) 50 (seed_state seed)))
      in *.
    loop_within (200 + 50) num_samples.
    do_truediv.
    trig_within Htrig amplitude.
    unfold lift. rewrite pack_hh_ok by (unfold int16; lia).
    do 2 eexists. split; [reflexivity|].
    split; cbn [fst snd]; lia.
  - draw_randint.
    pose proof (Hrand (-1000) 1000 (seed_state seed) ltac:(lia)) as Ha.
    set (amplitude := 6000 + fst (randint_draw (-1000) 1000 (seed_state seed)))
      in *.
    loop_within (6000 + 1000) num_samples.
    do_truediv. rewrite lift_pack_hh_clamped.
    trig_within Htrig amplitude.
    do 2 eexists. split; [reflexivity|].
    apply clamp_within_peak; [lia | split; cbn [fst snd]; lia].
Qed.

Lemma with_pattern_stateless (num_samples : Z) (pattern : string) :
  String.eqb pattern "noise" = false ->
  exists iq, forall g,
    TestSamples.generate_iq_samples_with_pattern num_samples pattern g
    = (Ok iq, g).
Proof.
  intro Hnoise.
  unfold TestSamples.generate_iq_samples_with_pattern.
  match goal with
  | |- exists iq, forall g, py_bind (for_range _ ?body) _ g = _ =>
      destruct (for_range_stateless (py_range num_samples) body)
        as (chunks & Hloop)
  end.
  - intros i Hi. apply in_py_range in Hi. rewrite Hnoise.
    destruct (String.eqb pattern "sine");
      [|destruct (String.eqb pattern "chirp");
        [|destruct (String.eqb pattern "low_power")]].
    all: eexists; intro s.
    all: unfold py_bind at 1; do_truediv; unfold ret; cbn [fst snd].
    all: apply lift_pack_hh_clamped.
  - exists (List.concat chunks). intro g.
    now rewrite (py_bind_ok _ _ _ _ _ (Hloop g)).
Qed.

End AmplitudeFacts.

(** X18: with randint inside its bounds and the scaled cosine and sine
    inside the amplitude, every sample that
    [generate_iq_samples_with_pattern] returns stays within the peak of
    its pattern: 2000 for sine, 5000 for noise, 3000 for chirp, 100 for
    low_power and 8000 for high_power and for any other name.  The call
    does not raise and returns one sample per index. *)
Theorem test_pattern_amplitude (F : PyFloat) (R : PyRandom F)
  (num_samples : Z) (pattern : string) (g : rng_state) :
  randint_within R -> scaled_trig_within F ->
  exists vals g',
    TestSamples.generate_iq_samples_with_pattern num_samples pattern g
    = (Ok (List.concat (map encode_sample vals)), g') /\
    Forall (within_peak (pattern_peak pattern)) vals /\
    List.length vals = Z.to_nat num_samples.
Proof.
  intros Hrand Htrig.
  destruct (with_pattern_within_peak num_samples pattern g Hrand Htrig)
    as (vals & g' & Hok & Hall & Hlen).
  now exists vals, g'.
Qed.

Lemma test_pattern_amplitude_witness :
  exists vals g',
    TestSamples.generate_iq_samples_with_pattern (R := RefModel.lcg)
      8 "low_power" 42
    = (Ok (List.concat (map encode_sample vals)), g') /\
    Forall (within_peak 100) vals /\
    List.length vals = 8%nat.
Proof.
  exact (test_pattern_amplitude RefModel.fixed_point RefModel.lcg
           8 "low_power" 42 lcg_randint_within fixed_point_trig_within).
Defined.

(** X19: under the same two conditions every sample that
    [generate_iq_samples_fast] returns stays within the base amplitude of
    its pattern type plus the largest jitter: 2500 for type 0, 1300 for
    type 1, 250 for type 2 and 7000 for every other type.  The call does
    not raise and returns one sample per index. *)
Theorem batch_pattern_amplitude (F : PyFloat) (R : PyRandom F)
  (num_samples pattern_type seed : Z) (g : rng_state) :
  randint_within R -> scaled_trig_within F ->
  exists vals g',
    LargePcap.generate_iq_samples_fast num_samples pattern_type seed g
    = (Ok (List.concat (map encode_sample vals)), g') /\
    Forall (within_peak (batch_peak pattern_type)) vals /\
    List.length vals = Z.to_nat num_samples.
Proof.
  intros Hrand Htrig.
  destruct (fast_within_peak num_samples pattern_type seed g Hrand Htrig)
    as (vals & g' & Hok & Hall & Hlen).
  now exists vals, g'.
Qed.

Lemma batch_pattern_amplitude_witness :
  exists vals g',
    LargePcap.generate_iq_samples_fast (R := RefModel.lcg) 8 2 42 0
    = (Ok (List.concat (map encode_sample vals)), g') /\
    Forall (within_peak 250) vals /\
    List.length vals = 8%nat.
Proof.
  exact (batch_pattern_amplitude RefModel.fixed_point RefModel.lcg
           8 2 42 0 lcg_randint_within fixed_point_trig_within).
Defined.

(** X20: for every pattern name other than noise,
    [generate_iq_samples_with_pattern] draws nothing from the random
    module: it returns the same bytes whatever the module's state and
    leaves that state as it found it. *)
Theorem trig_patterns_ignore_rng (F : PyFloat) (R : PyRandom F)
  (num_samples : Z) (pattern : string) :
  pattern <> "noise"%string ->
  exists iq, forall g,
    TestSamples.generate_iq_samples_with_pattern num_samples pattern g
    = (Ok iq, g).
Proof.
  intro Hp. apply with_pattern_stateless.
  now apply String.eqb_neq.
Qed.

Lemma trig_patterns_ignore_rng_witness :
  exists iq, forall g,
    TestSamples.generate_iq_samples_with_pattern (R := RefModel.lcg)
      8 "chirp" g
    = (Ok iq, g).
Proof.
  apply (trig_patterns_ignore_rng RefModel.fixed_point RefModel.lcg
           8 "chirp").
  discriminate.
Defined.
